(** * jalapi: endpoint discovery, fusion and chunking

    A shallow embedding of the detection-and-fusion pipeline of jalapi
    (path normalisation, the regex detector, the chunker, the per-chunk
    loop of the LLM detector, deduplication and statistics), followed by
    the properties established about it.

    Conventions.  A Python [str] is a Rocq [string]; a character is the
    code point of the same number, so the development speaks about text
    whose code points are below 256.  Offsets into a string and line
    numbers are [Z], as Python integers are.  A confidence is a rational
    number: the fusion code only compares confidences and takes the larger
    one, which is exact on floats, and no rounding is modelled anywhere. *)

From Stdlib Require Import Bool Arith ZArith QArith Qminmax Lia List.
From Stdlib Require Import Ascii String Sorting.Sorted Permutation.
Import ListNotations.

Set Warnings "-register-all".

Local Open Scope string_scope.
Local Open Scope list_scope.

(** ** Python built-ins used by the sources *)

Module Py.

Definition ord (c : ascii) : nat := nat_of_ascii c.

Definition in_range (lo hi : nat) (c : ascii) : bool :=
  (lo <=? ord c)%nat && (ord c <=? hi)%nat.

(** [str.isspace] on one character, for code points below 256. *)
Definition isspace (c : ascii) : bool :=
  in_range 9 13 c || in_range 28 32 c
  || (ord c =? 133)%nat || (ord c =? 160)%nat.

(** [c.lower()] for code points below 256: the letters A to Z and the
    accented capitals of Latin-1 move up by 32. *)
Definition lower (c : ascii) : ascii :=
  if in_range 65 90 c || in_range 192 214 c || in_range 216 222 c
  then ascii_of_nat (ord c + 32) else c.

(** [c.upper()] on the characters whose capital is below 256.  (The
    capitals of the sharp s, the micro sign and the y with diaeresis lie
    outside; the sources apply [upper] to a matched verb only.) *)
Definition upper (c : ascii) : ascii :=
  if in_range 97 122 c || in_range 224 246 c || in_range 248 254 c
  then ascii_of_nat (ord c - 32) else c.

Fixpoint str_map (f : ascii -> ascii) (s : string) : string :=
  match s with
  | EmptyString => EmptyString
  | String c rest => String (f c) (str_map f rest)
  end.

(** [s.lower()] and [s.upper()] *)
Definition str_lower (s : string) : string := str_map lower s.
Definition str_upper (s : string) : string := str_map upper s.

Definition len (s : string) : Z := Z.of_nat (String.length s).

(** [c in chars], the membership test [str.strip(chars)] applies. *)
Fixpoint char_in (c : ascii) (chars : string) : bool :=
  match chars with
  | EmptyString => false
  | String d rest => Ascii.eqb c d || char_in c rest
  end.

Fixpoint lstrip (p : ascii -> bool) (s : string) : string :=
  match s with
  | EmptyString => EmptyString
  | String c rest => if p c then lstrip p rest else s
  end.

(** Trailing characters satisfying [p] are dropped: a character stays
    when it fails [p] or when something after it stays. *)
Fixpoint rstrip (p : ascii -> bool) (s : string) : string :=
  match s with
  | EmptyString => EmptyString
  | String c rest =>
      match rstrip p rest with
      | EmptyString => if p c then EmptyString else String c EmptyString
      | kept => String c kept
      end
  end.

(** [s.strip(chars)] *)
Definition strip_chars (chars : string) (s : string) : string :=
  rstrip (fun c => char_in c chars) (lstrip (fun c => char_in c chars) s).

(** [s.strip()] *)
Definition strip (s : string) : string := rstrip isspace (lstrip isspace s).

(** [s.split(sep)] for a separator of one character: every occurrence
    cuts, so the result is never empty. *)
Fixpoint split (sep : ascii) (s : string) : list string :=
  match s with
  | EmptyString => [EmptyString]
  | String c rest =>
      if Ascii.eqb c sep then EmptyString :: split sep rest
      else match split sep rest with
           | piece :: pieces => String c piece :: pieces
           | [] => [String c EmptyString]
           end
  end.

(** [sep.join(pieces)] *)
Definition join (sep : string) (pieces : list string) : string :=
  String.concat sep pieces.

(** [sub in s] for a pattern of one character. *)
Fixpoint contains (c : ascii) (s : string) : bool :=
  match s with
  | EmptyString => false
  | String d rest => Ascii.eqb d c || contains c rest
  end.

(** [s.count(c)] for one character. *)
Fixpoint count (c : ascii) (s : string) : Z :=
  match s with
  | EmptyString => 0%Z
  | String d rest => ((if Ascii.eqb d c then 1 else 0) + count c rest)%Z
  end.

(** An index of a slice, as Python normalises it: a negative index
    counts from the end, and the result is clamped to [0, len]. *)
Definition slice_index (n i : Z) : Z :=
  Z.max 0 (Z.min n (if (i <? 0)%Z then (i + n)%Z else i)).

(** [s[a:b]] *)
Definition slice (s : string) (a b : Z) : string :=
  let a := slice_index (len s) a in
  let b := slice_index (len s) b in
  String.substring (Z.to_nat a) (Z.to_nat (b - a)) s.

(** [sub in s] *)
Fixpoint str_in (sub s : string) : bool :=
  String.prefix sub s
  || match s with
     | String _ rest => str_in sub rest
     | EmptyString => false
     end.

(** Whether [sub] occurs in [s] at offset [i], for [0 <= i]. *)
Definition occurs_at (sub s : string) (i : Z) : bool :=
  String.prefix sub (String.substring (Z.to_nat i) (String.length s - Z.to_nat i) s).

(** The highest offset among [lo], ..., [lo + span - 1] at which [sub]
    occurs in [s], or [-1]. *)
Fixpoint rfind_below (sub s : string) (lo : Z) (span : nat) : Z :=
  match span with
  | O => (-1)%Z
  | S n =>
      if occurs_at sub s (lo + Z.of_nat n) then (lo + Z.of_nat n)%Z
      else rfind_below sub s lo n
  end.

(** [s.rfind(sub, a, b)]: the highest offset of an occurrence of [sub]
    lying within [s[a:b]], or [-1]. *)
Definition rfind (s sub : string) (a b : Z) : Z :=
  let a := slice_index (len s) a in
  let b := slice_index (len s) b in
  rfind_below sub s a (Z.to_nat (b - len sub - a + 1)).

(** Membership in a list of strings, as [x in collection]. *)
Fixpoint mem (x : string) (l : list string) : bool :=
  match l with
  | [] => false
  | y :: rest => String.eqb x y || mem x rest
  end.

(** [set(l)]: the distinct elements; only membership, insertion and
    [sorted] are applied to it, so its iteration order is immaterial. *)
Fixpoint set (l : list string) : list string :=
  match l with
  | [] => []
  | x :: rest => if mem x rest then set rest else x :: set rest
  end.

Definition set_add (x : string) (s : list string) : list string :=
  if mem x s then s else x :: s.

Fixpoint insert_sorted (x : string) (l : list string) : list string :=
  match l with
  | [] => [x]
  | y :: rest => if String.leb x y then x :: l else y :: insert_sorted x rest
  end.

(** [sorted(l)] on strings: code-point lexicographic order. *)
Fixpoint sorted (l : list string) : list string :=
  match l with
  | [] => []
  | x :: rest => insert_sorted x (sorted rest)
  end.

(** The comparison [a > b] on confidences. *)
Definition gt (a b : Q) : bool := negb (Qle_bool a b).

(** [max(a, b)]: the first argument unless the second is larger. *)
Definition max (a b : Q) : Q := if gt b a then b else a.

(** [min(a, b)]: the first argument unless the second is smaller. *)
Definition min (a b : Q) : Q := if gt a b then b else a.

(** Values as structured data carries them (the LLM response, the
    serialised result). *)
Inductive value : Type :=
| VNone
| VBool (b : bool)
| VNum (q : Q)
| VStr (s : string)
| VList (items : list value)
| VDict (entries : list (string * value)).

(** [d.get(k)] on the entries of a dict. *)
Fixpoint lookup (k : string) (entries : list (string * value)) : option value :=
  match entries with
  | [] => None
  | (k', v) :: rest => if String.eqb k k' then Some v else lookup k rest
  end.

End Py.

(** ** The regular expressions of Python's [re], as the sources use them

    The patterns of the sources use literal characters, character classes,
    greedy repetition of a single character or class, alternation, groups
    and the end anchor.  A pattern is data; the flag [re.IGNORECASE] is
    given at each call, as in the sources.  Matching is Python's: leftmost,
    alternatives tried in order, repetitions greedy with backtracking. *)

Module Re.

Inductive atom : Type :=
| Lit (c : ascii)
| Cls (p : ascii -> bool).

Inductive regex : Type :=
| Eps
| One (a : atom)
| Star (a : atom)
| Opt (a : atom)
| Cat (r1 r2 : regex)
| Alt (r1 r2 : regex)
| Grp (n : nat) (r : regex)
| Eos.

(** Whether character [c] matches atom [a]; a literal ignores case under
    [re.IGNORECASE].  The classes of the sources (quotes, their
    complement, space, digit, word) are closed under case. *)
Definition atom_ok (icase : bool) (a : atom) (c : ascii) : bool :=
  match a with
  | Lit d => if icase then Ascii.eqb (Py.lower c) (Py.lower d) else Ascii.eqb c d
  | Cls p => p c
  end.

(** The text of groups that took part in the match, latest first. *)
Definition captures : Type := list (nat * string).

Fixpoint group (n : nat) (caps : captures) : option string :=
  match caps with
  | [] => None
  | (m, text) :: rest => if (n =? m)%nat then Some text else group n rest
  end.

(** What was consumed between the text [s] and its suffix [rest]. *)
Definition consumed (s rest : string) : string :=
  String.substring 0 (String.length s - String.length rest) s.

Section Matching.
Context {R : Type}.
Variable icase : bool.

Fixpoint star (a : atom) (s : string) (k : string -> option R) : option R :=
  match s with
  | String c rest =>
      if atom_ok icase a c then
        match star a rest k with
        | Some x => Some x
        | None => k s
        end
      else k s
  | EmptyString => k s
  end.

(** [run r s caps k]: match [r] at the head of [s], then hand the rest
    of the text to [k]; a failure of [k] makes the matcher backtrack. *)
Fixpoint run (r : regex) (s : string) (caps : captures)
         (k : string -> captures -> option R) : option R :=
  match r with
  | Eps => k s caps
  | One a =>
      match s with
      | String c rest => if atom_ok icase a c then k rest caps else None
      | EmptyString => None
      end
  | Star a => star a s (fun rest => k rest caps)
  | Opt a =>
      match s with
      | String c rest =>
          if atom_ok icase a c then
            match k rest caps with
            | Some x => Some x
            | None => k s caps
            end
          else k s caps
      | EmptyString => k s caps
      end
  | Cat r1 r2 => run r1 s caps (fun rest caps' => run r2 rest caps' k)
  | Alt r1 r2 =>
      match run r1 s caps k with
      | Some x => Some x
      | None => run r2 s caps k
      end
  | Grp n r1 =>
      run r1 s caps (fun rest caps' => k rest ((n, consumed s rest) :: caps'))
  | Eos =>
      match s with
      | EmptyString => k s caps
      | String c EmptyString => if Ascii.eqb c (ascii_of_nat 10) then k s caps else None
      | _ => None
      end
  end.
End Matching.

(** A match at the head of [s]: the text left over and the groups. *)
Definition match_at (icase : bool) (r : regex) (s : string)
  : option (string * captures) :=
  run icase r s [] (fun rest caps => Some (rest, caps)).

Record Match : Type := mkMatch {
  m_start : Z;
  m_end : Z;
  m_caps : captures
}.

(** [re.search]: the match at the leftmost position that has one. *)
Fixpoint search_from (icase : bool) (r : regex) (pos : Z) (s : string)
  : option Match :=
  match match_at icase r s with
  | Some (rest, caps) =>
      Some (mkMatch pos (pos + Py.len s - Py.len rest) caps)
  | None =>
      match s with
      | String _ rest => search_from icase r (pos + 1) rest
      | EmptyString => None
      end
  end.

Definition search (icase : bool) (r : regex) (s : string) : option Match :=
  search_from icase r 0 s.

Definition found (icase : bool) (r : regex) (s : string) : bool :=
  match search icase r s with
  | Some _ => true
  | None => false
  end.

(** [re.finditer]: the matches from left to right, none overlapping.
    The scan resumes where a match ended (one character further after an
    empty match); [fuel] bounds the number of resumptions and
    [S (length s)] of them always suffice. *)
Fixpoint finditer_from (fuel : nat) (icase : bool) (r : regex) (pos : Z)
         (s : string) : list Match :=
  match fuel with
  | O => []
  | S fuel' =>
      let advance :=
        match s with
        | String _ rest => finditer_from fuel' icase r (pos + 1) rest
        | EmptyString => []
        end in
      match match_at icase r s with
      | Some (rest, caps) =>
          let stop := (pos + Py.len s - Py.len rest)%Z in
          mkMatch pos stop caps ::
            (if (String.length rest <? String.length s)%nat
             then finditer_from fuel' icase r stop rest
             else advance)
      | None => advance
      end
  end.

Definition finditer (icase : bool) (r : regex) (s : string) : list Match :=
  finditer_from (S (String.length s)) icase r 0 s.

(** [re.sub(r, repl, s)], the replacement computed from the groups. *)
Fixpoint sub_from (fuel : nat) (icase : bool) (r : regex)
         (repl : captures -> string) (s : string) : string :=
  match fuel with
  | O => s
  | S fuel' =>
      match match_at icase r s with
      | Some (rest, caps) =>
          if (String.length rest <? String.length s)%nat
          then repl caps ++ sub_from fuel' icase r repl rest
          else match s with
               | String c rest' => repl caps ++ String c (sub_from fuel' icase r repl rest')
               | EmptyString => repl caps
               end
      | None =>
          match s with
          | String c rest' => String c (sub_from fuel' icase r repl rest')
          | EmptyString => EmptyString
          end
      end
  end.

Definition sub (icase : bool) (r : regex) (repl : captures -> string)
           (s : string) : string :=
  sub_from (S (String.length s)) icase r repl s.

(** Number of groups of a pattern, and [match.groups()]. *)
Fixpoint ngroups (r : regex) : nat :=
  match r with
  | Cat r1 r2 | Alt r1 r2 => Nat.max (ngroups r1) (ngroups r2)
  | Grp n r1 => Nat.max n (ngroups r1)
  | _ => O
  end.

Definition groups (r : regex) (m : Match) : list (option string) :=
  map (fun n => group n (m_caps m)) (seq 1 (ngroups r)).

(** *** Pattern combinators *)

Fixpoint lit (s : string) : regex :=
  match s with
  | EmptyString => Eps
  | String c EmptyString => One (Lit c)
  | String c rest => Cat (One (Lit c)) (lit rest)
  end.

Definition plus (a : atom) : regex := Cat (One a) (Star a).

Fixpoint cat (rs : list regex) : regex :=
  match rs with
  | [] => Eps
  | [r] => r
  | r :: rest => Cat r (cat rest)
  end.

Fixpoint alt (rs : list regex) : regex :=
  match rs with
  | [] => Eps
  | [r] => r
  | r :: rest => Alt r (alt rest)
  end.

Definition dquote : ascii := ascii_of_nat 34.

(** The three quote characters: backtick, single and double quote. *)
Definition quote_chars : string := String "`" (String "'" (String dquote EmptyString)).

Definition is_quote (c : ascii) : bool := Py.char_in c quote_chars.

Definition isdigit (c : ascii) : bool := Py.in_range 48 57 c.

(** The class of word characters below 256: letters, digits and the
    underscore, with the accented letters and numerals of Latin-1. *)
Definition isword (c : ascii) : bool :=
  Py.in_range 48 57 c || Py.in_range 65 90 c || Py.in_range 97 122 c
  || (Py.ord c =? 95)%nat || (Py.ord c =? 170)%nat || Py.in_range 178 179 c
  || (Py.ord c =? 181)%nat || Py.in_range 185 186 c || Py.in_range 188 190 c
  || Py.in_range 192 214 c || Py.in_range 216 246 c || Py.in_range 248 255 c.

Definition ws : regex := Star (Cls Py.isspace).
Definition quote : regex := One (Cls is_quote).
Definition unquoted : atom := Cls (fun c => negb (is_quote c)).

End Re.

(** ** models.py *)

Record AuthInfo : Type := mkAuthInfo {
  required : bool;
  type_ : option string;
  location : option string
}.

(** [AuthInfo()] *)
Definition AuthInfo_default : AuthInfo := mkAuthInfo false None None.

Record Endpoint : Type := mkEndpoint {
  path : string;
  method : string;
  auth : AuthInfo;
  confidence : Q;
  detector : string;
  context : option string;
  line_number : option Z
}.

(** ** endpoint_processor.py *)

Module EndpointProcessor.
Import Re.

(** The template pattern: a dollar sign, an opening brace, one or more
    characters other than the closing brace in group 1, a closing brace. *)
Definition template : regex :=
  cat [lit "${"; Grp 1 (plus (Cls (fun c => negb (Ascii.eqb c "}")))); lit "}"].

Definition braces (caps : captures) : string :=
  "{" ++ match group 1 caps with Some g => g | None => EmptyString end ++ "}".

(** One or more slashes. *)
Definition slashes : regex := plus (Lit "/").

Definition normalize_path (url : string) : string :=
  let url := Re.sub false template braces url in
  let url := Py.strip_chars quote_chars url in
  let url := Re.sub false slashes (fun _ => "/") url in
  url.

Definition api_patterns : list regex :=
  [ lit "/api/";
    cat [lit "/v"; plus (Cls isdigit); lit "/"];
    lit "/graphql";
    lit "/rest/";
    lit "/auth/";
    cat [lit "/oauth"; Opt (Lit "2"); lit "/"];
    lit "/rpc/";
    lit "/webhook";
    lit "/data";
    lit "/service";
    cat [lit "/event"; Opt (Lit "s"); lit "/"];
    cat [lit "/user"; Opt (Lit "s"); lit "/"];
    cat [lit "/"; plus (Cls isword); lit "/{"; plus (Cls isword); lit "}"];
    cat [lit "/ml"; One (Cls (fun c => Py.char_in c "-/"))];
    lit "/sync";
    cat [lit "/report"; Opt (Lit "s"); lit "/"];
    lit "/tasks/";
    lit "/export/";
    lit "/version-info/";
    lit "/features/";
    lit "/preferences";
    cat [lit "/profile"; Eos];
    lit "/activity/";
    lit "/mfa/";
    cat [lit "/challenge"; Eos];
    cat [lit "/predict"; Eos];
    cat [lit "/token"; Eos];
    cat [lit "/refresh"; Eos];
    cat [lit "/revoke"; Eos];
    cat [lit "/test"; Eos] ].

Definition is_endpoint (url : string) : bool :=
  let url := Py.strip_chars quote_chars url in
  existsb (fun pattern => Re.found true pattern url) api_patterns.

End EndpointProcessor.

(** ** regex_analyzer.py *)

Module RegexAnalyzer.
Import Re.

Definition verbs : regex :=
  alt [lit "get"; lit "post"; lit "put"; lit "delete"; lit "patch"].

(** A quoted string whose content is group [n]. *)
Definition quoted (n : nat) : regex :=
  cat [quote; Grp n (plus unquoted); quote].

Definition patterns : list regex :=
  [ (* Axios *)
    cat [lit "axios."; verbs; ws; lit "("; ws; quoted 1];
    cat [lit "axios"; ws; lit "("; ws; lit "{"; ws; lit "url:"; ws; quoted 1];
    (* Fetch *)
    cat [lit "fetch"; ws; lit "("; ws; quoted 1];
    cat [lit "fetch"; ws; lit "("; ws; lit "`";
         Grp 1 (plus (Cls (fun c => negb (Ascii.eqb c "`")))); lit "`"];
    (* jQuery *)
    cat [lit "$.ajax"; ws; lit "("; ws; lit "{"; ws; lit "url:"; ws; quoted 1];
    cat [lit "$."; Grp 1 verbs; ws; lit "("; ws; quoted 2];
    (* Common patterns *)
    cat [lit "url"; ws; lit ":"; ws; quoted 1];
    cat [lit "endpoint"; ws; lit ":"; ws; quoted 1];
    cat [lit "path"; ws; lit ":"; ws; quoted 1];
    (* API endpoints *)
    cat [quote; Grp 1 (cat [lit "/api/"; plus unquoted]); quote];
    cat [quote; Grp 1 (cat [lit "/v"; plus (Cls isdigit); lit "/"; plus unquoted]); quote] ].

Definition auth_patterns : list (regex * string * string) :=
  [ (cat [lit "Authorization"; ws; lit ":"; ws; quote; lit "Bearer"], "Bearer", "header");
    (lit "X-API-Key", "apiKey", "header");
    (cat [lit "api"; Opt (Cls (fun c => Py.char_in c "_-")); lit "key"], "apiKey", "query");
    (cat [lit "token"; ws; lit ":"], "token", "body") ].

Definition generic_auth : regex :=
  alt [lit "auth"; lit "token"; lit "jwt"; lit "apikey"].

Definition _get_context (content : string) (position window : Z) : string :=
  let start := Z.max 0 (position - window / 2) in
  let end_ := Z.min (Py.len content) (position + window / 2) in
  Py.slice content start end_.

Fixpoint first_auth (table : list (regex * string * string)) (context : string)
  : option AuthInfo :=
  match table with
  | [] => None
  | (pattern, auth_type, loc) :: rest =>
      if Re.found true pattern context
      then Some (mkAuthInfo true (Some auth_type) (Some loc))
      else first_auth rest context
  end.

Definition _detect_auth (context : string) : AuthInfo :=
  match first_auth auth_patterns context with
  | Some info => info
  | None =>
      if Re.found true generic_auth context
      then mkAuthInfo true None None
      else mkAuthInfo false None None
  end.

(** The first group that is non-empty and holds a slash or the text api. *)
Fixpoint pick_path (groups : list (option string)) : option string :=
  match groups with
  | [] => None
  | Some (String c rest) :: more =>
      let g := String c rest in
      if Py.contains "/" g || Py.str_in "api" (Py.str_lower g) then Some g
      else pick_path more
  | _ :: more => pick_path more
  end.

(** The method read from the context window. *)
Definition detect_method (context : string) : string :=
  match Re.search true (Grp 1 verbs) context with
  | Some method_match =>
      match group 1 (m_caps method_match) with
      | Some g => Py.str_upper g
      | None => "UNKNOWN"
      end
  | None => "UNKNOWN"
  end.

(** The body of the inner loop; the state is [(endpoints, seen_paths)]. *)
Definition visit (js_content : string) (pattern : regex)
           (state : list Endpoint * list string) (m : Match)
  : list Endpoint * list string :=
  let '(endpoints, seen_paths) := state in
  match pick_path (Re.groups pattern m) with
  | None => state
  | Some path =>
      let path := EndpointProcessor.normalize_path path in
      if negb (EndpointProcessor.is_endpoint path) || Py.mem path seen_paths
      then state
      else
        let seen_paths := path :: seen_paths in
        let context := _get_context js_content (m_start m) 200 in
        let method := detect_method context in
        let auth := _detect_auth context in
        let line_number :=
          (Py.count (ascii_of_nat 10) (Py.slice js_content 0 (m_start m)) + 1)%Z in
        let endpoint :=
          {| path := path;
             method := method;
             auth := auth;
             confidence := 7 # 10;
             detector := "regex";
             context := None;
             line_number := Some line_number |} in
        (endpoints ++ [endpoint], seen_paths)
  end.

Definition discover_endpoints (js_content : string) : list Endpoint :=
  fst (fold_left
         (fun state pattern =>
            fold_left (visit js_content pattern)
                      (Re.finditer true pattern js_content) state)
         patterns ([], [])).

End RegexAnalyzer.

(** ** chunk.py *)

Module Chunk.
Import Re.

(** A declaration of a configuration object: the word const, space, one
    of the known names, optional space, an equals sign. *)
Definition config_decl : regex :=
  cat [lit "const"; plus (Cls Py.isspace);
       alt [lit "CONFIG"; lit "config"; lit "API"; lit "api";
            lit "endpoints"; lit "ENDPOINTS"; lit "routes"; lit "ROUTES"];
       ws; lit "="].

Definition nl : string := String (ascii_of_nat 10) EmptyString.

Definition delimiters : list string :=
  [ (nl ++ "}")%string; (nl ++ "});")%string;
    (nl ++ "  });")%string; (nl ++ "    });")%string ].

Definition config_context (code : string) : string :=
  let config_sections :=
    map (fun m =>
           let config_start := m_start m in
           let config_end := Z.min (m_end m + 500) (Py.len code) in
           Py.slice code config_start config_end)
        (Re.finditer false config_decl code) in
  Py.join (nl ++ nl) config_sections.

(** The inner [for] loop: the first delimiter found after [start] moves
    the end of the window just behind it. *)
Fixpoint snap (code : string) (start end_ : Z) (ds : list string) : Z :=
  match ds with
  | [] => end_
  | delimiter :: rest =>
      let last_delimiter := Py.rfind code delimiter start end_ in
      if (start <? last_delimiter)%Z then (last_delimiter + Py.len delimiter)%Z
      else snap code start end_ rest
  end.

(** The end offset the loop settles on for the window opened at [start]. *)
Definition window_end (code : string) (max_size start : Z) : Z :=
  let end_ := Z.min (start + max_size) (Py.len code) in
  if (end_ <? Py.len code)%Z then snap code start end_ delimiters else end_.

Definition next_start (max_size overlap start end_ : Z) : Z :=
  let progress := Z.max (max_size / 3) (max_size - overlap) in
  Z.min end_ (start + progress).

(** The [while] loop, as the list of windows [(start, end)] it visits.
    Each round emits one chunk, which is a function of its window.
    [None] when the loop is still running after [fuel] rounds. *)
Fixpoint windows (fuel : nat) (code : string) (max_size overlap start : Z)
  : option (list (Z * Z)) :=
  if (start <? Py.len code)%Z then
    match fuel with
    | O => None
    | S fuel' =>
        let end_ := window_end code max_size start in
        match windows fuel' code max_size overlap
                      (next_start max_size overlap start end_) with
        | Some rest => Some ((start, end_) :: rest)
        | None => None
        end
    end
  else Some [].

(** The tuple [(chunk, context, start_line)] appended for a window. *)
Definition emit (code : string) (w : Z * Z) : string * string * Z :=
  let '(start, end_) := w in
  let chunk := Py.slice code start end_ in
  let start_line := (Py.count (ascii_of_nat 10) (Py.slice code 0 start) + 1)%Z in
  let cc := config_context code in
  let context :=
    match cc with
    | EmptyString => EmptyString
    | _ => ("IMPORTANT CONFIGURATION:" ++ nl ++ cc)%string
    end in
  (chunk, context, start_line).

(** [simple_chunk_code], run for at most [fuel] rounds of its loop. *)
Definition simple_chunk_code (fuel : nat) (code : string) (max_size overlap : Z)
  : option (list (string * string * Z)) :=
  option_map (map (emit code)) (windows fuel code max_size overlap 0).

End Chunk.

(** ** llm_analyzer.py *)

Module LLMAnalyzer.

(** The [Endpoint] the analyzer builds from one record of a response.
    The dataclass does not check the types of its fields, so they hold
    whatever the record carried; the detector is always llm. *)
Record Finding : Type := mkFinding {
  f_path : Py.value;
  f_method : Py.value;
  f_auth_required : Py.value;
  f_auth_type : Py.value;
  f_auth_location : Py.value;
  f_confidence : Py.value;
  f_detector : string;
  f_context : Py.value;
  f_line_number : Q
}.

(** The result of a step that may raise. *)
Inductive outcome (A : Type) : Type :=
| Returned (a : A)
| Raised.
Arguments Returned {A} a.
Arguments Raised {A}.

(** [d.get(k)] and [d.get(k, default)] *)
Definition get (k : string) (entries : list (string * Py.value)) : Py.value :=
  match Py.lookup k entries with
  | Some v => v
  | None => Py.VNone
  end.

Definition get_default (k : string) (default : Py.value)
           (entries : list (string * Py.value)) : Py.value :=
  match Py.lookup k entries with
  | Some v => v
  | None => default
  end.

(** Truth value of a value in a condition. *)
Definition truthy (v : Py.value) : bool :=
  match v with
  | Py.VNone => false
  | Py.VBool b => b
  | Py.VNum q => negb (Qeq_bool q 0)
  | Py.VStr s => negb (String.eqb s EmptyString)
  | Py.VList items => match items with [] => false | _ => true end
  | Py.VDict entries => match entries with [] => false | _ => true end
  end.

(** The number a value stands for in arithmetic and comparisons with a
    number; a bool counts as 0 or 1, and any other value raises. *)
Definition as_number (v : Py.value) : option Q :=
  match v with
  | Py.VNum q => Some q
  | Py.VBool b => Some (if b then 1 else 0)
  | _ => None
  end.

(** [for ep in response[key]]: the items the loop visits.  Subscripting
    anything but a dict that has the key raises, and so does iterating
    over a value that is no list, dict or string. *)
Fixpoint chars (s : string) : list Py.value :=
  match s with
  | EmptyString => []
  | String c rest => Py.VStr (String c EmptyString) :: chars rest
  end.

Definition items_of (response : Py.value) (k : string) : outcome (list Py.value) :=
  match response with
  | Py.VDict entries =>
      match Py.lookup k entries with
      | Some (Py.VList items) => Returned items
      | Some (Py.VDict inner) => Returned (map (fun kv => Py.VStr (fst kv)) inner)
      | Some (Py.VStr s) => Returned (chars s)
      | _ => Raised
      end
  | _ => Raised
  end.

(** The body of the loop over the records of one response:
    [Returned None] is [continue], [Returned (Some f)] appends [f]. *)
Definition process_record (start_line : Z) (ep : Py.value)
  : outcome (option Finding) :=
  match ep with
  | Py.VDict entries =>
      match Py.lookup "path" entries with
      | None => Returned None
      | Some path_value =>
          let base_confidence := get_default "confidence" (Py.VNum (8 # 10)) entries in
          let boosted :=
            if truthy (get "evidence" entries) && truthy (get "usage_context" entries)
            then match as_number base_confidence with
                 | Some q => Returned (Py.VNum (Py.min 1 (q + (1 # 10))))
                 | None => Raised
                 end
            else Returned base_confidence in
          match boosted with
          | Raised => Raised
          | Returned base_confidence =>
              match get_default "auth" (Py.VDict []) entries with
              | Py.VDict auth_entries =>
                  let relative_line := get_default "line_number" (Py.VNum 0) entries in
                  match as_number relative_line with
                  | None => Raised
                  | Some rel =>
                      let absolute_line :=
                        if Py.gt rel 0 then inject_Z start_line + rel - 1
                        else inject_Z start_line in
                      Returned (Some
                        {| f_path := path_value;
                           f_method := get_default "method" (Py.VStr "UNKNOWN") entries;
                           f_auth_required :=
                             get_default "required" (Py.VBool false) auth_entries;
                           f_auth_type := get "type" auth_entries;
                           f_auth_location := get "location" auth_entries;
                           f_confidence := base_confidence;
                           f_detector := "llm";
                           f_context :=
                             get_default "usage_context"
                               (get_default "evidence" (Py.VStr EmptyString) entries)
                               entries;
                           f_line_number := absolute_line |})
                  end
              | _ => Raised
              end
          end
      end
  | _ => Returned None
  end.

(** The loop over the records of one response.  It appends to the list
    shared by all chunks, so what was appended before a record raises
    stays in the list; the flag tells whether the loop raised. *)
Fixpoint process_records (start_line : Z) (records : list Py.value)
         (all_endpoints : list Finding) : list Finding * bool :=
  match records with
  | [] => (all_endpoints, false)
  | ep :: rest =>
      match process_record start_line ep with
      | Raised => (all_endpoints, true)
      | Returned None => process_records start_line rest all_endpoints
      | Returned (Some endpoint) =>
          process_records start_line rest (all_endpoints ++ [endpoint])
      end
  end.

Section Analyze.
(** The external capability [client.chat], given the rendered prompt
    and the system prompt: the response, or an error raised. *)
Variable chat : string -> string -> outcome Py.value.
(** [template.format(code_chunk=chunk, context=context)], which raises
    on a malformed template. *)
Variable format : string -> string -> string -> outcome string.
Variables system_prompt analysis_prompt : string.

(** The body of the [try] block for one chunk: the list after it, and
    whether the block raised (the handler only logs). *)
Definition try_chunk (ap : string) (start_line : Z)
           (all_endpoints : list Finding) : list Finding * bool :=
  match chat ap system_prompt with
  | Raised => (all_endpoints, true)
  | Returned response =>
      match items_of response "endpoints" with
      | Raised => (all_endpoints, true)
      | Returned records => process_records start_line records all_endpoints
      end
  end.

(** The loop over the chunks.  Rendering the prompt happens outside
    the [try] block: an error there leaves the function. *)
Fixpoint analyze_chunks (chunks : list (string * string * Z))
         (all_endpoints : list Finding) : outcome (list Finding) :=
  match chunks with
  | [] => Returned all_endpoints
  | (chunk, context, start_line) :: rest =>
      match format analysis_prompt chunk context with
      | Raised => Raised
      | Returned ap =>
          analyze_chunks rest (fst (try_chunk ap start_line all_endpoints))
      end
  end.

(** [analyze_endpoints], on the chunks of the source. *)
Definition analyze_endpoints (js : string) : outcome (list Finding) :=
  match Chunk.simple_chunk_code (S (String.length js)) js 3000 1000 with
  | Some chunks => analyze_chunks chunks []
  | None => Raised
  end.
End Analyze.

End LLMAnalyzer.

(** ** analysis_agent.py *)

Module AnalysisAgent.

(** The dict [unique_endpoints]: keys are [(path, method)] tuples, and
    iteration follows the order in which keys were first inserted. *)
Definition key : Type := (string * string)%type.

Definition key_eqb (a b : key) : bool :=
  String.eqb (fst a) (fst b) && String.eqb (snd a) (snd b).

Definition dict : Type := list (key * Endpoint).

Fixpoint dict_get (k : key) (d : dict) : option Endpoint :=
  match d with
  | [] => None
  | (k', v) :: rest => if key_eqb k k' then Some v else dict_get k rest
  end.

(** [d[k] = v]: an existing key keeps its position. *)
Fixpoint dict_set (k : key) (v : Endpoint) (d : dict) : dict :=
  match d with
  | [] => [(k, v)]
  | (k', v') :: rest =>
      if key_eqb k k' then (k', v) :: rest else (k', v') :: dict_set k v rest
  end.

Definition dict_values (d : dict) : list Endpoint := map snd d.

(** [x or ''] for an optional string. *)
Definition or_empty (x : option string) : string :=
  match x with
  | Some s => s
  | None => EmptyString
  end.

Definition newline : string := String (ascii_of_nat 10) EmptyString.

(** The endpoint built when a new detector confirms a known endpoint. *)
Definition combine (existing endpoint : Endpoint) : Endpoint :=
  let existing_detectors := Py.set (Py.split "+" (detector existing)) in
  let existing_detectors := Py.set_add (detector endpoint) existing_detectors in
  let combined_detector := Py.join "+" (Py.sorted existing_detectors) in
  let highest_confidence := Py.max (confidence existing) (confidence endpoint) in
  let final_method := method existing in
  let final_method :=
    if String.eqb final_method "UNKNOWN" && negb (String.eqb (method endpoint) "UNKNOWN")
    then method endpoint else final_method in
  {| path := path endpoint;
     method := final_method;
     auth := if required (auth endpoint) then auth endpoint else auth existing;
     confidence := highest_confidence;
     detector := combined_detector;
     context := Some (Py.strip (or_empty (context existing) ++ newline
                                ++ or_empty (context endpoint)));
     line_number := None |}.

(** One iteration of the loop over [endpoints]. *)
Definition dedup_step (unique_endpoints : dict) (endpoint : Endpoint) : dict :=
  let key := (path endpoint, method endpoint) in
  match dict_get key unique_endpoints with
  | None => dict_set key endpoint unique_endpoints
  | Some existing =>
      let existing_detectors := Py.set (Py.split "+" (detector existing)) in
      let current_detector := detector endpoint in
      if negb (Py.mem current_detector existing_detectors) then
        dict_set key (combine existing endpoint) unique_endpoints
      else if Py.gt (confidence endpoint) (confidence existing) then
        dict_set key endpoint unique_endpoints
      else unique_endpoints
  end.

Definition _deduplicate_endpoints (endpoints : list Endpoint) : list Endpoint :=
  dict_values (fold_left dedup_step endpoints []).

Record Stats : Type := mkStats {
  total_endpoints : nat;
  regex_findings : nat;
  llm_findings : nat;
  combined_findings : nat;
  endpoints_with_auth : nat
}.

(** The body of the loop of [_generate_stats]. *)
Definition stats_step (acc : Stats) (ep : Endpoint) : Stats :=
  let acc :=
    if Py.contains "+" (detector ep) then
      {| total_endpoints := total_endpoints acc;
         regex_findings := S (regex_findings acc);
         llm_findings := S (llm_findings acc);
         combined_findings := S (combined_findings acc);
         endpoints_with_auth := endpoints_with_auth acc |}
    else if String.eqb (detector ep) "regex" then
      {| total_endpoints := total_endpoints acc;
         regex_findings := S (regex_findings acc);
         llm_findings := llm_findings acc;
         combined_findings := combined_findings acc;
         endpoints_with_auth := endpoints_with_auth acc |}
    else if String.eqb (detector ep) "llm" then
      {| total_endpoints := total_endpoints acc;
         regex_findings := regex_findings acc;
         llm_findings := S (llm_findings acc);
         combined_findings := combined_findings acc;
         endpoints_with_auth := endpoints_with_auth acc |}
    else acc in
  if required (auth ep) then
    {| total_endpoints := total_endpoints acc;
       regex_findings := regex_findings acc;
       llm_findings := llm_findings acc;
       combined_findings := combined_findings acc;
       endpoints_with_auth := S (endpoints_with_auth acc) |}
  else acc.

Definition _generate_stats (endpoints : list Endpoint) : Stats :=
  fold_left stats_step endpoints
    {| total_endpoints := List.length endpoints;
       regex_findings := 0;
       llm_findings := 0;
       combined_findings := 0;
       endpoints_with_auth := 0 |}.

Definition opt_str (x : option string) : Py.value :=
  match x with
  | Some s => Py.VStr s
  | None => Py.VNone
  end.

(** The dict built by [_endpoint_to_dict], keys in insertion order. *)
Definition _endpoint_to_dict (endpoint : Endpoint) : list (string * Py.value) :=
  let result :=
    [ ("path", Py.VStr (path endpoint));
      ("method", Py.VStr (method endpoint));
      ("detector", Py.VStr (detector endpoint));
      ("confidence", Py.VNum (confidence endpoint)) ] in
  let result :=
    match line_number endpoint with
    | Some n => result ++ [("line_number", Py.VNum (inject_Z n))]
    | None => result
    end in
  let result :=
    match context endpoint with
    | Some (String c rest) => result ++ [("usage_context", Py.VStr (String c rest))]
    | _ => result
    end in
  if required (auth endpoint) then
    result ++ [("auth", Py.VDict
                  [ ("required", Py.VBool (required (auth endpoint)));
                    ("type", opt_str (type_ (auth endpoint)));
                    ("location", opt_str (location (auth endpoint))) ])]
  else result.

End AnalysisAgent.

(** ** chunk.py: the chunker by function boundaries *)

Module ChunkCode.
Import Re.

(** The word async and the space after it, or nothing. *)
Definition maybe_async (r : regex) : regex :=
  Alt r Eps.

(** A line that opens a function: optional space, an optional async,
    the word function; or a const declaration whose value starts with an
    optional async and the word function. *)
Definition function_start : regex :=
  Alt (cat [ws;
            maybe_async (Grp 1 (cat [lit "async"; plus (Cls Py.isspace)]));
            lit "function"])
      (cat [ws; lit "const"; plus (Cls Py.isspace); plus (Cls isword); ws; lit "=";
            ws;
            maybe_async (cat [lit "async"; plus (Cls Py.isspace)]);
            lit "function"]).

(** [re.match(pattern, line)] as a truth value. *)
Definition starts_function (line : string) : bool :=
  match Re.match_at false function_start line with
  | Some _ => true
  | None => false
  end.

(** [l[-5:]] *)
Definition last5 (l : list string) : list string :=
  skipn (List.length l - 5) l.

(** The pair appended to [chunks] when a chunk is closed. *)
Definition close (chunks : list (string * string))
           (current_chunk current_context : list string) : list (string * string) :=
  chunks ++ [(Py.join Chunk.nl current_chunk, Py.join Chunk.nl (last5 current_context))].

(** The body of the loop over the lines; the state is
    [(chunks, current_chunk, current_context)]. *)
Definition step (max_chunk_size : Z)
           (state : list (string * string) * list string * list string)
           (line : string)
  : list (string * string) * list string * list string :=
  let '(chunks, current_chunk, current_context) := state in
  let '(chunks, current_chunk, current_context) :=
    if starts_function line then
      (match current_chunk with
       | [] => chunks
       | _ :: _ => close chunks current_chunk current_context
       end, [], [])
    else (chunks, current_chunk, current_context) in
  let current_chunk := current_chunk ++ [line] in
  let current_context :=
    if (0 <? Py.len (Py.strip line))%Z then
      let appended := current_context ++ [line] in
      if (5 <? List.length appended)%nat then tl appended else appended
    else current_context in
  if (max_chunk_size <? Py.len (Py.join Chunk.nl current_chunk))%Z
  then (close chunks current_chunk current_context, [], [])
  else (chunks, current_chunk, current_context).

Definition chunk_code (code : string) (max_chunk_size : Z) : list (string * string) :=
  let lines := Py.split (ascii_of_nat 10) code in
  let '(chunks, current_chunk, current_context) :=
    fold_left (step max_chunk_size) lines ([], [], []) in
  match current_chunk with
  | [] => chunks
  | _ :: _ => close chunks current_chunk current_context
  end.

End ChunkCode.

(** ** tests/test_endpoint_processor.py *)

Module TestEndpointProcessor.
Import Re.

(** A dot, one of the extensions of static assets, the end of the text. *)
Definition asset_suffix : regex :=
  cat [lit ".";
       alt [lit "js"; lit "css"; lit "html"; lit "png"; lit "jpg"; lit "jpeg";
            lit "gif"; lit "svg"; lit "pdf"; lit "txt"; lit "xml"];
       Eos].

(** A pattern of the improved list.  Those written with the start anchor
    can match at the start of the text only. *)
Inductive pattern : Type :=
| Anywhere (r : regex)
| AtStart (r : regex).

(** [re.search(pattern, url, re.IGNORECASE)] as a truth value. *)
Definition pattern_found (p : pattern) (url : string) : bool :=
  match p with
  | Anywhere r => Re.found true r url
  | AtStart r =>
      match Re.match_at true r url with
      | Some _ => true
      | None => false
      end
  end.

(** The patterns the improved list adds to the original ones. *)
Definition new_patterns : list pattern :=
  [ Anywhere (cat [lit "/ws"; Eos]);
    Anywhere (lit "/ws/");
    Anywhere (lit "/event-stream");
    Anywhere (lit "/socket");
    Anywhere (lit "/stream");
    AtStart (cat [lit "/login"; Eos]);
    AtStart (cat [lit "/logout"; Eos]);
    AtStart (cat [lit "/register"; Eos]);
    AtStart (cat [lit "/oauth"; Eos]);
    AtStart (cat [lit "/verify"; Eos]);
    AtStart (cat [lit "/upload"; Eos]);
    AtStart (cat [lit "/search"; Eos]);
    AtStart (cat [lit "/download"; Eos]);
    Anywhere (cat [lit "/{{"; plus (Cls isword); lit "}}"]) ].

(** The list of the improved test: the thirty original patterns, written
    out again in the source, then the new ones. *)
Definition api_patterns : list pattern :=
  map Anywhere EndpointProcessor.api_patterns ++ new_patterns.

Definition improved_is_endpoint (url : string) : bool :=
  let url := Py.strip_chars quote_chars url in
  if Re.found true asset_suffix url then false
  else existsb (fun p => pattern_found p url) api_patterns.





End TestEndpointProcessor.

(** * Vocabulary of the statements *)

(** Tests on endpoints and the number of endpoints of a list passing one. *)
Module Tally.

Definition has_plus (ep : Endpoint) : bool := Py.contains "+" (detector ep).
Definition detected_by (name : string) (ep : Endpoint) : bool :=
  String.eqb (detector ep) name.
Definition needs_auth (ep : Endpoint) : bool := required (auth ep).

Definition tally (p : Endpoint -> bool) (eps : list Endpoint) : nat :=
  List.length (filter p eps).

End Tally.

(** What the statements about fusion speak of. *)
Module Fusion.

(** The candidate names one detector. *)
Definition single_name (e : Endpoint) : Prop :=
  detector e = "regex" \/ detector e = "llm".

(** The detector names joined in the detector string of an endpoint. *)
Definition components (e : Endpoint) : list string :=
  Py.split "+" (detector e).

(** Strictly below, in the order [sorted] uses. *)
Definition str_lt (a b : string) : Prop := String.ltb a b = true.

Definition same_key (a b : Endpoint) : Prop :=
  path a = path b /\ method a = method b.

Import AnalysisAgent.

(** The value a step leaves at the key of its candidate. *)
Definition survivor (d : dict) (e : Endpoint) : Endpoint :=
  match dict_get (path e, method e) d with
  | None => e
  | Some existing =>
      if negb (Py.mem (detector e) (Py.set (Py.split "+" (detector existing))))
      then combine existing e
      else if Py.gt (confidence e) (confidence existing) then e else existing
  end.

(** The three detector strings fusion can produce from single names. *)
Definition known_detector (e : Endpoint) : Prop :=
  detector e = "regex" \/ detector e = "llm" \/ detector e = "llm+regex".

Definition key_of (e : Endpoint) : key := (path e, method e).

(** What holds of the dict after the candidates [seen] were processed:
    its keys are distinct, every value sits at its own key, and every
    candidate seen has a survivor at its key that is at least as
    confident. *)
Record inv (d : dict) (seen : list Endpoint) : Prop := mkInv {
  inv_keys : NoDup (map fst d);
  inv_own : forall k v, dict_get k d = Some v -> key_of v = k;
  inv_conf : forall c, In c seen ->
    exists s, dict_get (key_of c) d = Some s /\ (confidence c <= confidence s)%Q
}.

(** A survivor whose detector holds the plus sign has no line number. *)
Definition combined_unnumbered (e : Endpoint) : Prop :=
  Tally.has_plus e = true -> line_number e = None.

(** The confidence of a survivor is the confidence of a candidate of its
    key. *)
Definition attained (d : dict) (seen : list Endpoint) : Prop :=
  forall k s, dict_get k d = Some s ->
    exists c, In c seen /\ key_of c = k /\ confidence c = confidence s.

End Fusion.

(** What one chunk adds to the result of the LLM detector. *)
Module Isolation.
Import LLMAnalyzer.

(** The findings built from the records of a response, up to the first
    record whose processing raises. *)
Fixpoint findings_before_failure (start_line : Z) (records : list Py.value)
  : list Finding :=
  match records with
  | [] => []
  | ep :: rest =>
      match process_record start_line ep with
      | Raised => []
      | Returned None => findings_before_failure start_line rest
      | Returned (Some f) => f :: findings_before_failure start_line rest
      end
  end.

(** Nothing when the call raises or when the response has no endpoints
    to iterate over; otherwise the findings before the first failure. *)
Definition contribution (chat : string -> string -> outcome Py.value)
           (system_prompt ap : string) (start_line : Z) : list Finding :=
  match chat ap system_prompt with
  | Raised => []
  | Returned response =>
      match items_of response "endpoints" with
      | Raised => []
      | Returned records => findings_before_failure start_line records
      end
  end.

Definition chunk_contribution (chat : string -> string -> outcome Py.value)
           (format : string -> string -> string -> outcome string)
           (system_prompt analysis_prompt : string)
           (c : string * string * Z) : list Finding :=
  let '(chunk, context, start_line) := c in
  match format analysis_prompt chunk context with
  | Raised => []
  | Returned ap => contribution chat system_prompt ap start_line
  end.

(** The prompt of every chunk can be rendered. *)
Definition renders (format : string -> string -> string -> outcome string)
           (analysis_prompt : string) (chunks : list (string * string * Z)) : Prop :=
  forall chunk context start_line,
    In (chunk, context, start_line) chunks ->
    exists ap, format analysis_prompt chunk context = Returned ap.

(** A response of two records: the first is complete, the second gives
    null where the authentication object belongs. *)
Definition half_good : Py.value :=
  Py.VDict
    [ ("endpoints",
       Py.VList
         [ Py.VDict [("path", Py.VStr "/api/a")];
           Py.VDict [("path", Py.VStr "/api/b"); ("auth", Py.VNone)] ]) ].

(** A capability that raises on the chunk named bad, answers the chunk
    named half with [half_good], and finds one endpoint elsewhere. *)
Definition sample_chat (ap system_prompt : string) : outcome Py.value :=
  if String.eqb ap "bad" then Raised
  else if String.eqb ap "half" then Returned half_good
  else Returned (Py.VDict [("endpoints", Py.VList [Py.VDict [("path", Py.VStr ap)]])]).

(** A template that renders to the chunk itself. *)
Definition sample_format (template chunk context : string) : outcome string :=
  Returned chunk.

End Isolation.

(** What the statements about normalisation speak of. *)
Module Normal.

(** The text still holds a template: a dollar sign, an opening brace, a
    non-empty body and a closing brace. *)
Definition has_template (s : string) : bool :=
  Re.found false EndpointProcessor.template s.

Definition is_slash (c : ascii) : bool := Ascii.eqb c "/".

Definition starts_with_slash (s : string) : bool :=
  match s with
  | String c _ => is_slash c
  | EmptyString => false
  end.

(** Runs of slashes collapsed by direct recursion: a slash followed by a
    slash is dropped. *)
Fixpoint collapse (s : string) : string :=
  match s with
  | EmptyString => EmptyString
  | String c rest =>
      if is_slash c && starts_with_slash rest then collapse rest
      else String c (collapse rest)
  end.

(** The first character, if any, fails [p]; likewise the last. *)
Definition head_ok (p : ascii -> bool) (s : string) : bool :=
  match s with
  | EmptyString => true
  | String c _ => negb (p c)
  end.

Fixpoint last_ok (p : ascii -> bool) (s : string) : bool :=
  match s with
  | EmptyString => true
  | String c rest =>
      match rest with
      | EmptyString => negb (p c)
      | String _ _ => last_ok p rest
      end
  end.

(** No slash is followed by a slash. *)
Fixpoint no_double (s : string) : bool :=
  match s with
  | EmptyString => true
  | String c rest => negb (is_slash c && starts_with_slash rest) && no_double rest
  end.

End Normal.

(** Concrete sources and candidates the statements are checked on. *)
Module Samples.

(** A fetch call whose path holds a verb inside an ordinary word. *)
Definition widgets : string := "fetch('/api/widgets')".

(** A login call below the declaration of a bearer header and a comment
    naming the header in plain words. *)
Definition login : string :=
  "// sends Authorization: Bearer <token>" ++ Chunk.nl
  ++ "const headers = { Authorization: 'Bearer ' + token };" ++ Chunk.nl
  ++ "axios.post('/api/v1/login')".

(** The same call without the declaration: only the comment names the
    header. *)
Definition login_plain : string :=
  "// sends Authorization: Bearer <token>" ++ Chunk.nl
  ++ "axios.post('/api/v1/login')".

(** Three candidates for one key: the regex finding and two findings of
    the LLM detector, as overlapping chunks produce them. *)
Definition by_regex : Endpoint :=
  mkEndpoint "/api/users" "GET" AuthInfo_default (7 # 10) "regex" None (Some 3%Z).
Definition by_llm_low : Endpoint :=
  mkEndpoint "/api/users" "GET" AuthInfo_default (8 # 10) "llm" (Some "lists users") (Some 3%Z).
Definition by_llm_high : Endpoint :=
  mkEndpoint "/api/users" "GET" AuthInfo_default (9 # 10) "llm" (Some "lists users") (Some 3%Z).

End Samples.

(** Keys in the order in which they first occur. *)
Module KeyOrder.
Import AnalysisAgent.

Fixpoint first_occurrences (ks : list key) : list key :=
  match ks with
  | [] => []
  | k :: rest => k :: filter (fun k' => negb (key_eqb k' k)) (first_occurrences rest)
  end.

(** Whether a key is among the keys of a list. *)
Definition key_in (ks : list key) (k : key) : bool := existsb (key_eqb k) ks.

End KeyOrder.

(** Detector strings the statistics know. *)
Module Recognised.

Definition recognised (ep : Endpoint) : bool :=
  Tally.has_plus ep || Tally.detected_by "regex" ep || Tally.detected_by "llm" ep.

End Recognised.

(** The atom a pattern must match first, when its shape tells. *)
Module Shape.
Import Re.

Fixpoint head_atom (r : regex) : option atom :=
  match r with
  | One a => Some a
  | Cat r1 _ => head_atom r1
  | Grp _ r1 => head_atom r1
  | _ => None
  end.

(** Whether the pattern must start with a slash. *)
Definition starts_at_slash (r : regex) : bool :=
  match head_atom r with
  | Some (Lit c) => Ascii.eqb c "/"
  | _ => false
  end.

End Shape.

(** The text, quotes stripped, ends like the name of a static asset. *)
Module Asset.

Definition looks_like_asset (url : string) : bool :=
  Re.found true TestEndpointProcessor.asset_suffix (Py.strip_chars Re.quote_chars url).

End Asset.

(** What the regex detector can say about a finding. *)
Module Findings.

Definition methods : list string :=
  ["GET"; "POST"; "PUT"; "DELETE"; "PATCH"; "UNKNOWN"].

Definition verb_words : list string := ["get"; "post"; "put"; "delete"; "patch"].

Definition auth_outcomes : list AuthInfo :=
  [ mkAuthInfo true (Some "Bearer") (Some "header");
    mkAuthInfo true (Some "apiKey") (Some "header");
    mkAuthInfo true (Some "apiKey") (Some "query");
    mkAuthInfo true (Some "token") (Some "body");
    mkAuthInfo true None None;
    mkAuthInfo false None None ].

(** The fixed part of a finding of the regex detector. *)
Definition well_formed (e : Endpoint) : Prop :=
  detector e = "regex"
  /\ confidence e = 7 # 10
  /\ context e = None
  /\ EndpointProcessor.is_endpoint (path e) = true
  /\ (exists raw, path e = EndpointProcessor.normalize_path raw)
  /\ (exists n, line_number e = Some n /\ (1 <= n)%Z)
  /\ In (auth e) auth_outcomes.

(** The state of the detector's loop: findings and paths seen. *)
Definition state_ok (state : list Endpoint * list string) : Prop :=
  Forall well_formed (fst state)
  /\ Forall (fun e => In (method e) methods) (fst state)
  /\ (forall e, In e (fst state) -> In (path e) (snd state))
  /\ NoDup (map path (fst state)).

End Findings.

(** What the statements about the windows of the chunker speak of. *)
Module Windows.

(** The step by which the chunker moves its start. *)
Definition progress (max_size overlap : Z) : Z :=
  Z.max (max_size / 3) (max_size - overlap).

(** The window lies in the text, is not empty and respects the budget. *)
Definition within (code : string) (max_size : Z) (w : Z * Z) : Prop :=
  (0 <= fst w)%Z /\ (fst w < snd w)%Z /\ (snd w <= Py.len code)%Z
  /\ (snd w - fst w <= max_size)%Z.

(** Every offset from [start] to the end of the text lies in a window. *)
Definition covers (code : string) (start : Z) (ws : list (Z * Z)) : Prop :=
  forall i : Z, (start <= i < Py.len code)%Z ->
    exists w, In w ws /\ (fst w <= i < snd w)%Z.

End Windows.

(** The lines of the chunks of the chunker by function boundaries. *)
Module Lines.

(** The state of the loop after the lines [done]: the texts of the closed
    chunks are the joined groups of lines, no group is empty, and the
    groups followed by the open chunk are the lines done. *)
Definition grouped (done : list string)
           (state : list (string * string) * list string * list string) : Prop :=
  exists groups : list (list string),
    map fst (fst (fst state)) = map (Py.join Chunk.nl) groups
    /\ Forall (fun g => g <> []) groups
    /\ List.concat groups ++ snd (fst state) = done.

End Lines.

(** * Properties *)

(** ** Statistics *)

Module StatsFacts.
Import AnalysisAgent Tally.

Lemma tally_cons p ep eps :
  tally p (ep :: eps) = ((if p ep then 1 else 0) + tally p eps)%nat.
Proof. unfold tally; simpl; destruct (p ep); reflexivity. Qed.

Lemma single_name_has_no_plus ep name :
  Py.contains "+" name = false -> detected_by name ep = true -> has_plus ep = false.
Proof.
  unfold detected_by, has_plus; intros Hname Heq.
  apply String.eqb_eq in Heq; rewrite Heq; exact Hname.
Qed.

(** The loop adds to each counter what the tallies of the list say,
    whatever the counters held before. *)
Lemma stats_fold eps : forall acc,
  let st := fold_left stats_step eps acc in
  total_endpoints st = total_endpoints acc
  /\ regex_findings st
     = (regex_findings acc + tally has_plus eps + tally (detected_by "regex") eps)%nat
  /\ llm_findings st
     = (llm_findings acc + tally has_plus eps + tally (detected_by "llm") eps)%nat
  /\ combined_findings st = (combined_findings acc + tally has_plus eps)%nat
  /\ endpoints_with_auth st = (endpoints_with_auth acc + tally needs_auth eps)%nat.
Proof.
  induction eps as [|ep eps IH]; intros acc; cbn zeta.
  - unfold tally; simpl; repeat split; lia.
  - simpl fold_left.
    specialize (IH (stats_step acc ep)); cbn zeta in IH.
    destruct IH as (Ht & Hr & Hl & Hc & Ha).
    rewrite Ht, Hr, Hl, Hc, Ha, !tally_cons.
    pose proof (single_name_has_no_plus ep "regex" eq_refl) as Pr.
    pose proof (single_name_has_no_plus ep "llm" eq_refl) as Pl.
    unfold stats_step, needs_auth.
    fold (has_plus ep); fold (detected_by "regex" ep); fold (detected_by "llm" ep).
    destruct (has_plus ep) eqn:Hp;
      destruct (detected_by "regex" ep) eqn:Hre;
      destruct (detected_by "llm" ep) eqn:Hll;
      try (specialize (Pr eq_refl); discriminate);
      try (specialize (Pl eq_refl); discriminate);
      try (unfold detected_by in Hre, Hll; apply String.eqb_eq in Hre, Hll;
           rewrite Hre in Hll; discriminate);
      destruct (required (auth ep)); simpl; repeat split; lia.
Qed.

End StatsFacts.

(** C8.  The statistics count an endpoint whose detector holds the plus
    sign toward [combined_findings] and toward both [regex_findings] and
    [llm_findings]; a detector that is exactly regex counts toward
    [regex_findings] only, one that is exactly llm toward [llm_findings]
    only.  One regex, one llm and one llm+regex endpoint, in any order of
    the three, give 2, 2 and 1. *)
Theorem stats_count_combined_twice :
  (forall eps : list Endpoint,
     let st := AnalysisAgent._generate_stats eps in
     AnalysisAgent.combined_findings st = Tally.tally Tally.has_plus eps
     /\ AnalysisAgent.regex_findings st
        = (Tally.tally Tally.has_plus eps
           + Tally.tally (Tally.detected_by "regex") eps)%nat
     /\ AnalysisAgent.llm_findings st
        = (Tally.tally Tally.has_plus eps
           + Tally.tally (Tally.detected_by "llm") eps)%nat)
  /\ (forall r l c eps : _,
        detector r = "regex" -> detector l = "llm" -> detector c = "llm+regex" ->
        Permutation eps [r; l; c] ->
        let st := AnalysisAgent._generate_stats eps in
        AnalysisAgent.regex_findings st = 2%nat
        /\ AnalysisAgent.llm_findings st = 2%nat
        /\ AnalysisAgent.combined_findings st = 1%nat).
Proof.
  assert (General : forall eps : list Endpoint,
     let st := AnalysisAgent._generate_stats eps in
     AnalysisAgent.combined_findings st = Tally.tally Tally.has_plus eps
     /\ AnalysisAgent.regex_findings st
        = (Tally.tally Tally.has_plus eps
           + Tally.tally (Tally.detected_by "regex") eps)%nat
     /\ AnalysisAgent.llm_findings st
        = (Tally.tally Tally.has_plus eps
           + Tally.tally (Tally.detected_by "llm") eps)%nat).
  { intros eps; cbn zeta; unfold AnalysisAgent._generate_stats.
    destruct (StatsFacts.stats_fold eps
                (AnalysisAgent.mkStats (List.length eps) 0 0 0 0))
      as (_ & Hr & Hl & Hc & _).
    simpl in Hr, Hl, Hc. repeat split; assumption. }
  split; [exact General|].
  intros r l c eps Hr Hl Hc Hperm; cbn zeta.
  destruct (General eps) as (Gc & Gr & Gl).
  rewrite Gc, Gr, Gl.
  assert (T : forall p, Tally.tally p eps = Tally.tally p [r; l; c]).
  { intros p; unfold Tally.tally.
    apply Permutation_length.
    clear - Hperm. induction Hperm; simpl.
    - constructor.
    - destruct (p x); [constructor|]; assumption.
    - destruct (p x), (p y); try apply perm_swap; try apply perm_skip;
        apply Permutation_refl.
    - eapply Permutation_trans; eassumption. }
  rewrite !T.
  unfold Tally.tally, Tally.has_plus, Tally.detected_by; simpl.
  rewrite Hr, Hl, Hc; simpl. repeat split.
Qed.

(** The hypotheses of the example of C8 at three concrete endpoints. *)
Lemma stats_count_combined_twice_witness :
  let mk := fun d => mkEndpoint "/api/users" "GET" AuthInfo_default (7 # 10) d None None in
  let st := AnalysisAgent._generate_stats [mk "llm"; mk "llm+regex"; mk "regex"] in
  AnalysisAgent.regex_findings st = 2%nat
  /\ AnalysisAgent.llm_findings st = 2%nat
  /\ AnalysisAgent.combined_findings st = 1%nat.
Proof.
  intros mk.
  apply (proj2 stats_count_combined_twice (mk "regex") (mk "llm") (mk "llm+regex")).
  - reflexivity.
  - reflexivity.
  - reflexivity.
  - apply Permutation_sym.
    apply (perm_trans (perm_swap (mk "llm") (mk "regex") [mk "llm+regex"])).
    apply perm_skip. apply perm_swap.
Defined.

(** ** The regex detector on concrete sources *)

(** C10.  The method is read by an unanchored search for a verb in the
    context window: on the source [fetch('/api/widgets')] the only match
    of the verb pattern lies inside the word widgets (offsets 15 to 18),
    and the endpoint emitted for the path carries the method GET. *)
Theorem method_read_inside_a_word :
  exists source : string,
    source = Samples.widgets
    /\ RegexAnalyzer._get_context source 0 200 = source
    /\ Re.search true (Re.Grp 1 RegexAnalyzer.verbs) source
       = Some (Re.mkMatch 15 18 [(1%nat, "get")])
    /\ Py.slice source 12 19 = "widgets"
    /\ RegexAnalyzer.discover_endpoints source
       = [ mkEndpoint "/api/widgets" "GET" (mkAuthInfo false None None)
                      (7 # 10) "regex" None (Some 1%Z) ].
Proof.
  exists Samples.widgets. repeat split; vm_compute; reflexivity.
Qed.

(** C6.  There is a source that holds the call
    [axios.post('/api/v1/login')], with the text Authorization: Bearer
    inside the 200-character window around the call, for which the
    detector emits the path /api/v1/login with method POST, detector
    regex and a required Bearer authentication in the header. *)
Theorem login_with_bearer_header :
  exists (source : string) (position : Z),
    Py.slice source position (position + 27) = "axios.post('/api/v1/login')"
    /\ Py.str_in "Authorization: Bearer"
                 (RegexAnalyzer._get_context source position 200) = true
    /\ RegexAnalyzer.discover_endpoints source
       = [ mkEndpoint "/api/v1/login" "POST"
                      (mkAuthInfo true (Some "Bearer") (Some "header"))
                      (7 # 10) "regex" None (Some 3%Z) ].
Proof.
  exists Samples.login, 93%Z. repeat split; vm_compute; reflexivity.
Qed.

(** The Bearer pattern asks for a quote character right before the word
    Bearer.  When the window holds the plain text Authorization: Bearer
    and nothing else about authentication, no typed pattern matches and
    the generic rule answers: required, with no type and no location. *)
Remark bearer_pattern_needs_a_quote :
  Py.str_in "Authorization: Bearer"
            (RegexAnalyzer._get_context Samples.login_plain 39 200) = true
  /\ Py.slice Samples.login_plain 39 (39 + 27) = "axios.post('/api/v1/login')"
  /\ RegexAnalyzer.discover_endpoints Samples.login_plain
     = [ mkEndpoint "/api/v1/login" "POST" (mkAuthInfo true None None)
                    (7 # 10) "regex" None (Some 2%Z) ].
Proof.
  repeat split; vm_compute; reflexivity.
Qed.

(** ** The dict of survivors *)

Module DictFacts.
Import AnalysisAgent Fusion.

Lemma key_eqb_eq a b : key_eqb a b = true <-> a = b.
Proof.
  destruct a as [p m], b as [p' m']; unfold key_eqb; simpl.
  rewrite andb_true_iff, !String.eqb_eq.
  split; [intros [-> ->]; reflexivity | intros E; inversion E; auto].
Qed.

Lemma key_eqb_refl a : key_eqb a a = true.
Proof. apply key_eqb_eq; reflexivity. Qed.

Lemma key_eqb_neq a b : key_eqb a b = false <-> a <> b.
Proof.
  split.
  - intros F E. apply key_eqb_eq in E. congruence.
  - intros N. destruct (key_eqb a b) eqn:E; [apply key_eqb_eq in E; contradiction | reflexivity].
Qed.

(** Reading after writing. *)
Lemma dict_get_set k v d k' :
  dict_get k' (dict_set k v d) = if key_eqb k' k then Some v else dict_get k' d.
Proof.
  induction d as [|[k0 v0] d IH]; simpl.
  - destruct (key_eqb k' k); reflexivity.
  - destruct (key_eqb k k0) eqn:E0; simpl.
    + apply key_eqb_eq in E0; subst k0.
      destruct (key_eqb k' k); reflexivity.
    + destruct (key_eqb k' k0) eqn:E1.
      * apply key_eqb_eq in E1; subst k0.
        destruct (key_eqb k' k) eqn:E2; [|reflexivity].
        apply key_eqb_eq in E2; subst k'. rewrite key_eqb_refl in E0; discriminate.
      * exact IH.
Qed.

Lemma dict_get_In k v d : dict_get k d = Some v -> In v (dict_values d).
Proof.
  induction d as [|[k0 v0] d IH]; simpl; [discriminate|].
  destruct (key_eqb k k0); intros H; [left; congruence | right; auto].
Qed.

(** A value of the dict after a write is the value written or was there
    before. *)
Lemma dict_set_values k v d x :
  In x (dict_values (dict_set k v d)) -> x = v \/ In x (dict_values d).
Proof.
  induction d as [|[k0 v0] d IH]; simpl.
  - intros [H|[]]; auto.
  - destruct (key_eqb k k0); simpl; intros [H|H]; auto.
    destruct (IH H); auto.
Qed.

(** The keys of the dict are pairwise distinct. *)
Lemma dict_set_keys k v d :
  NoDup (map fst d) -> NoDup (map fst (dict_set k v d)).
Proof.
  induction d as [|[k0 v0] d IH]; simpl; intros ND.
  - constructor; [intros [] | constructor].
  - destruct (key_eqb k k0) eqn:E; simpl; [exact ND|].
    inversion ND as [|? ? Hnin ND']; subst.
    constructor; [|auto].
    intros Hin. apply Hnin. clear - Hin E.
    induction d as [|[k1 v1] d IH]; simpl in *.
    + destruct Hin as [->|[]]. rewrite key_eqb_refl in E; discriminate.
    + destruct (key_eqb k k1); simpl in Hin; destruct Hin; auto.
Qed.

Lemma dict_In_get k v d :
  NoDup (map fst d) -> In (k, v) d -> dict_get k d = Some v.
Proof.
  induction d as [|[k0 v0] d IH]; simpl; intros ND Hin; [contradiction|].
  destruct Hin as [H|H].
  - inversion H; subst. rewrite key_eqb_refl; reflexivity.
  - inversion ND as [|? ? Hnin ND']; subst.
    destruct (key_eqb k k0) eqn:E.
    + apply key_eqb_eq in E; subst k0. exfalso; apply Hnin.
      apply (in_map fst) in H; exact H.
    + auto.
Qed.

Lemma dict_values_In v d : In v (dict_values d) -> exists k, In (k, v) d.
Proof.
  unfold dict_values; intros H. apply in_map_iff in H.
  destruct H as ([k x] & E & H); simpl in E; subst; eauto.
Qed.

(** A property of the survivors that every step keeps. *)
Lemma fold_invariant (P : dict -> Prop) (Q : Endpoint -> Prop) :
  (forall d e, P d -> Q e -> P (dedup_step d e)) ->
  forall l d, P d -> Forall Q l -> P (fold_left dedup_step l d).
Proof.
  intros step l; induction l as [|e l IH]; simpl; intros d Pd Ql; [exact Pd|].
  inversion Ql; subst. apply IH; auto.
Qed.

Lemma dedup_step_get d e k :
  dict_get k (dedup_step d e)
  = if key_eqb k (path e, method e) then Some (survivor d e) else dict_get k d.
Proof.
  unfold dedup_step, survivor.
  destruct (dict_get (path e, method e) d) as [existing|] eqn:G.
  - destruct (negb _); [apply dict_get_set|].
    destruct (Py.gt _ _); [apply dict_get_set|].
    destruct (key_eqb k (path e, method e)) eqn:E; [|reflexivity].
    apply key_eqb_eq in E; subst k; exact G.
  - apply dict_get_set.
Qed.

Lemma dedup_step_values d e x :
  In x (dict_values (dedup_step d e)) -> x = survivor d e \/ In x (dict_values d).
Proof.
  unfold dedup_step, survivor.
  destruct (dict_get (path e, method e) d) as [existing|] eqn:G.
  - destruct (negb _); [apply dict_set_values|].
    destruct (Py.gt _ _); [apply dict_set_values | auto].
  - apply dict_set_values.
Qed.

Lemma dedup_step_keys d e :
  NoDup (map fst d) -> NoDup (map fst (dedup_step d e)).
Proof.
  unfold dedup_step; intros ND.
  destruct (dict_get (path e, method e) d) as [existing|].
  - destruct (negb _); [apply dict_set_keys; exact ND|].
    destruct (Py.gt _ _); [apply dict_set_keys; exact ND | exact ND].
  - apply dict_set_keys; exact ND.
Qed.

End DictFacts.

(** ** Fusion *)

Module FusionFacts.
Import AnalysisAgent DictFacts Fusion.

Lemma gt_iff a b : Py.gt a b = true <-> (b < a)%Q.
Proof.
  unfold Py.gt. rewrite negb_true_iff.
  split.
  - intros F. apply Qnot_le_lt. intros L. apply Qle_bool_iff in L. congruence.
  - intros L. destruct (Qle_bool a b) eqn:E; [|reflexivity].
    apply Qle_bool_iff in E. exfalso. exact (Qlt_not_le _ _ L E).
Qed.

Lemma not_gt_iff a b : Py.gt a b = false <-> (a <= b)%Q.
Proof.
  unfold Py.gt. rewrite negb_false_iff. apply Qle_bool_iff.
Qed.

Lemma max_ge_left a b : (a <= Py.max a b)%Q.
Proof.
  unfold Py.max. destruct (Py.gt b a) eqn:E.
  - apply gt_iff in E. apply Qlt_le_weak; exact E.
  - apply Qle_refl.
Qed.

Lemma max_ge_right a b : (b <= Py.max a b)%Q.
Proof.
  unfold Py.max. destruct (Py.gt b a) eqn:E.
  - apply Qle_refl.
  - apply not_gt_iff in E; exact E.
Qed.

Lemma combine_known existing e :
  known_detector existing -> single_name e -> known_detector (combine existing e).
Proof.
  unfold known_detector, single_name, combine; simpl.
  intros [H|[H|H]] [K|K]; rewrite H, K; vm_compute; auto.
Qed.

Lemma survivor_known d e :
  Forall known_detector (dict_values d) -> single_name e ->
  known_detector (survivor d e).
Proof.
  intros Hd He. unfold survivor.
  destruct (dict_get (path e, method e) d) as [existing|] eqn:G.
  - assert (Hex : known_detector existing).
    { apply dict_get_In in G. rewrite Forall_forall in Hd; auto. }
    destruct (negb _); [apply combine_known; assumption|].
    destruct (Py.gt _ _); [|exact Hex].
    destruct He; [left | right; left]; assumption.
  - destruct He; [left | right; left]; assumption.
Qed.

Lemma dedup_known l :
  Forall single_name l ->
  Forall known_detector (_deduplicate_endpoints l).
Proof.
  intros Hl. unfold _deduplicate_endpoints.
  apply (fold_invariant (fun d => Forall known_detector (dict_values d)) single_name);
    [| constructor | exact Hl].
  intros d e Hd He. apply Forall_forall. intros x Hx.
  apply dedup_step_values in Hx. destruct Hx as [->|Hx].
  - apply survivor_known; assumption.
  - rewrite Forall_forall in Hd; auto.
Qed.

Lemma known_components e :
  known_detector e -> NoDup (components e) /\ StronglySorted str_lt (components e).
Proof.
  unfold known_detector, components. intros [H|[H|H]]; rewrite H; simpl; split;
    repeat constructor; simpl; try tauto; try (intros [E|E]; [discriminate E|exact E]).
Qed.

Lemma pair_detector a b :
  same_key a b ->
  Py.mem (detector b) (Py.set (Py.split "+" (detector a))) = false ->
  _deduplicate_endpoints [a; b] = [combine a b].
Proof.
  intros [Hp Hm] Hmem. unfold _deduplicate_endpoints.
  change (fold_left dedup_step [a; b] [])
    with (dedup_step [((path a, method a), a)] b).
  assert (K : key_eqb (path b, method b) (path a, method a) = true)
    by (apply key_eqb_eq; rewrite Hp, Hm; reflexivity).
  unfold dedup_step. cbn [dict_get]. rewrite K, Hmem.
  cbn [negb dict_set]. rewrite K. reflexivity.
Qed.

End FusionFacts.

(** C3.  When every candidate names a single detector, regex or llm, the
    components of the detector string of every fused endpoint are
    pairwise distinct and strictly increasing in lexicographic order.
    One regex and one llm candidate for the same path and method fuse, in
    either order, into one endpoint whose detector is llm+regex. *)
Theorem fused_detector_sorted_unique :
  (forall l : list Endpoint,
     Forall Fusion.single_name l ->
     forall s, In s (AnalysisAgent._deduplicate_endpoints l) ->
       NoDup (Fusion.components s)
       /\ StronglySorted Fusion.str_lt (Fusion.components s))
  /\ (forall a b : Endpoint,
        Fusion.same_key a b -> detector a = "regex" -> detector b = "llm" ->
        map detector (AnalysisAgent._deduplicate_endpoints [a; b]) = ["llm+regex"]
        /\ map detector (AnalysisAgent._deduplicate_endpoints [b; a]) = ["llm+regex"]).
Proof.
  split.
  - intros l Hl s Hs. apply FusionFacts.known_components.
    pose proof (FusionFacts.dedup_known l Hl) as K.
    rewrite Forall_forall in K; auto.
  - intros a b Hk Ha Hb. split.
    + rewrite (FusionFacts.pair_detector a b Hk) by (rewrite Ha, Hb; reflexivity).
      unfold AnalysisAgent.combine; simpl. rewrite Ha, Hb. reflexivity.
    + assert (Hk' : Fusion.same_key b a) by (destruct Hk; split; auto).
      rewrite (FusionFacts.pair_detector b a Hk') by (rewrite Ha, Hb; reflexivity).
      unfold AnalysisAgent.combine; simpl. rewrite Ha, Hb. reflexivity.
Qed.

(** The hypotheses of C3 at the regex finding and an LLM finding of one
    key. *)
Lemma fused_detector_sorted_unique_witness :
  (forall s, In s (AnalysisAgent._deduplicate_endpoints
                     [Samples.by_regex; Samples.by_llm_low]) ->
     NoDup (Fusion.components s)
     /\ StronglySorted Fusion.str_lt (Fusion.components s))
  /\ map detector (AnalysisAgent._deduplicate_endpoints
                     [Samples.by_regex; Samples.by_llm_low]) = ["llm+regex"]
  /\ map detector (AnalysisAgent._deduplicate_endpoints
                     [Samples.by_llm_low; Samples.by_regex]) = ["llm+regex"].
Proof.
  split.
  - apply (proj1 fused_detector_sorted_unique [Samples.by_regex; Samples.by_llm_low]).
    apply Forall_cons; [left; reflexivity|].
    apply Forall_cons; [right; reflexivity|].
    apply Forall_nil.
  - apply (proj2 fused_detector_sorted_unique Samples.by_regex Samples.by_llm_low).
    + split; reflexivity.
    + reflexivity.
    + reflexivity.
Defined.

(** ** Confidence of the survivors *)

Module ConfidenceFacts.
Import AnalysisAgent DictFacts Fusion FusionFacts.

Lemma survivor_key d e :
  (forall k v, dict_get k d = Some v -> key_of v = k) ->
  key_of (survivor d e) = key_of e.
Proof.
  intros Own. unfold survivor.
  destruct (dict_get (path e, method e) d) as [existing|] eqn:G; [|reflexivity].
  apply Own in G. unfold key_of in G. inversion G as [[Hp Hm]].
  destruct (negb _).
  - unfold combine, key_of; simpl. rewrite Hm.
    destruct (String.eqb (method e) "UNKNOWN"); reflexivity.
  - destruct (Py.gt _ _); [reflexivity|].
    unfold key_of. rewrite Hp, Hm. reflexivity.
Qed.

Lemma survivor_ge_candidate d e : (confidence e <= confidence (survivor d e))%Q.
Proof.
  unfold survivor.
  destruct (dict_get (path e, method e) d) as [existing|]; [|apply Qle_refl].
  destruct (negb _); [apply max_ge_right|].
  destruct (Py.gt _ _) eqn:E; [apply Qle_refl|].
  apply not_gt_iff in E; exact E.
Qed.

Lemma survivor_ge_existing d e existing :
  dict_get (path e, method e) d = Some existing ->
  (confidence existing <= confidence (survivor d e))%Q.
Proof.
  intros G. unfold survivor. rewrite G.
  destruct (negb _); [apply max_ge_left|].
  destruct (Py.gt _ _) eqn:E; [|apply Qle_refl].
  apply gt_iff in E. apply Qlt_le_weak; exact E.
Qed.

Lemma inv_step d seen e : inv d seen -> inv (dedup_step d e) (e :: seen).
Proof.
  intros [Keys Own Conf]. constructor.
  - apply dedup_step_keys; exact Keys.
  - intros k v. rewrite dedup_step_get.
    destruct (key_eqb k (path e, method e)) eqn:E.
    + intros H; inversion H; subst v. apply key_eqb_eq in E; subst k.
      apply survivor_key; exact Own.
    + apply Own.
  - intros c [<-|Hc].
    + exists (survivor d e). rewrite dedup_step_get.
      unfold key_of at 1. rewrite key_eqb_refl. split; [reflexivity|].
      apply survivor_ge_candidate.
    + destruct (Conf c Hc) as (s & Gs & Ls).
      rewrite dedup_step_get.
      destruct (key_eqb (key_of c) (path e, method e)) eqn:E.
      * exists (survivor d e). split; [reflexivity|].
        apply key_eqb_eq in E. rewrite E in Gs.
        eapply Qle_trans; [exact Ls|]. apply survivor_ge_existing; exact Gs.
      * exists s. split; assumption.
Qed.

Lemma inv_fold l : forall d seen,
  inv d seen -> inv (fold_left dedup_step l d) (rev l ++ seen).
Proof.
  induction l as [|e l IH]; simpl; intros d seen I; [exact I|].
  rewrite <- app_assoc. simpl. apply IH. apply inv_step; exact I.
Qed.

Lemma inv_final l : inv (fold_left dedup_step l []) l.
Proof.
  pose proof (inv_fold l [] []) as I.
  rewrite app_nil_r in I.
  assert (I0 : inv [] []).
  { constructor; simpl; [constructor | discriminate | contradiction]. }
  specialize (I I0). destruct I as [Keys Own Conf].
  constructor; auto.
  intros c Hc. apply Conf. apply in_rev in Hc; exact Hc.
Qed.

End ConfidenceFacts.

(** C4.  For every candidate list and every candidate [c] in it, the
    fused output holds a survivor with the path and method of [c], and
    every survivor with that path and method is at least as confident
    as [c]: the confidence of the survivor of a key is at least the
    largest confidence among the candidates sharing the key. *)
Theorem fused_confidence_dominates :
  forall (l : list Endpoint) (c : Endpoint),
    In c l ->
    (exists s, In s (AnalysisAgent._deduplicate_endpoints l) /\ Fusion.same_key s c)
    /\ (forall s, In s (AnalysisAgent._deduplicate_endpoints l) ->
          Fusion.same_key s c -> (confidence c <= confidence s)%Q).
Proof.
  intros l c Hc.
  destruct (ConfidenceFacts.inv_final l) as [Keys Own Conf].
  destruct (Conf c Hc) as (s & Gs & Ls).
  split.
  - exists s. split.
    + unfold AnalysisAgent._deduplicate_endpoints.
      eapply DictFacts.dict_get_In; exact Gs.
    + apply Own in Gs. unfold Fusion.key_of in Gs.
      inversion Gs; split; assumption.
  - intros s' Hs' [Hp Hm].
    unfold AnalysisAgent._deduplicate_endpoints in Hs'.
    apply DictFacts.dict_values_In in Hs'. destruct Hs' as (k & Hk).
    apply (DictFacts.dict_In_get _ _ _ Keys) in Hk.
    pose proof (Own _ _ Hk) as Ek. unfold Fusion.key_of in Ek.
    rewrite Hp, Hm in Ek. subst k.
    unfold Fusion.key_of in Gs. rewrite Gs in Hk.
    inversion Hk; subst s'. exact Ls.
Qed.

(** The hypothesis of C4 at the less confident LLM finding among three
    candidates of one key: it has a survivor, and every survivor of its
    key is at least as confident. *)
Lemma fused_confidence_dominates_witness :
  In Samples.by_llm_low [Samples.by_regex; Samples.by_llm_low; Samples.by_llm_high]
  /\ (exists s,
        In s (AnalysisAgent._deduplicate_endpoints
                [Samples.by_regex; Samples.by_llm_low; Samples.by_llm_high])
        /\ Fusion.same_key s Samples.by_llm_low)
  /\ (forall s,
        In s (AnalysisAgent._deduplicate_endpoints
                [Samples.by_regex; Samples.by_llm_low; Samples.by_llm_high]) ->
        Fusion.same_key s Samples.by_llm_low ->
        (confidence Samples.by_llm_low <= confidence s)%Q).
Proof.
  split.
  - simpl. right. left. reflexivity.
  - apply (fused_confidence_dominates
             [Samples.by_regex; Samples.by_llm_low; Samples.by_llm_high]
             Samples.by_llm_low).
    simpl. right. left. reflexivity.
Defined.

(** ** Line numbers of combined endpoints *)

Module LineFacts.
Import AnalysisAgent DictFacts Fusion FusionFacts Tally.

Lemma dedup_unnumbered l :
  Forall (fun c => has_plus c = false) l ->
  Forall combined_unnumbered (_deduplicate_endpoints l).
Proof.
  intros Hl. unfold _deduplicate_endpoints.
  apply (fold_invariant (fun d => Forall combined_unnumbered (dict_values d))
                        (fun c => has_plus c = false));
    [| constructor | exact Hl].
  intros d e Hd He. apply Forall_forall. intros x Hx.
  apply dedup_step_values in Hx. destruct Hx as [->|Hx].
  - unfold survivor.
    destruct (dict_get (path e, method e) d) as [existing|] eqn:G.
    + destruct (negb _); [intros _; reflexivity|].
      destruct (Py.gt _ _).
      * intros Hp; congruence.
      * apply dict_get_In in G. rewrite Forall_forall in Hd; auto.
    + intros Hp; congruence.
  - rewrite Forall_forall in Hd; auto.
Qed.

Lemma unnumbered_dict e :
  line_number e = None -> Py.lookup "line_number" (_endpoint_to_dict e) = None.
Proof.
  intros H. unfold _endpoint_to_dict. rewrite H.
  destruct (context e) as [[|c rest]|]; destruct (required (auth e)); reflexivity.
Qed.

End LineFacts.

(** C9.  When fusion meets a second candidate for a key whose detector
    name is not among those of the survivor, the endpoint that replaces
    the survivor has no line number, whatever line numbers the two
    carried, and its serialised form has no line_number field.  When no
    candidate carries a plus sign in its detector, as is the case for the
    output of the two detectors, every fused endpoint whose detector is a
    combination lacks the line number and the field. *)
Theorem combined_endpoint_has_no_line_number :
  (forall existing endpoint : Endpoint,
     Fusion.same_key existing endpoint ->
     Py.mem (detector endpoint) (Py.set (Fusion.components existing)) = false ->
     exists s,
       AnalysisAgent._deduplicate_endpoints [existing; endpoint] = [s]
       /\ line_number s = None
       /\ Py.lookup "line_number" (AnalysisAgent._endpoint_to_dict s) = None)
  /\ (forall l : list Endpoint,
        Forall (fun c => Tally.has_plus c = false) l ->
        forall s, In s (AnalysisAgent._deduplicate_endpoints l) ->
          Tally.has_plus s = true ->
          line_number s = None
          /\ Py.lookup "line_number" (AnalysisAgent._endpoint_to_dict s) = None).
Proof.
  split.
  - intros existing endpoint Hk Hmem.
    exists (AnalysisAgent.combine existing endpoint). split; [|split].
    + apply FusionFacts.pair_detector; assumption.
    + reflexivity.
    + apply LineFacts.unnumbered_dict; reflexivity.
  - intros l Hl s Hs Hp.
    pose proof (LineFacts.dedup_unnumbered l Hl) as U.
    rewrite Forall_forall in U. specialize (U s Hs Hp).
    split; [exact U | apply LineFacts.unnumbered_dict; exact U].
Qed.

(** The hypotheses of C9 at two numbered candidates of one key. *)
Lemma combined_endpoint_has_no_line_number_witness :
  (exists s,
     AnalysisAgent._deduplicate_endpoints [Samples.by_regex; Samples.by_llm_low] = [s]
     /\ line_number s = None
     /\ Py.lookup "line_number" (AnalysisAgent._endpoint_to_dict s) = None)
  /\ (forall s,
        In s (AnalysisAgent._deduplicate_endpoints [Samples.by_regex; Samples.by_llm_low]) ->
        Tally.has_plus s = true ->
        line_number s = None
        /\ Py.lookup "line_number" (AnalysisAgent._endpoint_to_dict s) = None).
Proof.
  split.
  - apply (proj1 combined_endpoint_has_no_line_number Samples.by_regex Samples.by_llm_low).
    + split; reflexivity.
    + reflexivity.
  - apply (proj2 combined_endpoint_has_no_line_number [Samples.by_regex; Samples.by_llm_low]).
    apply Forall_cons; [reflexivity|].
    apply Forall_cons; [reflexivity|].
    apply Forall_nil.
Defined.

(** ** Order of the candidates of one key *)

(** C1 fails on the code.  The regex finding followed by two LLM findings
    of the same key, the more confident one last, leaves a survivor whose
    detector is llm alone: the third candidate replaces the combined
    survivor.  With the two LLM findings swapped the survivor is
    llm+regex.  The two lists hold the same candidates of one key. *)
Theorem reordering_loses_a_detector :
  let first := [Samples.by_regex; Samples.by_llm_low; Samples.by_llm_high] in
  let second := [Samples.by_regex; Samples.by_llm_high; Samples.by_llm_low] in
  Permutation first second
  /\ Forall (Fusion.same_key Samples.by_regex) first
  /\ map Fusion.components (AnalysisAgent._deduplicate_endpoints first) = [["llm"]]
  /\ map Fusion.components (AnalysisAgent._deduplicate_endpoints second)
     = [["llm"; "regex"]]
  /\ map confidence (AnalysisAgent._deduplicate_endpoints first) = [9 # 10]
  /\ map confidence (AnalysisAgent._deduplicate_endpoints second) = [9 # 10].
Proof.
  cbn zeta. split; [|split].
  - apply perm_skip. apply perm_swap.
  - repeat (apply Forall_cons; [split; reflexivity|]). apply Forall_nil.
  - repeat split; vm_compute; reflexivity.
Qed.

(** ** The chunker *)

Module ChunkFacts.
Import Chunk.
Local Open Scope Z_scope.

Lemma len_nonneg s : 0 <= Py.len s.
Proof. unfold Py.len; lia. Qed.

Lemma slice_index_inside n i : 0 <= i <= n -> Py.slice_index n i = i.
Proof.
  intros H. unfold Py.slice_index.
  destruct (i <? 0) eqn:E; [apply Z.ltb_lt in E; lia | lia].
Qed.

Lemma rfind_below_bounds sub s lo span :
  let r := Py.rfind_below sub s lo span in
  r = -1 \/ (lo <= r < lo + Z.of_nat span).
Proof.
  induction span as [|n IH]; cbn zeta; simpl Py.rfind_below; [left; reflexivity|].
  destruct (Py.occurs_at sub s (lo + Z.of_nat n)).
  - right. lia.
  - cbn zeta in IH. destruct IH as [IH|IH]; [left; exact IH | right; lia].
Qed.

(** An occurrence reported between two offsets of the text lies between
    them, delimiter included. *)
Lemma rfind_bounds s sub a b :
  0 <= a <= Py.len s -> 0 <= b <= Py.len s ->
  let r := Py.rfind s sub a b in
  r = -1 \/ (a <= r /\ r + Py.len sub <= b).
Proof.
  intros Ha Hb. cbn zeta. unfold Py.rfind.
  rewrite !slice_index_inside by assumption.
  pose proof (rfind_below_bounds sub s a (Z.to_nat (b - Py.len sub - a + 1))) as B.
  cbn zeta in B. destruct B as [B|B]; [left; exact B | right]. lia.
Qed.

Lemma snap_bounds code start end_ ds :
  0 <= start -> start < end_ -> end_ <= Py.len code ->
  start < snap code start end_ ds <= end_.
Proof.
  intros H0 H1 H2. induction ds as [|d ds IH]; simpl; [lia|].
  destruct (start <? Py.rfind code d start end_) eqn:E; [|exact IH].
  apply Z.ltb_lt in E.
  pose proof (rfind_bounds code d start end_) as B. cbn zeta in B.
  pose proof (len_nonneg d).
  destruct B as [B|B]; lia.
Qed.

Lemma window_end_bounds code max_size start :
  0 <= start -> start < Py.len code -> 1 <= max_size ->
  start < window_end code max_size start <= Py.len code.
Proof.
  intros H0 H1 H2. unfold window_end.
  destruct (Z.min (start + max_size) (Py.len code) <? Py.len code) eqn:E.
  - pose proof (snap_bounds code start (Z.min (start + max_size) (Py.len code))
                            delimiters) as B.
    lia.
  - lia.
Qed.

Lemma next_start_bounds max_size overlap start end_ :
  overlap < max_size -> start < end_ ->
  start < next_start max_size overlap start end_ <= end_.
Proof. unfold next_start; lia. Qed.

(** From any offset inside the text the loop ends within as many rounds
    as characters remain, and it ends on the end of the text. *)
Lemma windows_from code max_size overlap :
  1 <= max_size -> overlap < max_size ->
  forall fuel start,
    0 <= start -> Py.len code - start <= Z.of_nat fuel ->
    exists ws,
      windows fuel code max_size overlap start = Some ws
      /\ StronglySorted Z.lt (map fst ws)
      /\ Forall (fun w => start <= fst w) ws
      /\ (start < Py.len code ->
          ws <> [] /\ snd (last ws (0, 0)) = Py.len code).
Proof.
  intros Hm Ho. induction fuel as [|fuel IH]; intros start H0 Hf.
  - exists []. simpl.
    destruct (start <? Py.len code) eqn:E; [apply Z.ltb_lt in E; lia|].
    apply Z.ltb_ge in E.
    repeat split; try constructor; lia.
  - simpl. destruct (start <? Py.len code) eqn:E.
    + apply Z.ltb_lt in E.
      pose proof (window_end_bounds code max_size start H0 E Hm) as We.
      pose proof (next_start_bounds max_size overlap start
                    (window_end code max_size start) Ho (proj1 We)) as Ns.
      destruct (IH (next_start max_size overlap start (window_end code max_size start)))
        as (ws & Hw & Hs & Hge & Hlast); [lia | lia |].
      rewrite Hw. exists ((start, window_end code max_size start) :: ws).
      split; [reflexivity|]. split; [|split; [|intros _; split; [discriminate|]]].
      * simpl. constructor; [exact Hs|].
        rewrite Forall_map. eapply Forall_impl; [|exact Hge].
        simpl; intros w Hw'. lia.
      * constructor; [simpl; lia|].
        eapply Forall_impl; [|exact Hge]. simpl; intros w Hw'. lia.
      * destruct ws as [|w ws'].
        -- simpl.
           destruct (Z_lt_ge_dec (next_start max_size overlap start
                                    (window_end code max_size start)) (Py.len code))
             as [L|G].
           ++ destruct (Hlast L) as [N _]. contradiction.
           ++ lia.
        -- change (last ((start, window_end code max_size start) :: w :: ws') (0, 0))
             with (last (w :: ws') (0, 0)).
           destruct (Z_lt_ge_dec (next_start max_size overlap start
                                    (window_end code max_size start)) (Py.len code))
             as [L|G].
           ++ destruct (Hlast L) as [_ Hl]. exact Hl.
           ++ exfalso.
              destruct fuel as [|fuel']; simpl in Hw.
              ** destruct (_ <? _); discriminate.
              ** destruct (_ <? Py.len code) eqn:E'; [apply Z.ltb_lt in E'; lia|].
                 discriminate.
    + apply Z.ltb_ge in E. exists []. repeat split; try constructor; lia.
Qed.

End ChunkFacts.

(** C5.  For a non-empty source, [max_size] at least 1 and [overlap]
    below [max_size], the loop of the chunker ends within as many rounds
    as the source has characters; it emits at least one chunk, the start
    offsets of its chunks are strictly increasing, and the end offset of
    the last chunk is the length of the source. *)
Theorem chunker_covers_source :
  forall (code : string) (max_size overlap : Z) (fuel : nat),
    code <> EmptyString ->
    (1 <= max_size)%Z ->
    (overlap < max_size)%Z ->
    (String.length code <= fuel)%nat ->
    exists ws : list (Z * Z),
      Chunk.windows fuel code max_size overlap 0 = Some ws
      /\ Chunk.simple_chunk_code fuel code max_size overlap
         = Some (map (Chunk.emit code) ws)
      /\ ws <> []
      /\ StronglySorted Z.lt (map fst ws)
      /\ snd (last ws (0%Z, 0%Z)) = Py.len code.
Proof.
  intros code max_size overlap fuel Hne Hm Ho Hf.
  destruct (ChunkFacts.windows_from code max_size overlap Hm Ho fuel 0%Z)
    as (ws & Hw & Hs & _ & Hlast).
  - lia.
  - unfold Py.len. lia.
  - assert (Hpos : (0 < Py.len code)%Z).
    { unfold Py.len. destruct code; [contradiction | simpl; lia]. }
    destruct (Hlast Hpos) as [Hn Hl].
    exists ws. unfold Chunk.simple_chunk_code. rewrite Hw. simpl.
    repeat split; assumption.
Qed.

(** The hypotheses of C5 at a source of 29 characters cut into windows
    of 8 with an overlap of 2. *)
Lemma chunker_covers_source_witness :
  exists ws : list (Z * Z),
    Chunk.windows 29 ("abcdefghij" ++ Chunk.nl ++ "}" ++ Chunk.nl ++ "klmnopqrstuvwxyz")
                  8 2 0 = Some ws
    /\ Chunk.simple_chunk_code 29
         ("abcdefghij" ++ Chunk.nl ++ "}" ++ Chunk.nl ++ "klmnopqrstuvwxyz") 8 2
       = Some (map (Chunk.emit
                      ("abcdefghij" ++ Chunk.nl ++ "}" ++ Chunk.nl ++ "klmnopqrstuvwxyz"))
                   ws)
    /\ ws <> []
    /\ StronglySorted Z.lt (map fst ws)
    /\ snd (last ws (0%Z, 0%Z))
       = Py.len ("abcdefghij" ++ Chunk.nl ++ "}" ++ Chunk.nl ++ "klmnopqrstuvwxyz").
Proof.
  apply (chunker_covers_source
           ("abcdefghij" ++ Chunk.nl ++ "}" ++ Chunk.nl ++ "klmnopqrstuvwxyz") 8 2 29).
  - discriminate.
  - lia.
  - lia.
  - vm_compute. lia.
Defined.

(** ** Failures of the LLM detector on one chunk *)

Module IsolationFacts.
Import LLMAnalyzer Isolation.

(** The loop over the records appends the findings that precede the
    first failure to whatever the shared list held. *)
Lemma process_records_appends start_line records : forall all_endpoints,
  fst (process_records start_line records all_endpoints)
  = all_endpoints ++ findings_before_failure start_line records.
Proof.
  induction records as [|ep rest IH]; intros acc; simpl.
  - rewrite app_nil_r; reflexivity.
  - destruct (process_record start_line ep) as [[f|]|]; simpl.
    + rewrite IH, <- app_assoc. reflexivity.
    + apply IH.
    + rewrite app_nil_r; reflexivity.
Qed.

Lemma try_chunk_appends chat system_prompt ap start_line all_endpoints :
  fst (try_chunk chat system_prompt ap start_line all_endpoints)
  = all_endpoints ++ contribution chat system_prompt ap start_line.
Proof.
  unfold try_chunk, contribution.
  destruct (chat ap system_prompt) as [response|]; simpl.
  - destruct (items_of response "endpoints") as [records|]; simpl.
    + apply process_records_appends.
    + rewrite app_nil_r; reflexivity.
  - rewrite app_nil_r; reflexivity.
Qed.

Lemma analyze_chunks_appends chat format system_prompt analysis_prompt chunks :
  renders format analysis_prompt chunks ->
  forall all_endpoints,
    analyze_chunks chat format system_prompt analysis_prompt chunks all_endpoints
    = Returned (all_endpoints
                ++ flat_map (chunk_contribution chat format system_prompt analysis_prompt)
                            chunks).
Proof.
  induction chunks as [|[[chunk context] start_line] rest IH]; intros Hr acc; simpl.
  - rewrite app_nil_r; reflexivity.
  - destruct (Hr chunk context start_line (or_introl eq_refl)) as (ap & Hap).
    rewrite Hap. rewrite IH.
    + rewrite try_chunk_appends, <- app_assoc. reflexivity.
    + intros c x l Hin. apply (Hr c x l). right; exact Hin.
Qed.

End IsolationFacts.

(** C7 fails on the code as stated: a chunk whose response raises while it
    is processed keeps the findings appended before the failure.  Here the
    second record of the response raises, the [try] block is left by the
    error, and the chunk has contributed the finding of its first
    record. *)
Lemma failed_chunk_keeps_earlier_findings :
  ~ (forall (chat : string -> string -> LLMAnalyzer.outcome Py.value)
            (system_prompt ap : string) (start_line : Z)
            (all_endpoints : list LLMAnalyzer.Finding),
       snd (LLMAnalyzer.try_chunk chat system_prompt ap start_line all_endpoints) = true ->
       fst (LLMAnalyzer.try_chunk chat system_prompt ap start_line all_endpoints)
       = all_endpoints).
Proof.
  intros H.
  specialize (H Isolation.sample_chat "system" "half" 1%Z [] eq_refl).
  vm_compute in H. discriminate H.
Qed.

(** C7, amended.  When the prompt of every chunk can be rendered, the
    analysis returns, whatever the capability raises, and its result is
    the concatenation, in chunk order, of what each chunk contributes on
    its own: nothing when the call raises or the response offers no
    endpoints to iterate over, and otherwise the findings built from the
    records that precede the first record whose processing raises.  A
    failure in one chunk leaves the contributions of the others as they
    are. *)
Theorem chunk_failure_is_isolated :
  forall (chat : string -> string -> LLMAnalyzer.outcome Py.value)
         (format : string -> string -> string -> LLMAnalyzer.outcome string)
         (system_prompt analysis_prompt : string)
         (chunks : list (string * string * Z)),
    Isolation.renders format analysis_prompt chunks ->
    LLMAnalyzer.analyze_chunks chat format system_prompt analysis_prompt chunks []
    = LLMAnalyzer.Returned
        (flat_map (Isolation.chunk_contribution chat format system_prompt analysis_prompt)
                  chunks).
Proof.
  intros chat format system_prompt analysis_prompt chunks Hr.
  rewrite (IsolationFacts.analyze_chunks_appends _ _ _ _ _ Hr). reflexivity.
Qed.

(** The hypothesis of C7 at four chunks: the second one fails in the
    call, the third one while its second record is processed. *)
Lemma chunk_failure_is_isolated_witness :
  LLMAnalyzer.analyze_chunks Isolation.sample_chat Isolation.sample_format
    "system" "template"
    [("/api/x", "", 1%Z); ("bad", "", 4%Z); ("half", "", 7%Z); ("/api/y", "", 9%Z)] []
  = LLMAnalyzer.Returned
      (flat_map (Isolation.chunk_contribution Isolation.sample_chat Isolation.sample_format
                   "system" "template")
         [("/api/x", "", 1%Z); ("bad", "", 4%Z); ("half", "", 7%Z); ("/api/y", "", 9%Z)]).
Proof.
  apply (chunk_failure_is_isolated Isolation.sample_chat Isolation.sample_format
           "system" "template").
  intros chunk context start_line _. exists chunk. reflexivity.
Defined.

(** ** Path normalisation *)

Module ReFacts.
Import Re.

(** Where the pattern matches nowhere, substitution changes nothing. *)
Lemma sub_without_match icase r repl s : forall pos fuel,
  search_from icase r pos s = None -> sub_from fuel icase r repl s = s.
Proof.
  induction s as [|c rest IH]; intros pos fuel H; destruct fuel as [|fuel];
    try reflexivity; simpl in *.
  - destruct (match_at icase r EmptyString) as [[rest caps]|]; [discriminate|reflexivity].
  - destruct (match_at icase r (String c rest)) as [[rest' caps]|]; [discriminate|].
    rewrite (IH _ _ H). reflexivity.
Qed.

(** One unfolding of the substitution loop. *)
Lemma sub_from_step fuel icase r repl s :
  sub_from (S fuel) icase r repl s
  = match match_at icase r s with
    | Some (rest, caps) =>
        if (String.length rest <? String.length s)%nat
        then (repl caps ++ sub_from fuel icase r repl rest)%string
        else match s with
             | String c rest' => (repl caps ++ String c (sub_from fuel icase r repl rest'))%string
             | EmptyString => repl caps
             end
    | None =>
        match s with
        | String c rest' => String c (sub_from fuel icase r repl rest')
        | EmptyString => EmptyString
        end
    end.
Proof. reflexivity. Qed.

(** A greedy repetition whose continuation accepts takes every character
    the atom allows. *)
Lemma star_takes_all (R : Type) icase a s (k : string -> option R) :
  (forall rest, k rest <> None) ->
  star icase a s k = k (Py.lstrip (atom_ok icase a) s).
Proof.
  intros Hk. induction s as [|c rest IH]; simpl; [reflexivity|].
  destruct (atom_ok icase a c); [|reflexivity].
  rewrite IH. destruct (k (Py.lstrip (atom_ok icase a) rest)) eqn:E; [reflexivity|].
  exfalso. exact (Hk _ E).
Qed.

End ReFacts.

Module NormalFacts.
Import Re EndpointProcessor Normal.

Lemma lstrip_length p s : (String.length (Py.lstrip p s) <= String.length s)%nat.
Proof.
  induction s as [|c rest IH]; simpl; [lia|].
  destruct (p c); simpl; lia.
Qed.

(** The slash pattern at the head of a text: it matches when the text
    starts with a slash, and then consumes the whole run. *)
Lemma slashes_at s :
  match_at false slashes s
  = match s with
    | String c rest =>
        if is_slash c then Some (Py.lstrip is_slash rest, []) else None
    | EmptyString => None
    end.
Proof.
  unfold match_at, slashes, plus. simpl.
  destruct s as [|c rest]; [reflexivity|].
  unfold is_slash. destruct (Ascii.eqb c "/"); [|reflexivity].
  rewrite ReFacts.star_takes_all by (intros; discriminate).
  reflexivity.
Qed.

Lemma collapse_slash rest :
  collapse (String "/" rest) = String "/" (collapse (Py.lstrip is_slash rest)).
Proof.
  induction rest as [|d r IH]; [reflexivity|].
  change (collapse (String "/" (String d r)))
    with (if is_slash d then collapse (String d r)
          else String "/" (collapse (String d r))).
  simpl Py.lstrip. destruct (is_slash d) eqn:E; [|reflexivity].
  unfold is_slash in E. apply Ascii.eqb_eq in E. subst d. exact IH.
Qed.

(** The substitution of the source and the direct recursion agree. *)
Lemma sub_slashes_collapse : forall fuel s,
  (String.length s < fuel)%nat ->
  sub_from fuel false slashes (fun _ => "/") s = collapse s.
Proof.
  induction fuel as [|fuel IH]; intros s Hlen; [lia|].
  simpl sub_from. rewrite slashes_at.
  destruct s as [|c rest]; [reflexivity|].
  destruct (is_slash c) eqn:E.
  - pose proof (lstrip_length is_slash rest) as L.
    assert (Hlt : (String.length (Py.lstrip is_slash rest)
                   <? String.length (String c rest))%nat = true)
      by (apply Nat.ltb_lt; simpl; lia).
    rewrite Hlt. rewrite IH by (simpl in Hlen; lia).
    unfold is_slash in E. apply Ascii.eqb_eq in E. subst c.
    rewrite collapse_slash. reflexivity.
  - rewrite IH by (simpl in Hlen; lia).
    simpl. rewrite E. reflexivity.
Qed.

Lemma normalize_path_unfold url :
  normalize_path url
  = collapse (Py.strip_chars quote_chars (Re.sub false template braces url)).
Proof.
  unfold normalize_path. cbv zeta. unfold Re.sub at 1.
  apply sub_slashes_collapse. lia.
Qed.

(** Collapsing keeps the first character. *)
Lemma collapse_head s :
  match collapse s with
  | String c _ => Some c
  | EmptyString => None
  end
  = match s with
    | String c _ => Some c
    | EmptyString => None
    end.
Proof.
  induction s as [|c rest IH]; [reflexivity|].
  simpl. destruct (is_slash c && starts_with_slash rest) eqn:E; [|reflexivity].
  apply andb_true_iff in E. destruct E as [Ec Er].
  rewrite IH. destruct rest as [|d r]; [discriminate|].
  simpl in Er. unfold is_slash in Ec, Er.
  apply Ascii.eqb_eq in Ec, Er. subst; reflexivity.
Qed.

Lemma collapse_starts s : starts_with_slash (collapse s) = starts_with_slash s.
Proof.
  pose proof (collapse_head s) as H. unfold starts_with_slash.
  destruct (collapse s), s; try discriminate; [reflexivity|].
  inversion H; reflexivity.
Qed.

Lemma collapse_head_ok p s : head_ok p (collapse s) = head_ok p s.
Proof.
  pose proof (collapse_head s) as H. unfold head_ok.
  destruct (collapse s), s; try discriminate; [reflexivity|].
  inversion H; reflexivity.
Qed.

Lemma collapse_empty s : collapse s = EmptyString -> s = EmptyString.
Proof.
  pose proof (collapse_head s) as H. intros E. rewrite E in H.
  destruct s; [reflexivity | discriminate].
Qed.

Lemma collapse_fixed s : no_double s = true -> collapse s = s.
Proof.
  induction s as [|c rest IH]; simpl; [reflexivity|].
  intros H. apply andb_true_iff in H. destruct H as [H1 H2].
  apply negb_true_iff in H1. rewrite H1, IH by exact H2. reflexivity.
Qed.

Lemma collapse_no_double s : no_double (collapse s) = true.
Proof.
  induction s as [|c rest IH]; simpl; [reflexivity|].
  destruct (is_slash c && starts_with_slash rest) eqn:E; [exact IH|].
  simpl. rewrite collapse_starts, E, IH. reflexivity.
Qed.

Lemma collapse_idempotent s : collapse (collapse s) = collapse s.
Proof. apply collapse_fixed, collapse_no_double. Qed.

Lemma collapse_last_ok p s : last_ok p s = true -> last_ok p (collapse s) = true.
Proof.
  induction s as [|c rest IH]; [reflexivity|].
  intros H. simpl collapse.
  destruct (is_slash c && starts_with_slash rest) eqn:E.
  - apply andb_true_iff in E. destruct E as [_ Er].
    destruct rest as [|d r]; [discriminate|]. apply IH. exact H.
  - destruct rest as [|d r]; [exact H|].
    destruct (collapse (String d r)) as [|d' r'] eqn:C.
    + apply collapse_empty in C. discriminate.
    + change (last_ok p (String c (String d' r'))) with (last_ok p (String d' r')).
      apply IH. exact H.
Qed.

(** Stripping leaves ends that need no stripping. *)
Lemma lstrip_head_ok p s : head_ok p (Py.lstrip p s) = true.
Proof.
  induction s as [|c rest IH]; simpl; [reflexivity|].
  destruct (p c) eqn:E; [exact IH | simpl; rewrite E; reflexivity].
Qed.

Lemma rstrip_head_ok p s : head_ok p s = true -> head_ok p (Py.rstrip p s) = true.
Proof.
  destruct s as [|c rest]; simpl; [reflexivity|].
  intros H. destruct (Py.rstrip p rest); [|exact H].
  destruct (p c) eqn:E; [reflexivity | simpl; rewrite E; reflexivity].
Qed.

Lemma rstrip_last_ok p s : last_ok p (Py.rstrip p s) = true.
Proof.
  induction s as [|c rest IH]; simpl; [reflexivity|].
  destruct (Py.rstrip p rest) as [|d k] eqn:E.
  - destruct (p c) eqn:Ec; simpl; [reflexivity | rewrite Ec; reflexivity].
  - exact IH.
Qed.

Lemma lstrip_fixed p s : head_ok p s = true -> Py.lstrip p s = s.
Proof.
  destruct s as [|c rest]; simpl; [reflexivity|].
  intros H. apply negb_true_iff in H. rewrite H. reflexivity.
Qed.

Lemma rstrip_fixed p s : last_ok p s = true -> Py.rstrip p s = s.
Proof.
  induction s as [|c rest IH]; [reflexivity|].
  intros H. simpl Py.rstrip. destruct rest as [|d r].
  - simpl in *. apply negb_true_iff in H. rewrite H. reflexivity.
  - rewrite IH by exact H. reflexivity.
Qed.

Lemma strip_chars_fixed chars s :
  head_ok (fun c => Py.char_in c chars) s = true ->
  last_ok (fun c => Py.char_in c chars) s = true ->
  Py.strip_chars chars s = s.
Proof.
  intros Hh Hl. unfold Py.strip_chars.
  rewrite lstrip_fixed by exact Hh. apply rstrip_fixed; exact Hl.
Qed.

(** The ends of a normalised path need no stripping. *)
Lemma normalize_path_ends url :
  head_ok is_quote (normalize_path url) = true
  /\ last_ok is_quote (normalize_path url) = true.
Proof.
  rewrite normalize_path_unfold. unfold Py.strip_chars. split.
  - rewrite collapse_head_ok. apply rstrip_head_ok, lstrip_head_ok.
  - apply collapse_last_ok, rstrip_last_ok.
Qed.

End NormalFacts.

(** C2 fails on the code as stated: the text [$${a}] normalises to
    [${a}], which normalises to [{a}].  The first pass exposes a template
    that only the second pass converts. *)
Lemma normalize_twice_differs :
  EndpointProcessor.normalize_path "$${a}" = "${a}"
  /\ EndpointProcessor.normalize_path (EndpointProcessor.normalize_path "$${a}") = "{a}"
  /\ EndpointProcessor.normalize_path (EndpointProcessor.normalize_path "$${a}")
     <> EndpointProcessor.normalize_path "$${a}".
Proof.
  repeat split; try (vm_compute; reflexivity).
  vm_compute. discriminate.
Qed.

(** C2, amended.  For every string whose normalised form holds no
    template, normalising the normalised form gives it back. *)
Theorem normalize_idempotent_without_template :
  forall x : string,
    Normal.has_template (EndpointProcessor.normalize_path x) = false ->
    EndpointProcessor.normalize_path (EndpointProcessor.normalize_path x)
    = EndpointProcessor.normalize_path x.
Proof.
  intros x H.
  rewrite (NormalFacts.normalize_path_unfold (EndpointProcessor.normalize_path x)).
  assert (T : Re.sub false EndpointProcessor.template EndpointProcessor.braces
                     (EndpointProcessor.normalize_path x)
              = EndpointProcessor.normalize_path x).
  { unfold Re.sub. apply (ReFacts.sub_without_match _ _ _ _ 0%Z).
    unfold Normal.has_template, Re.found, Re.search in H.
    destruct (Re.search_from false EndpointProcessor.template 0
                (EndpointProcessor.normalize_path x)); [discriminate | reflexivity]. }
  rewrite T.
  destruct (NormalFacts.normalize_path_ends x) as [Hh Hl].
  rewrite NormalFacts.strip_chars_fixed by assumption.
  rewrite (NormalFacts.normalize_path_unfold x).
  apply NormalFacts.collapse_idempotent.
Qed.

(** The hypothesis of the amended C2 at a quoted path with a template and
    doubled slashes. *)
Lemma normalize_idempotent_without_template_witness :
  EndpointProcessor.normalize_path
    (EndpointProcessor.normalize_path "'//api//users//${id}//'")
  = EndpointProcessor.normalize_path "'//api//users//${id}//'".
Proof.
  apply (normalize_idempotent_without_template "'//api//users//${id}//'").
  vm_compute. reflexivity.
Defined.

(** ** Normalisation: when the second pass changes the path *)

Module TemplateFacts.
Import Re EndpointProcessor Normal.

Lemma append_length a b :
  String.length (a ++ b) = (String.length a + String.length b)%nat.
Proof. induction a as [|c a IH]; simpl; [reflexivity | rewrite IH; reflexivity]. Qed.

Lemma prefix_length n s :
  (n <= String.length s)%nat -> String.length (String.substring 0 n s) = n.
Proof.
  revert n. induction s as [|c s IH]; intros [|n] H; simpl in *; try reflexivity; try lia.
  rewrite IH by lia. reflexivity.
Qed.

(** What a repetition hands to its continuation is a suffix no longer
    than the text. *)
Lemma star_result (R : Type) icase a s (k : string -> option R) x :
  star icase a s k = Some x ->
  exists rest, k rest = Some x /\ (String.length rest <= String.length s)%nat.
Proof.
  induction s as [|c s IH]; simpl; intros H.
  - exists EmptyString. split; [exact H | simpl; lia].
  - destruct (atom_ok icase a c).
    + destruct (star icase a s k) as [y|] eqn:E.
      * inversion H; subst y. destruct (IH eq_refl) as (rest & Hk & Hl).
        exists rest. split; [exact Hk | lia].
      * exists (String c s). split; [exact H | simpl; lia].
    + exists (String c s). split; [exact H | simpl; lia].
Qed.

(** A match of the template pattern is replaced by a text one character
    shorter than what it consumed. *)
Lemma template_match_shrinks s rest caps :
  match_at false template s = Some (rest, caps) ->
  S (String.length (braces caps) + String.length rest) = String.length s.
Proof.
  unfold match_at, template. simpl.
  destruct s as [|c0 s1]; [discriminate|].
  destruct (Ascii.eqb c0 "$"); [|discriminate].
  destruct s1 as [|c1 s2]; [discriminate|].
  destruct (Ascii.eqb c1 "{"); [|discriminate].
  destruct s2 as [|c2 s3]; [discriminate|].
  destruct (negb (Ascii.eqb c2 "}")); [|discriminate].
  intros H. apply star_result in H. destruct H as (r & Hk & Hl).
  destruct r as [|c r']; [discriminate|].
  destruct (Ascii.eqb c "}"); [|discriminate].
  inversion Hk; subst rest caps.
  assert (G : String.length (consumed (String c2 s3) (String c r'))
              = (String.length (String c2 s3) - String.length (String c r'))%nat)
    by (unfold consumed; apply prefix_length; lia).
  remember (consumed (String c2 s3) (String c r')) as g.
  unfold braces. cbn [group Nat.eqb].
  change (String.length ("{" ++ g ++ "}")) with (S (String.length (g ++ "}"))).
  rewrite append_length, G. simpl in *. lia.
Qed.

Lemma sub_template_length : forall fuel s pos,
  (String.length s < fuel)%nat ->
  (String.length (sub_from fuel false template braces s) <= String.length s)%nat
  /\ (search_from false template pos s <> None ->
      (String.length (sub_from fuel false template braces s) < String.length s)%nat).
Proof.
  induction fuel as [|fuel IH]; intros s pos Hlen; [lia|].
  rewrite ReFacts.sub_from_step.
  destruct (match_at false template s) as [[rest caps]|] eqn:M.
  - pose proof (template_match_shrinks _ _ _ M) as L.
    assert (Hlt : (String.length rest <? String.length s)%nat = true)
      by (apply Nat.ltb_lt; lia).
    rewrite Hlt, append_length.
    destruct (IH rest 0%Z) as [Hle _]; [lia|].
    split; [lia | intros _; lia].
  - destruct s as [|c s'].
    + split; [simpl; lia|]. intros N. exfalso. apply N. reflexivity.
    + destruct (IH s' (pos + 1)%Z) as [Hle Hlt]; [simpl in Hlen; lia|].
      split; [simpl; lia|].
      intros N. simpl in N. rewrite M in N. specialize (Hlt N). simpl. lia.
Qed.

Lemma rstrip_length p s : (String.length (Py.rstrip p s) <= String.length s)%nat.
Proof.
  induction s as [|c s IH]; simpl; [lia|].
  destruct (Py.rstrip p s); [destruct (p c)|]; simpl in *; lia.
Qed.

Lemma collapse_length s : (String.length (collapse s) <= String.length s)%nat.
Proof.
  induction s as [|c s IH]; simpl; [lia|].
  destruct (is_slash c && starts_with_slash s); simpl; lia.
Qed.

(** Normalising a text that holds a template makes it shorter. *)
Lemma normalize_shrinks y :
  has_template y = true ->
  (String.length (normalize_path y) < String.length y)%nat.
Proof.
  intros H. rewrite NormalFacts.normalize_path_unfold.
  pose proof (collapse_length (Py.strip_chars quote_chars (Re.sub false template braces y))).
  unfold Py.strip_chars in *.
  pose proof (rstrip_length (fun c => Py.char_in c quote_chars)
                (Py.lstrip (fun c => Py.char_in c quote_chars)
                           (Re.sub false template braces y))).
  pose proof (NormalFacts.lstrip_length (fun c => Py.char_in c quote_chars)
                (Re.sub false template braces y)).
  destruct (sub_template_length (S (String.length y)) y 0%Z) as [_ Hlt]; [lia|].
  unfold Re.sub in *.
  assert (N : search_from false template 0 y <> None).
  { unfold has_template, found, search in H.
    destruct (search_from false template 0 y); [discriminate | discriminate]. }
  specialize (Hlt N). lia.
Qed.

(** The template pattern starts with a dollar sign. *)
Lemma no_dollar_no_template s : forall pos,
  Py.contains "$" s = false -> search_from false template pos s = None.
Proof.
  induction s as [|c s IH]; intros pos H; [reflexivity|].
  simpl in H. apply orb_false_iff in H. destruct H as [Hc Hs].
  change (search_from false template pos (String c s))
    with (match match_at false template (String c s) with
          | Some (rest, caps) =>
              Some (mkMatch pos (pos + Py.len (String c s) - Py.len rest) caps)
          | None => search_from false template (pos + 1) s
          end).
  assert (M : match_at false template (String c s) = None).
  { unfold match_at, template. simpl. rewrite Hc. reflexivity. }
  rewrite M. apply IH; exact Hs.
Qed.

Lemma lstrip_contains p c s :
  Py.contains c s = false -> Py.contains c (Py.lstrip p s) = false.
Proof.
  induction s as [|d s IH]; simpl; [reflexivity|].
  intros H. apply orb_false_iff in H. destruct H as [Hd Hs].
  destruct (p d); [auto | simpl; rewrite Hd, Hs; reflexivity].
Qed.

Lemma rstrip_contains p c s :
  Py.contains c s = false -> Py.contains c (Py.rstrip p s) = false.
Proof.
  induction s as [|d s IH]; simpl; [reflexivity|].
  intros H. apply orb_false_iff in H. destruct H as [Hd Hs].
  specialize (IH Hs). destruct (Py.rstrip p s) as [|e k].
  - destruct (p d); simpl; [reflexivity | rewrite Hd; reflexivity].
  - change (Py.contains c (String d (String e k)))
      with (Ascii.eqb d c || Py.contains c (String e k)).
    rewrite Hd, IH. reflexivity.
Qed.

Lemma collapse_contains c s :
  Py.contains c s = false -> Py.contains c (collapse s) = false.
Proof.
  induction s as [|d s IH]; simpl; [reflexivity|].
  intros H. apply orb_false_iff in H. destruct H as [Hd Hs].
  destruct (is_slash d && starts_with_slash s); [auto|].
  simpl. rewrite Hd, IH by exact Hs. reflexivity.
Qed.

Lemma normalize_keeps_no_dollar x :
  Py.contains "$" x = false -> Py.contains "$" (normalize_path x) = false.
Proof.
  intros H. rewrite NormalFacts.normalize_path_unfold.
  unfold Re.sub. rewrite (ReFacts.sub_without_match _ _ _ _ 0%Z)
    by (apply no_dollar_no_template; exact H).
  apply collapse_contains, rstrip_contains, lstrip_contains. exact H.
Qed.

End TemplateFacts.

(** One more pass changes a normalised path exactly when the path still
    holds a template. *)
Lemma second_pass_iff :
  forall x : string,
    EndpointProcessor.normalize_path (EndpointProcessor.normalize_path x)
    = EndpointProcessor.normalize_path x
    <-> Normal.has_template (EndpointProcessor.normalize_path x) = false.
Proof.
  intros x. split.
  - intros E.
    destruct (Normal.has_template (EndpointProcessor.normalize_path x)) eqn:T;
      [|reflexivity].
    apply TemplateFacts.normalize_shrinks in T. rewrite E in T. lia.
  - intros T. unfold Normal.has_template, Re.found, Re.search in T.
    pose proof (NormalFacts.normalize_path_unfold (EndpointProcessor.normalize_path x)) as U.
    rewrite U. unfold Re.sub.
    rewrite (ReFacts.sub_without_match _ _ _ _ 0%Z)
      by (destruct (Re.search_from false EndpointProcessor.template 0
                      (EndpointProcessor.normalize_path x));
          [discriminate | reflexivity]).
    destruct (NormalFacts.normalize_path_ends x) as [Hh Hl].
    rewrite NormalFacts.strip_chars_fixed by assumption.
    rewrite (NormalFacts.normalize_path_unfold x).
    apply NormalFacts.collapse_idempotent.
Qed.

(** X13.  The amendment of C2 is exact: one more pass changes a normalised
    path if and only if the path still holds a template. *)
Lemma normalize_idempotent_iff :
  forall x : string,
    EndpointProcessor.normalize_path (EndpointProcessor.normalize_path x)
    = EndpointProcessor.normalize_path x
    <-> Normal.has_template (EndpointProcessor.normalize_path x) = false.
Proof.
  intros x. apply second_pass_iff.
Qed.

(** In particular normalisation is idempotent on every text without a
    dollar sign. *)
Lemma normalize_idempotent_without_dollar :
  forall x : string,
    Py.contains "$" x = false ->
    EndpointProcessor.normalize_path (EndpointProcessor.normalize_path x)
    = EndpointProcessor.normalize_path x.
Proof.
  intros x H. apply second_pass_iff.
  unfold Normal.has_template, Re.found, Re.search.
  rewrite (TemplateFacts.no_dollar_no_template _ 0%Z
             (TemplateFacts.normalize_keeps_no_dollar x H)).
  reflexivity.
Qed.

(** ** What does not depend on the order of the candidates *)

Module OrderFacts.
Import AnalysisAgent DictFacts Fusion FusionFacts.

Lemma attained_step d seen e :
  attained d seen -> attained (dedup_step d e) (e :: seen).
Proof.
  intros A k s. rewrite dedup_step_get.
  destruct (key_eqb k (path e, method e)) eqn:E.
  - apply key_eqb_eq in E. subst k. intros H. inversion H; subst s. clear H.
    unfold survivor.
    destruct (dict_get (path e, method e) d) as [existing|] eqn:G.
    + destruct (A _ _ G) as (c & Hc & Kc & Cc).
      destruct (negb _).
      * unfold combine; simpl. unfold Py.max.
        destruct (Py.gt (confidence e) (confidence existing)).
        -- exists e. split; [left; reflexivity | split; reflexivity].
        -- exists c. split; [right; exact Hc | split; assumption].
      * destruct (Py.gt _ _).
        -- exists e. split; [left; reflexivity | split; reflexivity].
        -- exists c. split; [right; exact Hc | split; assumption].
    + exists e. split; [left; reflexivity | split; reflexivity].
  - intros H. destruct (A _ _ H) as (c & Hc & Kc & Cc).
    exists c. split; [right; exact Hc | split; assumption].
Qed.

Lemma attained_fold l : forall d seen,
  attained d seen -> attained (fold_left dedup_step l d) (rev l ++ seen).
Proof.
  induction l as [|e l IH]; simpl; intros d seen A; [exact A|].
  rewrite <- app_assoc. simpl. apply IH. apply attained_step; exact A.
Qed.

Lemma survivor_attained l s :
  In s (_deduplicate_endpoints l) ->
  exists c, In c l /\ same_key s c /\ confidence c = confidence s.
Proof.
  intros Hs. unfold _deduplicate_endpoints in Hs.
  destruct (ConfidenceFacts.inv_final l) as [Keys Own _].
  apply dict_values_In in Hs. destruct Hs as (k & Hk).
  apply (dict_In_get _ _ _ Keys) in Hk.
  pose proof (attained_fold l [] []) as A. rewrite app_nil_r in A.
  assert (A0 : attained [] []) by (intros k0 s0 H; discriminate H).
  destruct (A A0 _ _ Hk) as (c & Hc & Kc & Cc).
  exists c. split; [apply in_rev in Hc; exact Hc|]. split; [|exact Cc].
  apply Own in Hk. unfold key_of in Hk, Kc. rewrite <- Kc in Hk.
  inversion Hk. split; assumption.
Qed.

End OrderFacts.

(** X5.  Two orders of the same candidates give every key survivors of equal
    confidence, the largest among the candidates of the key, and of the
    same path and method; only the detector string and the other fields
    can differ. *)
Lemma fused_confidence_order_independent :
  forall l1 l2 : list Endpoint,
    Permutation l1 l2 ->
    forall s1 s2,
      In s1 (AnalysisAgent._deduplicate_endpoints l1) ->
      In s2 (AnalysisAgent._deduplicate_endpoints l2) ->
      Fusion.same_key s1 s2 ->
      (confidence s1 == confidence s2)%Q.
Proof.
  assert (Half : forall l1 l2 : list Endpoint,
            Permutation l1 l2 ->
            forall s1 s2,
              In s1 (AnalysisAgent._deduplicate_endpoints l1) ->
              In s2 (AnalysisAgent._deduplicate_endpoints l2) ->
              Fusion.same_key s1 s2 ->
              (confidence s1 <= confidence s2)%Q).
  { intros l1 l2 P s1 s2 H1 H2 [Kp Km].
    destruct (OrderFacts.survivor_attained l1 s1 H1) as (c & Hc & [Cp Cm] & Cc).
    rewrite <- Cc.
    destruct (ConfidenceFacts.inv_final l2) as [Keys Own Conf].
    destruct (Conf c (Permutation_in _ P Hc)) as (s & Gs & Ls).
    unfold AnalysisAgent._deduplicate_endpoints in H2.
    apply DictFacts.dict_values_In in H2. destruct H2 as (k & Hk).
    apply (DictFacts.dict_In_get _ _ _ Keys) in Hk.
    pose proof (Own _ _ Hk) as Ek. unfold Fusion.key_of in Ek, Gs.
    rewrite <- Kp, <- Km, Cp, Cm in Ek. subst k.
    rewrite Gs in Hk. inversion Hk; subst s. exact Ls. }
  intros l1 l2 P s1 s2 H1 H2 K. apply Qle_antisym.
  - apply (Half l1 l2 P s1 s2 H1 H2 K).
  - apply (Half l2 l1 (Permutation_sym P) s2 s1 H2 H1).
    destruct K; split; auto.
Qed.

(** ** The chunker at its default sizes *)

(** With windows of 3000 characters and an overlap of 1000 the loop ends
    on every source, so the LLM detector always gets its chunks. *)
Lemma default_chunking_returns :
  forall js : string,
    exists chunks,
      Chunk.simple_chunk_code (S (String.length js)) js 3000 1000 = Some chunks.
Proof.
  intros js.
  destruct (ChunkFacts.windows_from js 3000 1000 ltac:(lia) ltac:(lia)
              (S (String.length js)) 0%Z) as (ws & Hw & _).
  - lia.
  - unfold Py.len. lia.
  - exists (map (Chunk.emit js) ws). unfold Chunk.simple_chunk_code.
    rewrite Hw. reflexivity.
Qed.

(** * Further properties of the code *)

(** ** Fusion: the keys of the result *)

Module KeyFacts.
Import AnalysisAgent DictFacts Fusion KeyOrder.

Lemma key_in_iff ks k : key_in ks k = true <-> In k ks.
Proof.
  unfold key_in. rewrite existsb_exists. split.
  - intros (x & Hx & E). apply key_eqb_eq in E. subst; exact Hx.
  - intros H. exists k. split; [exact H | apply key_eqb_refl].
Qed.

Lemma dict_get_none_iff k d : dict_get k d = None <-> ~ In k (map fst d).
Proof.
  induction d as [|[k0 v0] d IH]; simpl.
  - split; [intros _ [] | reflexivity].
  - destruct (key_eqb k k0) eqn:E.
    + apply key_eqb_eq in E. subst k0. split; [discriminate | intros N; exfalso; auto].
    + apply key_eqb_neq in E. rewrite IH. split.
      * intros N [H|H]; [congruence | auto].
      * intros N H. apply N. right; exact H.
Qed.

(** Writing at a key keeps the keys when the key is there and appends it
    when it is not. *)
Lemma dict_set_fst k v d :
  map fst (dict_set k v d)
  = if key_in (map fst d) k then map fst d else map fst d ++ [k].
Proof.
  induction d as [|[k0 v0] d IH]; simpl; [reflexivity|].
  unfold key_in in *. simpl.
  destruct (key_eqb k k0) eqn:E; simpl; [reflexivity|].
  rewrite IH. destruct (existsb (key_eqb k) (map fst d)); reflexivity.
Qed.

Lemma dict_set_absent k v d :
  dict_get k d = None -> dict_set k v d = d ++ [(k, v)].
Proof.
  induction d as [|[k0 v0] d IH]; simpl; [reflexivity|].
  destruct (key_eqb k k0); [discriminate|].
  intros H. rewrite IH by exact H. reflexivity.
Qed.

Lemma dedup_step_fst d e :
  map fst (dedup_step d e)
  = if key_in (map fst d) (key_of e) then map fst d else map fst d ++ [key_of e].
Proof.
  unfold dedup_step, key_of.
  destruct (dict_get (path e, method e) d) as [existing|] eqn:G.
  - assert (K : key_in (map fst d) (path e, method e) = true).
    { destruct (key_in (map fst d) (path e, method e)) eqn:K; [reflexivity|].
      assert (N : dict_get (path e, method e) d = None).
      { apply dict_get_none_iff. intros I. apply key_in_iff in I. congruence. }
      congruence. }
    destruct (negb _); [rewrite dict_set_fst; reflexivity|].
    destruct (Py.gt _ _); [rewrite dict_set_fst; reflexivity|].
    rewrite K; reflexivity.
  - apply dict_set_fst.
Qed.

Lemma filter_filter {A} (p q : A -> bool) l :
  filter p (filter q l) = filter (fun x => q x && p x) l.
Proof.
  induction l as [|x l IH]; simpl; [reflexivity|].
  destruct (q x); simpl; [destruct (p x); rewrite IH; reflexivity | exact IH].
Qed.

Lemma fold_keys l : forall d,
  map fst (fold_left dedup_step l d)
  = map fst d
    ++ filter (fun k => negb (key_in (map fst d) k))
              (first_occurrences (map key_of l)).
Proof.
  induction l as [|e l IH]; intros d; simpl.
  - rewrite app_nil_r; reflexivity.
  - rewrite IH, dedup_step_fst, filter_filter.
    destruct (key_in (map fst d) (key_of e)) eqn:K; simpl.
    + f_equal. apply filter_ext. intros k.
      destruct (key_eqb k (key_of e)) eqn:E; simpl; [|reflexivity].
      apply key_eqb_eq in E. subst k. rewrite K. reflexivity.
    + rewrite <- app_assoc. simpl. f_equal. f_equal.
      apply filter_ext. intros k. unfold key_in.
      rewrite existsb_app. simpl.
      destruct (existsb (key_eqb k) (map fst d)); simpl.
      * rewrite andb_false_r; reflexivity.
      * rewrite orb_false_r, andb_true_r. reflexivity.
Qed.

(** The values of the final dict sit at their own keys, in order. *)
Lemma values_keys l :
  map key_of (_deduplicate_endpoints l) = map fst (fold_left dedup_step l []).
Proof.
  unfold _deduplicate_endpoints, dict_values. rewrite map_map.
  destruct (ConfidenceFacts.inv_final l) as [Keys Own _].
  apply map_ext_in. intros [k v] Hin. simpl.
  apply Own. apply dict_In_get; assumption.
Qed.

(** Candidates of pairwise distinct keys are appended one after the
    other. *)
Lemma fold_distinct l : forall d,
  NoDup (map key_of l) ->
  (forall e, In e l -> dict_get (key_of e) d = None) ->
  fold_left dedup_step l d = d ++ map (fun e => (key_of e, e)) l.
Proof.
  induction l as [|e l IH]; intros d ND Hd; simpl.
  - rewrite app_nil_r; reflexivity.
  - inversion ND as [|? ? Hnin ND']; subst.
    assert (S1 : dedup_step d e = d ++ [(key_of e, e)]).
    { unfold dedup_step. fold (key_of e).
      rewrite (Hd e (or_introl eq_refl)). apply dict_set_absent.
      apply Hd. left; reflexivity. }
    rewrite S1, IH; [rewrite <- app_assoc; reflexivity | exact ND' |].
    intros e' He'. apply dict_get_none_iff. rewrite map_app. simpl.
    intros Hin. apply in_app_or in Hin. destruct Hin as [Hin|[Hin|[]]].
    + specialize (Hd e' (or_intror He')). apply dict_get_none_iff in Hd. auto.
    + apply Hnin. rewrite Hin. apply in_map; exact He'.
Qed.

Lemma keys_distinct l : NoDup (map key_of (_deduplicate_endpoints l)).
Proof.
  rewrite values_keys.
  destruct (ConfidenceFacts.inv_final l) as [Keys _ _]. exact Keys.
Qed.

End KeyFacts.

(** X1.  No two endpoints of the fused list share path and method. *)
Theorem fused_keys_distinct :
  forall l : list Endpoint,
    NoDup (map Fusion.key_of (AnalysisAgent._deduplicate_endpoints l)).
Proof.
  intros l. apply KeyFacts.keys_distinct.
Qed.

(** X2.  The fused list holds one endpoint per key of the candidates, in
    the order in which the keys first occur. *)
Theorem fused_keys_in_first_occurrence_order :
  forall l : list Endpoint,
    map Fusion.key_of (AnalysisAgent._deduplicate_endpoints l)
    = KeyOrder.first_occurrences (map Fusion.key_of l).
Proof.
  intros l. rewrite KeyFacts.values_keys, KeyFacts.fold_keys. simpl.
  induction (KeyOrder.first_occurrences (map Fusion.key_of l)) as [|k ks IH];
    simpl; [reflexivity | rewrite IH; reflexivity].
Qed.

(** X3.  Candidates of pairwise distinct keys pass through fusion
    unchanged, so fusing a fused list changes nothing. *)
Theorem fusion_idempotent :
  (forall l : list Endpoint,
     NoDup (map Fusion.key_of l) -> AnalysisAgent._deduplicate_endpoints l = l)
  /\ (forall l : list Endpoint,
        AnalysisAgent._deduplicate_endpoints (AnalysisAgent._deduplicate_endpoints l)
        = AnalysisAgent._deduplicate_endpoints l).
Proof.
  assert (Fixed : forall l : list Endpoint,
            NoDup (map Fusion.key_of l) -> AnalysisAgent._deduplicate_endpoints l = l).
  { intros l ND. unfold AnalysisAgent._deduplicate_endpoints.
    rewrite (KeyFacts.fold_distinct l [] ND) by reflexivity.
    simpl. unfold AnalysisAgent.dict_values. rewrite map_map. simpl. apply map_id. }
  split; [exact Fixed|].
  intros l. apply Fixed. apply KeyFacts.keys_distinct.
Qed.

(** The hypothesis of X3 at a regex finding and an LLM finding of the
    same path with different methods: both stay. *)
Lemma fusion_idempotent_witness :
  AnalysisAgent._deduplicate_endpoints
    [Samples.by_regex;
     mkEndpoint "/api/users" "POST" AuthInfo_default (8 # 10) "llm" None None]
  = [Samples.by_regex;
     mkEndpoint "/api/users" "POST" AuthInfo_default (8 # 10) "llm" None None].
Proof.
  apply (proj1 fusion_idempotent).
  repeat constructor; simpl; intuition discriminate.
Defined.

(** X4.  The confidence of a fused endpoint is the largest confidence
    among the candidates of its key: it is the confidence of one of them
    and none of them exceeds it. *)
Theorem fused_confidence_is_maximum :
  forall (l : list Endpoint) (s : Endpoint),
    In s (AnalysisAgent._deduplicate_endpoints l) ->
    (exists c, In c l /\ Fusion.same_key s c /\ confidence c = confidence s)
    /\ (forall c, In c l -> Fusion.same_key s c -> (confidence c <= confidence s)%Q).
Proof.
  intros l s Hs. split; [apply OrderFacts.survivor_attained; exact Hs|].
  intros c Hc [Hp Hm].
  destruct (ConfidenceFacts.inv_final l) as [Keys Own Conf].
  destruct (Conf c Hc) as (s' & Gs & Ls).
  unfold AnalysisAgent._deduplicate_endpoints in Hs.
  apply DictFacts.dict_values_In in Hs. destruct Hs as (k & Hk).
  apply (DictFacts.dict_In_get _ _ _ Keys) in Hk.
  pose proof (Own _ _ Hk) as Ek. unfold Fusion.key_of in Ek, Gs.
  rewrite Hp, Hm in Ek. subst k. rewrite Gs in Hk. inversion Hk; subst s'. exact Ls.
Qed.

(** The hypothesis of X4 at the survivor of three candidates of one
    key. *)
Lemma fused_confidence_is_maximum_witness :
  In Samples.by_llm_high
     (AnalysisAgent._deduplicate_endpoints
        [Samples.by_regex; Samples.by_llm_low; Samples.by_llm_high])
  /\ (exists c,
        In c [Samples.by_regex; Samples.by_llm_low; Samples.by_llm_high]
        /\ Fusion.same_key Samples.by_llm_high c
        /\ confidence c = confidence Samples.by_llm_high).
Proof.
  split.
  - vm_compute. left. reflexivity.
  - apply (fused_confidence_is_maximum
             [Samples.by_regex; Samples.by_llm_low; Samples.by_llm_high]
             Samples.by_llm_high).
    vm_compute. left. reflexivity.
Defined.

(** The hypotheses of the order lemma at two orders of three candidates
    of one key. *)
Lemma fused_confidence_order_independent_witness :
  (confidence Samples.by_llm_high
   == confidence (AnalysisAgent.combine Samples.by_regex Samples.by_llm_high))%Q.
Proof.
  apply (fused_confidence_order_independent
           [Samples.by_regex; Samples.by_llm_low; Samples.by_llm_high]
           [Samples.by_regex; Samples.by_llm_high; Samples.by_llm_low]).
  - apply perm_skip. apply perm_swap.
  - vm_compute. left. reflexivity.
  - vm_compute. left. reflexivity.
  - split; reflexivity.
Defined.

(** ** Statistics: totals, order and the fused list *)

Module StatsMore.
Import AnalysisAgent Tally Recognised.

Lemma tally_permutation p l1 l2 :
  Permutation l1 l2 -> tally p l1 = tally p l2.
Proof.
  intros P. unfold tally. apply Permutation_length.
  induction P; simpl.
  - constructor.
  - destruct (p x); [apply perm_skip|]; assumption.
  - destruct (p x), (p y); try apply perm_swap; try apply perm_skip;
      apply Permutation_refl.
  - eapply Permutation_trans; eassumption.
Qed.

Lemma stats_eq (a b : Stats) :
  total_endpoints a = total_endpoints b ->
  regex_findings a = regex_findings b ->
  llm_findings a = llm_findings b ->
  combined_findings a = combined_findings b ->
  endpoints_with_auth a = endpoints_with_auth b ->
  a = b.
Proof. destruct a, b; simpl; intros; subst; reflexivity. Qed.

(** The fields of the summary, read off the list. *)
Lemma stats_fields eps :
  let st := _generate_stats eps in
  total_endpoints st = List.length eps
  /\ regex_findings st = (tally has_plus eps + tally (detected_by "regex") eps)%nat
  /\ llm_findings st = (tally has_plus eps + tally (detected_by "llm") eps)%nat
  /\ combined_findings st = tally has_plus eps
  /\ endpoints_with_auth st = tally needs_auth eps.
Proof.
  cbn zeta. unfold _generate_stats.
  destruct (StatsFacts.stats_fold eps (mkStats (List.length eps) 0 0 0 0))
    as (Ht & Hr & Hl & Hc & Ha).
  simpl in *. repeat split; assumption.
Qed.

(** The three classes of detector strings exclude one another. *)
Lemma classes_fit eps :
  (tally has_plus eps + tally (detected_by "regex") eps
   + tally (detected_by "llm") eps <= List.length eps)%nat
  /\ (forallb recognised eps = true ->
      (tally has_plus eps + tally (detected_by "regex") eps
       + tally (detected_by "llm") eps = List.length eps)%nat).
Proof.
  induction eps as [|ep eps [IHle IHeq]]; [split; reflexivity|].
  rewrite !StatsFacts.tally_cons. simpl List.length. simpl forallb.
  pose proof (StatsFacts.single_name_has_no_plus ep "regex" eq_refl) as Pr.
  pose proof (StatsFacts.single_name_has_no_plus ep "llm" eq_refl) as Pl.
  unfold recognised at 1.
  destruct (has_plus ep) eqn:Hp;
    destruct (detected_by "regex" ep) eqn:Hre;
    destruct (detected_by "llm" ep) eqn:Hll;
    try (specialize (Pr eq_refl); discriminate);
    try (specialize (Pl eq_refl); discriminate);
    try (unfold detected_by in Hre, Hll; apply String.eqb_eq in Hre, Hll;
         rewrite Hre in Hll; discriminate);
    simpl; (split; [lia | intros H; try discriminate; specialize (IHeq H); lia]).
Qed.

End StatsMore.

(** X6.  The summary counts every endpoint once in the total and the
    endpoints that require authentication; a combined finding is part of
    both detector counts, and the two detector counts add up to the total
    plus the combined count when every detector string is regex, llm or a
    combination, and to less when some endpoint carries another string,
    which is then counted nowhere but in the total. *)
Theorem stats_totals :
  forall eps : list Endpoint,
    let st := AnalysisAgent._generate_stats eps in
    AnalysisAgent.total_endpoints st = List.length eps
    /\ AnalysisAgent.endpoints_with_auth st = Tally.tally Tally.needs_auth eps
    /\ (AnalysisAgent.combined_findings st <= AnalysisAgent.regex_findings st)%nat
    /\ (AnalysisAgent.combined_findings st <= AnalysisAgent.llm_findings st)%nat
    /\ (AnalysisAgent.regex_findings st + AnalysisAgent.llm_findings st
        <= AnalysisAgent.total_endpoints st + AnalysisAgent.combined_findings st)%nat
    /\ (forallb Recognised.recognised eps = true <->
        (AnalysisAgent.regex_findings st + AnalysisAgent.llm_findings st
         = AnalysisAgent.total_endpoints st + AnalysisAgent.combined_findings st)%nat).
Proof.
  intros eps. cbn zeta.
  destruct (StatsMore.stats_fields eps) as (Ht & Hr & Hl & Hc & Ha).
  destruct (StatsMore.classes_fit eps) as [Hle Heq].
  rewrite Ht, Hr, Hl, Hc, Ha.
  repeat split; try lia.
  - intros H. specialize (Heq H). lia.
  - intros E.
    assert (Full : (Tally.tally Tally.has_plus eps
                    + Tally.tally (Tally.detected_by "regex") eps
                    + Tally.tally (Tally.detected_by "llm") eps
                    = List.length eps)%nat) by lia.
    clear - Full. induction eps as [|ep eps IH]; [reflexivity|].
    destruct (StatsMore.classes_fit eps) as [Hle _].
    rewrite !StatsFacts.tally_cons in Full. simpl List.length in Full. simpl.
    unfold Recognised.recognised at 1.
    pose proof (StatsFacts.single_name_has_no_plus ep "regex" eq_refl) as Pr.
    pose proof (StatsFacts.single_name_has_no_plus ep "llm" eq_refl) as Pl.
    destruct (Tally.has_plus ep) eqn:Hp;
      destruct (Tally.detected_by "regex" ep) eqn:Hre;
      destruct (Tally.detected_by "llm" ep) eqn:Hll;
      try (specialize (Pr eq_refl); discriminate);
      try (specialize (Pl eq_refl); discriminate);
      try (unfold Tally.detected_by in Hre, Hll; apply String.eqb_eq in Hre, Hll;
           rewrite Hre in Hll; discriminate);
      simpl in *; first [apply IH; lia | exfalso; lia].
Qed.

(** X7.  The summary does not depend on the order of the endpoints. *)
Theorem stats_order_independent :
  forall l1 l2 : list Endpoint,
    Permutation l1 l2 ->
    AnalysisAgent._generate_stats l1 = AnalysisAgent._generate_stats l2.
Proof.
  intros l1 l2 P.
  destruct (StatsMore.stats_fields l1) as (Ht1 & Hr1 & Hl1 & Hc1 & Ha1).
  destruct (StatsMore.stats_fields l2) as (Ht2 & Hr2 & Hl2 & Hc2 & Ha2).
  apply StatsMore.stats_eq.
  - rewrite Ht1, Ht2. apply Permutation_length; exact P.
  - rewrite Hr1, Hr2, !(StatsMore.tally_permutation _ l1 l2 P). reflexivity.
  - rewrite Hl1, Hl2, !(StatsMore.tally_permutation _ l1 l2 P). reflexivity.
  - rewrite Hc1, Hc2, !(StatsMore.tally_permutation _ l1 l2 P). reflexivity.
  - rewrite Ha1, Ha2, !(StatsMore.tally_permutation _ l1 l2 P). reflexivity.
Qed.

(** The hypothesis of X7 at two orders of three candidates. *)
Lemma stats_order_independent_witness :
  AnalysisAgent._generate_stats [Samples.by_regex; Samples.by_llm_low; Samples.by_llm_high]
  = AnalysisAgent._generate_stats [Samples.by_regex; Samples.by_llm_high; Samples.by_llm_low].
Proof.
  apply (stats_order_independent
           [Samples.by_regex; Samples.by_llm_low; Samples.by_llm_high]
           [Samples.by_regex; Samples.by_llm_high; Samples.by_llm_low]).
  apply perm_skip. apply perm_swap.
Defined.

(** X8.  On the fusion of candidates that each name one detector, regex
    or llm, the summary accounts for every endpoint: the detector counts
    add up to the total plus the combined count, and the combined count
    is the number of endpoints whose detector is llm+regex. *)
Theorem stats_of_fused_list :
  forall l : list Endpoint,
    Forall Fusion.single_name l ->
    let st := AnalysisAgent._generate_stats (AnalysisAgent._deduplicate_endpoints l) in
    (AnalysisAgent.regex_findings st + AnalysisAgent.llm_findings st
     = AnalysisAgent.total_endpoints st + AnalysisAgent.combined_findings st)%nat
    /\ AnalysisAgent.combined_findings st
       = Tally.tally (Tally.detected_by "llm+regex")
                     (AnalysisAgent._deduplicate_endpoints l).
Proof.
  intros l Hl. cbn zeta.
  pose proof (FusionFacts.dedup_known l Hl) as K.
  set (out := AnalysisAgent._deduplicate_endpoints l) in *.
  destruct (StatsMore.stats_fields out) as (Ht & Hr & Hl' & Hc & Ha).
  destruct (StatsMore.classes_fit out) as [_ Heq].
  rewrite Ht, Hr, Hl', Hc. split.
  - assert (R : forallb Recognised.recognised out = true).
    { apply forallb_forall. intros e He. rewrite Forall_forall in K.
      destruct (K e He) as [H|[H|H]];
        unfold Recognised.recognised, Tally.has_plus, Tally.detected_by;
        rewrite H; reflexivity. }
    specialize (Heq R). lia.
  - unfold Tally.tally. f_equal. apply filter_ext_in.
    intros e He. rewrite Forall_forall in K.
    destruct (K e He) as [H|[H|H]]; unfold Tally.has_plus, Tally.detected_by;
      rewrite H; reflexivity.
Qed.

(** The hypothesis of X8 at three candidates of one key. *)
Lemma stats_of_fused_list_witness :
  let st := AnalysisAgent._generate_stats
              (AnalysisAgent._deduplicate_endpoints
                 [Samples.by_regex; Samples.by_llm_high; Samples.by_llm_low]) in
  (AnalysisAgent.regex_findings st + AnalysisAgent.llm_findings st
   = AnalysisAgent.total_endpoints st + AnalysisAgent.combined_findings st)%nat
  /\ AnalysisAgent.combined_findings st
     = Tally.tally (Tally.detected_by "llm+regex")
                   (AnalysisAgent._deduplicate_endpoints
                      [Samples.by_regex; Samples.by_llm_high; Samples.by_llm_low]).
Proof.
  apply (stats_of_fused_list [Samples.by_regex; Samples.by_llm_high; Samples.by_llm_low]).
  apply Forall_cons; [left; reflexivity|].
  apply Forall_cons; [right; reflexivity|].
  apply Forall_cons; [right; reflexivity|].
  apply Forall_nil.
Defined.

(** ** Serialisation of an endpoint *)

(** X9.  The serialised endpoint gives back path, method, detector and
    confidence; it has a line number exactly when the endpoint has one, a
    usage context exactly when the context is a non-empty text, and the
    authentication object exactly when authentication is required. *)
Theorem endpoint_dict_fields :
  forall e : Endpoint,
    let d := AnalysisAgent._endpoint_to_dict e in
    Py.lookup "path" d = Some (Py.VStr (path e))
    /\ Py.lookup "method" d = Some (Py.VStr (method e))
    /\ Py.lookup "detector" d = Some (Py.VStr (detector e))
    /\ Py.lookup "confidence" d = Some (Py.VNum (confidence e))
    /\ Py.lookup "line_number" d
       = match line_number e with
         | Some n => Some (Py.VNum (inject_Z n))
         | None => None
         end
    /\ Py.lookup "usage_context" d
       = match context e with
         | Some (String c rest) => Some (Py.VStr (String c rest))
         | _ => None
         end
    /\ Py.lookup "auth" d
       = if required (auth e)
         then Some (Py.VDict
                      [ ("required", Py.VBool true);
                        ("type", AnalysisAgent.opt_str (type_ (auth e)));
                        ("location", AnalysisAgent.opt_str (location (auth e))) ])
         else None.
Proof.
  intros [p m [r t loc] c d ctx ln]. unfold AnalysisAgent._endpoint_to_dict. simpl.
  destruct ln as [n|], ctx as [[|ch rest]|], r; simpl; repeat split; reflexivity.
Qed.

(** ** Normalisation: shape, length and fixed points *)

Module ShapeFacts.
Import Re EndpointProcessor Normal.

Lemma prefix_cons a s1 b s2 :
  String.prefix (String a s1) (String b s2) = Ascii.eqb b a && String.prefix s1 s2.
Proof.
  simpl. destruct (ascii_dec a b) as [E|N].
  - subst b. rewrite Ascii.eqb_refl. reflexivity.
  - destruct (Ascii.eqb b a) eqn:Q; [apply Ascii.eqb_eq in Q; congruence | reflexivity].
Qed.

Lemma prefix_double c rest :
  String.prefix "//" (String c rest) = is_slash c && starts_with_slash rest.
Proof.
  rewrite prefix_cons. unfold is_slash, starts_with_slash.
  destruct rest as [|d r]; [reflexivity|].
  rewrite prefix_cons. destruct r; rewrite andb_true_r; reflexivity.
Qed.

(** Two slashes in a row occur exactly when [no_double] fails. *)
Lemma double_slash s : Py.str_in "//" s = negb (no_double s).
Proof.
  induction s as [|c rest IH]; [reflexivity|].
  change (Py.str_in "//" (String c rest))
    with (String.prefix "//" (String c rest) || Py.str_in "//" rest).
  rewrite prefix_double, IH. simpl.
  destruct (is_slash c && starts_with_slash rest), (no_double rest); reflexivity.
Qed.

Lemma strip_chars_idempotent chars s :
  Py.strip_chars chars (Py.strip_chars chars s) = Py.strip_chars chars s.
Proof.
  apply NormalFacts.strip_chars_fixed; unfold Py.strip_chars.
  - apply NormalFacts.rstrip_head_ok, NormalFacts.lstrip_head_ok.
  - apply NormalFacts.rstrip_last_ok.
Qed.

Lemma head_ok_of_fixed p s : Py.lstrip p s = s -> head_ok p s = true.
Proof.
  intros H. rewrite <- H. apply NormalFacts.lstrip_head_ok.
Qed.

Lemma strip_fixed_ends chars s :
  Py.strip_chars chars s = s ->
  head_ok (fun c => Py.char_in c chars) s = true
  /\ last_ok (fun c => Py.char_in c chars) s = true.
Proof.
  intros H. rewrite <- H. unfold Py.strip_chars. split.
  - apply NormalFacts.rstrip_head_ok, NormalFacts.lstrip_head_ok.
  - apply NormalFacts.rstrip_last_ok.
Qed.

End ShapeFacts.

(** X10.  A normalised path needs no further stripping of quotes and
    holds no two slashes in a row. *)
Theorem normalized_shape :
  forall url : string,
    Py.strip_chars Re.quote_chars (EndpointProcessor.normalize_path url)
    = EndpointProcessor.normalize_path url
    /\ Py.str_in "//" (EndpointProcessor.normalize_path url) = false.
Proof.
  intros url. split.
  - destruct (NormalFacts.normalize_path_ends url) as [Hh Hl].
    apply NormalFacts.strip_chars_fixed; assumption.
  - rewrite ShapeFacts.double_slash, NormalFacts.normalize_path_unfold,
      NormalFacts.collapse_no_double. reflexivity.
Qed.

(** X11.  Normalisation never makes a path longer. *)
Theorem normalize_never_lengthens :
  forall url : string,
    (String.length (EndpointProcessor.normalize_path url) <= String.length url)%nat.
Proof.
  intros url. rewrite NormalFacts.normalize_path_unfold.
  pose proof (TemplateFacts.collapse_length
                (Py.strip_chars Re.quote_chars
                   (Re.sub false EndpointProcessor.template EndpointProcessor.braces url))).
  unfold Py.strip_chars in *.
  pose proof (TemplateFacts.rstrip_length (fun c => Py.char_in c Re.quote_chars)
                (Py.lstrip (fun c => Py.char_in c Re.quote_chars)
                   (Re.sub false EndpointProcessor.template EndpointProcessor.braces url))).
  pose proof (NormalFacts.lstrip_length (fun c => Py.char_in c Re.quote_chars)
                (Re.sub false EndpointProcessor.template EndpointProcessor.braces url)).
  destruct (TemplateFacts.sub_template_length (S (String.length url)) url 0%Z) as [Hle _];
    [lia|].
  unfold Re.sub in *. lia.
Qed.

(** X12.  A path without a dollar sign, without a quote at either end and
    without two slashes in a row is left as it is. *)
Theorem normalize_fixed_point :
  forall url : string,
    Py.contains "$" url = false ->
    Py.strip_chars Re.quote_chars url = url ->
    Py.str_in "//" url = false ->
    EndpointProcessor.normalize_path url = url.
Proof.
  intros url Hd Hq Hs.
  rewrite NormalFacts.normalize_path_unfold. unfold Re.sub.
  rewrite (ReFacts.sub_without_match _ _ _ _ 0%Z)
    by (apply TemplateFacts.no_dollar_no_template; exact Hd).
  rewrite Hq. apply NormalFacts.collapse_fixed.
  rewrite ShapeFacts.double_slash in Hs. apply negb_false_iff in Hs. exact Hs.
Qed.

(** The hypotheses of X12 at a path with a brace parameter. *)
Lemma normalize_fixed_point_witness :
  EndpointProcessor.normalize_path "/api/users/{id}/posts" = "/api/users/{id}/posts".
Proof.
  apply (normalize_fixed_point "/api/users/{id}/posts"); vm_compute; reflexivity.
Defined.

(** ** The endpoint test *)

Module EndpointFacts.
Import Re EndpointProcessor Normal Shape.
Local Open Scope string_scope.

(** A pattern that must start with an atom fails at once on a text whose
    first character the atom refuses. *)
Lemma run_head (R : Type) icase r : forall a s caps (k : string -> captures -> option R),
  head_atom r = Some a ->
  match s with
  | String c _ => atom_ok icase a c = false
  | EmptyString => True
  end ->
  run icase r s caps k = None.
Proof.
  induction r; intros a0 s caps k H Hs; simpl in H; try discriminate.
  - inversion H; subst. simpl. destruct s as [|c rest]; [reflexivity|].
    rewrite Hs. reflexivity.
  - simpl. eapply IHr1; eassumption.
  - simpl. eapply IHr; eassumption.
Qed.

(** Only the slash matches the literal slash, also when case is
    ignored. *)
Lemma slash_only icase c :
  atom_ok icase (Lit "/") c = Ascii.eqb c "/".
Proof.
  destruct icase; [|reflexivity].
  destruct c as [[] [] [] [] [] [] [] []]; vm_compute; reflexivity.
Qed.

Lemma no_slash_no_match icase r s : forall pos,
  starts_at_slash r = true ->
  Py.contains "/" s = false ->
  search_from icase r pos s = None.
Proof.
  unfold starts_at_slash.
  destruct (head_atom r) as [[c0|]|] eqn:H; try discriminate.
  intros pos E Hs. apply Ascii.eqb_eq in E. subst c0. revert pos.
  induction s as [|c rest IH]; intros pos.
  - simpl. unfold match_at. rewrite (run_head _ icase r (Lit "/")); auto.
  - simpl in Hs. apply orb_false_iff in Hs. destruct Hs as [Hc Hr].
    change (search_from icase r pos (String c rest))
      with (match match_at icase r (String c rest) with
            | Some (rest0, caps) =>
                Some (mkMatch pos (pos + Py.len (String c rest) - Py.len rest0) caps)
            | None => search_from icase r (pos + 1) rest
            end).
    unfold match_at at 1. rewrite (run_head _ icase r (Lit "/")); auto.
    rewrite slash_only. exact Hc.
Qed.

(** A match at the head of a suffix is found by the search. *)
Lemma found_in_suffix icase r s a :
  match_at icase r s <> None -> found icase r (a ++ s) = true.
Proof.
  intros M. unfold found, search. generalize 0%Z.
  induction a as [|c a IH]; intros pos; simpl.
  - destruct s as [|c s']; simpl; destruct (match_at icase r _) as [[rest caps]|];
      try reflexivity; contradiction.
  - destruct (match_at icase r (String c (a ++ s))) as [[rest caps]|]; [reflexivity|].
    apply IH.
Qed.

Lemma lstrip_before p a t :
  head_ok p t = true -> t <> EmptyString ->
  Py.lstrip p (a ++ t) = Py.lstrip p a ++ t.
Proof.
  intros Hh Hn. induction a as [|c a IH]; simpl.
  - apply NormalFacts.lstrip_fixed; exact Hh.
  - destruct (p c); [exact IH | reflexivity].
Qed.

Lemma rstrip_after p u b :
  last_ok p u = true -> u <> EmptyString ->
  Py.rstrip p (u ++ b) = u ++ Py.rstrip p b.
Proof.
  induction u as [|c u IH]; intros Hl Hn; [contradiction|].
  destruct u as [|d u'].
  - simpl in *. apply negb_true_iff in Hl.
    destruct (Py.rstrip p b); [rewrite Hl|]; reflexivity.
  - specialize (IH Hl ltac:(discriminate)). cbn [append] in *.
    change (Py.rstrip p (String c (String d (u' ++ b))))
      with (match Py.rstrip p (String d (u' ++ b)) with
            | EmptyString => if p c then EmptyString else String c EmptyString
            | kept => String c kept
            end).
    rewrite IH. reflexivity.
Qed.

Lemma append_assoc (a b c : string) : (a ++ b) ++ c = a ++ (b ++ c).
Proof. induction a as [|x a IH]; simpl; [reflexivity | rewrite IH; reflexivity]. Qed.

End EndpointFacts.

(** X14.  The endpoint test looks through surrounding quotes: stripping
    them first changes nothing. *)
Theorem is_endpoint_ignores_quotes :
  forall url : string,
    EndpointProcessor.is_endpoint (Py.strip_chars Re.quote_chars url)
    = EndpointProcessor.is_endpoint url.
Proof.
  intros url. unfold EndpointProcessor.is_endpoint.
  rewrite ShapeFacts.strip_chars_idempotent. reflexivity.
Qed.

(** X15.  A text without a slash is never taken for an endpoint. *)
Theorem no_slash_never_endpoint :
  forall url : string,
    Py.contains "/" url = false -> EndpointProcessor.is_endpoint url = false.
Proof.
  intros url H. unfold EndpointProcessor.is_endpoint.
  assert (Hs : Py.contains "/" (Py.strip_chars Re.quote_chars url) = false)
    by (apply TemplateFacts.rstrip_contains, TemplateFacts.lstrip_contains; exact H).
  assert (All : forallb Shape.starts_at_slash EndpointProcessor.api_patterns = true)
    by (vm_compute; reflexivity).
  rewrite forallb_forall in All.
  destruct (existsb _ EndpointProcessor.api_patterns) eqn:E; [|reflexivity].
  apply existsb_exists in E. destruct E as (r & Hr & Hf).
  unfold Re.found, Re.search in Hf.
  rewrite (EndpointFacts.no_slash_no_match true r _ 0%Z (All r Hr) Hs) in Hf.
  discriminate.
Qed.

(** The hypothesis of X15 at a bare word. *)
Lemma no_slash_never_endpoint_witness :
  EndpointProcessor.is_endpoint "api.users.list" = false.
Proof.
  apply (no_slash_never_endpoint "api.users.list"). vm_compute. reflexivity.
Defined.

(** X16.  Every text that holds [/api/] is taken for an endpoint,
    whatever surrounds it. *)
Theorem api_segment_always_endpoint :
  forall before after : string,
    EndpointProcessor.is_endpoint (before ++ "/api/" ++ after) = true.
Proof.
  intros before after. unfold EndpointProcessor.is_endpoint, Py.strip_chars.
  set (q := fun c => Py.char_in c Re.quote_chars).
  rewrite (EndpointFacts.lstrip_before q before ("/api/" ++ after))
    by (try reflexivity; discriminate).
  rewrite <- (EndpointFacts.append_assoc (Py.lstrip q before) "/api/" after).
  assert (Hl : forall u, Normal.last_ok q (u ++ "/api/")%string = true).
  { induction u as [|c u IH]; [reflexivity|]. cbn [append].
    destruct (u ++ "/api/")%string eqn:E; [destruct u; discriminate | exact IH]. }
  assert (Hn : (Py.lstrip q before ++ "/api/")%string <> EmptyString).
  { destruct (Py.lstrip q before); discriminate. }
  specialize (Hl (Py.lstrip q before)).
  rewrite (EndpointFacts.rstrip_after q _ after Hl Hn).
  rewrite EndpointFacts.append_assoc.
  assert (F : Re.found true (Re.lit "/api/")
                (Py.lstrip q before ++ "/api/" ++ Py.rstrip q after) = true).
  { apply EndpointFacts.found_in_suffix. unfold Re.match_at. simpl. discriminate. }
  unfold EndpointProcessor.api_patterns.
  change (existsb ?f (?x :: ?l)) with (f x || existsb f l).
  cbv beta. rewrite F. reflexivity.
Qed.

(** ** The endpoint test of the test suite *)

(** X17.  The improved endpoint test of the test suite refuses every
    text that ends like a static asset and accepts every other text the
    endpoint test of the code accepts. *)
Theorem improved_test_extends_original :
  forall url : string,
    (Asset.looks_like_asset url = true ->
     TestEndpointProcessor.improved_is_endpoint url = false)
    /\ (Asset.looks_like_asset url = false ->
        EndpointProcessor.is_endpoint url = true ->
        TestEndpointProcessor.improved_is_endpoint url = true).
Proof.
  intros url. unfold Asset.looks_like_asset, TestEndpointProcessor.improved_is_endpoint,
    EndpointProcessor.is_endpoint. cbv zeta.
  split.
  - intros A. rewrite A. reflexivity.
  - intros A E. rewrite A. unfold TestEndpointProcessor.api_patterns.
    rewrite existsb_app. apply orb_true_iff. left.
    apply existsb_exists in E. destruct E as (r & Hr & Hf).
    apply existsb_exists. exists (TestEndpointProcessor.Anywhere r).
    split; [apply in_map; exact Hr | exact Hf].
Qed.

(** The hypotheses of X17 at a path with an asset suffix under [/api/]
    and at a plain API path. *)
Lemma improved_test_extends_original_witness :
  TestEndpointProcessor.improved_is_endpoint "/api/logo.png" = false
  /\ TestEndpointProcessor.improved_is_endpoint "/api/users" = true.
Proof.
  split.
  - apply (proj1 (improved_test_extends_original "/api/logo.png")).
    vm_compute. reflexivity.
  - apply (proj2 (improved_test_extends_original "/api/users")).
    + vm_compute. reflexivity.
    + vm_compute. reflexivity.
Defined.


(** ** The regex detector: what every finding satisfies *)

Module DetectorFacts.
Import Re RegexAnalyzer Findings.
Local Open Scope string_scope.

Lemma upper_lower c : Py.upper (Py.lower c) = Py.upper c.
Proof. destruct c as [[] [] [] [] [] [] [] []]; vm_compute; reflexivity. Qed.

Lemma same_lower_same_upper t w :
  Py.str_map Py.lower t = Py.str_map Py.lower w ->
  Py.str_map Py.upper t = Py.str_map Py.upper w.
Proof.
  revert w. induction t as [|c t IH]; intros [|d w] H; simpl in *; try discriminate;
    [reflexivity|].
  inversion H as [[Hc Ht]].
  rewrite (IH w Ht), <- (upper_lower c), <- (upper_lower d), Hc. reflexivity.
Qed.

(** A literal word, case ignored, consumes a text that lowers to the same
    letters as the word. *)
Lemma lit_match (R : Type) w : forall s caps (k : string -> captures -> option R) x,
  run true (lit w) s caps k = Some x ->
  exists t rest,
    s = t ++ rest
    /\ Py.str_map Py.lower t = Py.str_map Py.lower w
    /\ k rest caps = Some x.
Proof.
  induction w as [|d w IH]; intros s caps k x H.
  - exists EmptyString, s. simpl in *. auto.
  - destruct w as [|d' w'].
    + simpl in H. destruct s as [|c rest]; [discriminate|].
      destruct (Ascii.eqb (Py.lower c) (Py.lower d)) eqn:E; [|discriminate].
      apply Ascii.eqb_eq in E.
      exists (String c EmptyString), rest. simpl. rewrite E. auto.
    + change (lit (String d (String d' w')))
        with (Cat (One (Lit d)) (lit (String d' w'))) in H.
      simpl run in H. destruct s as [|c s1]; [discriminate|].
      simpl atom_ok in H.
      destruct (Ascii.eqb (Py.lower c) (Py.lower d)) eqn:E; [|discriminate].
      apply Ascii.eqb_eq in E.
      destruct (IH _ _ _ _ H) as (t & rest & Hs & Hl & Hk).
      exists (String c t), rest. simpl. rewrite E, Hl, Hs. auto.
Qed.

Lemma verbs_match (R : Type) s caps (k : string -> captures -> option R) x :
  run true verbs s caps k = Some x ->
  exists w t rest,
    In w verb_words
    /\ s = t ++ rest
    /\ Py.str_map Py.lower t = Py.str_map Py.lower w
    /\ k rest caps = Some x.
Proof.
  unfold verbs.
  change (alt [lit "get"; lit "post"; lit "put"; lit "delete"; lit "patch"])
    with (Alt (lit "get") (Alt (lit "post") (Alt (lit "put")
            (Alt (lit "delete") (lit "patch"))))).
  intros H.
  assert (Try : forall w,
            In w verb_words ->
            run true (lit w) s caps k = Some x ->
            exists w t rest,
              In w verb_words /\ s = t ++ rest
              /\ Py.str_map Py.lower t = Py.str_map Py.lower w
              /\ k rest caps = Some x).
  { intros w Hw Hr. destruct (lit_match R w _ _ _ _ Hr) as (t & rest & H1 & H2 & H3).
    exists w, t, rest. auto. }
  cbn [run] in H.
  destruct (run true (lit "get") s caps k) eqn:E1;
    [inversion H; subst; apply (Try "get"); [simpl; auto|exact E1]|].
  destruct (run true (lit "post") s caps k) eqn:E2;
    [inversion H; subst; apply (Try "post"); [simpl; auto|exact E2]|].
  destruct (run true (lit "put") s caps k) eqn:E3;
    [inversion H; subst; apply (Try "put"); [simpl; auto|exact E3]|].
  destruct (run true (lit "delete") s caps k) eqn:E4;
    [inversion H; subst; apply (Try "delete"); [simpl; auto 6|exact E4]|].
  apply (Try "patch"); [simpl; auto 6 | exact H].
Qed.

Lemma app_length_string t rest :
  String.length (t ++ rest) = (String.length t + String.length rest)%nat.
Proof. induction t as [|c t IH]; simpl; [reflexivity | rewrite IH; reflexivity]. Qed.

Lemma consumed_app t rest : consumed (t ++ rest) rest = t.
Proof.
  unfold consumed. rewrite app_length_string.
  replace (String.length t + String.length rest - String.length rest)%nat
    with (String.length t) by lia.
  induction t as [|c t IH]; simpl.
  - destruct rest; reflexivity.
  - rewrite IH. reflexivity.
Qed.

(** What the verb search captures lowers to one of the five verbs. *)
Lemma verb_search context : forall pos m,
  search_from true (Grp 1 verbs) pos context = Some m ->
  exists w t,
    In w verb_words
    /\ group 1 (m_caps m) = Some t
    /\ Py.str_map Py.lower t = Py.str_map Py.lower w.
Proof.
  assert (At : forall s rest caps,
            match_at true (Grp 1 verbs) s = Some (rest, caps) ->
            exists w t,
              In w verb_words /\ group 1 caps = Some t
              /\ Py.str_map Py.lower t = Py.str_map Py.lower w).
  { intros s rest caps H. unfold match_at in H. cbn [run] in H.
    apply verbs_match in H. destruct H as (w & t & rest' & Hw & Hs & Hl & Hk).
    inversion Hk; subst. exists w, t. rewrite consumed_app. simpl. auto. }
  induction context as [|c rest IH]; intros pos m H.
  - simpl in H. discriminate H.
  - change (search_from true (Grp 1 verbs) pos (String c rest))
      with (match match_at true (Grp 1 verbs) (String c rest) with
            | Some (rest0, caps) =>
                Some (mkMatch pos (pos + Py.len (String c rest) - Py.len rest0) caps)
            | None => search_from true (Grp 1 verbs) (pos + 1) rest
            end) in H.
    destruct (match_at true (Grp 1 verbs) (String c rest)) as [[r caps]|] eqn:M.
    + inversion H; subst. simpl. eapply At; exact M.
    + eapply IH; exact H.
Qed.

Lemma detect_method_vocabulary context : In (detect_method context) methods.
Proof.
  unfold detect_method, search.
  destruct (search_from true (Grp 1 verbs) 0 context) as [m|] eqn:S;
    [|simpl; auto 10].
  destruct (verb_search _ _ _ S) as (w & t & Hw & Hg & Hl).
  rewrite Hg. unfold Py.str_upper. rewrite (same_lower_same_upper _ _ Hl).
  simpl in Hw. destruct Hw as [<-|[<-|[<-|[<-|[<-|[]]]]]]; vm_compute; auto 10.
Qed.

Lemma detect_auth_outcomes context : In (_detect_auth context) auth_outcomes.
Proof.
  unfold _detect_auth, auth_patterns. cbn [first_auth].
  repeat match goal with
         | |- context [if Re.found ?i ?r ?c then _ else _] =>
             destruct (Re.found i r c)
         end; simpl; auto 10.
Qed.

Lemma count_nonneg c s : (0 <= Py.count c s)%Z.
Proof.
  induction s as [|d s IH]; simpl; [lia|].
  destruct (Ascii.eqb d c); lia.
Qed.

Lemma mem_iff x l : Py.mem x l = true <-> In x l.
Proof.
  induction l as [|y l IH]; simpl; [split; [discriminate | intros []]|].
  rewrite orb_true_iff, String.eqb_eq, IH. split; intros [H|H]; auto.
Qed.

Lemma visit_ok js pattern state m :
  state_ok state -> state_ok (visit js pattern state m).
Proof.
  destruct state as [endpoints seen]. intros (Hw & Hm & Hs & Hn).
  cbn [fst snd] in Hw, Hm, Hs, Hn.
  unfold visit.
  destruct (pick_path (groups pattern m)) as [raw|];
    [|unfold state_ok; cbn [fst snd]; auto].
  destruct (negb (EndpointProcessor.is_endpoint (EndpointProcessor.normalize_path raw))
            || Py.mem (EndpointProcessor.normalize_path raw) seen) eqn:E;
    [unfold state_ok; cbn [fst snd]; auto|].
  apply orb_false_iff in E. destruct E as [Ei Em].
  apply negb_false_iff in Ei.
  assert (Hnew : ~ In (EndpointProcessor.normalize_path raw) seen).
  { intros I. apply mem_iff in I. congruence. }
  unfold state_ok. cbn [fst snd]. split; [|split; [|split]].
  - apply Forall_app. split; [exact Hw|]. constructor; [|constructor].
    unfold well_formed. cbn [detector confidence context path line_number auth].
    repeat split; auto.
    + exists raw. reflexivity.
    + eexists. split; [reflexivity|].
      pose proof (count_nonneg (ascii_of_nat 10) (Py.slice js 0 (m_start m))). lia.
    + apply detect_auth_outcomes.
  - apply Forall_app. split; [exact Hm|]. constructor; [|constructor].
    cbn [method]. apply detect_method_vocabulary.
  - intros e He. apply in_app_or in He. destruct He as [He|[<-|[]]].
    + right. apply Hs; exact He.
    + left. reflexivity.
  - rewrite map_app. cbn [map path].
    assert (Hp : ~ In (EndpointProcessor.normalize_path raw) (map path endpoints)).
    { intros I. apply Hnew. apply in_map_iff in I. destruct I as (e & Ee & He).
      rewrite <- Ee. apply Hs; exact He. }
    clear - Hn Hp. induction endpoints as [|e es IH]; simpl.
    + constructor; [intros [] | constructor].
    + inversion Hn as [|? ? Hnin Hn']; subst. constructor.
      * intros I. apply in_app_or in I. destruct I as [I|[I|[]]]; [auto|].
        apply Hp. left. symmetry. exact I.
      * apply IH; [exact Hn'|]. intros I. apply Hp. right. exact I.
Qed.

Lemma discover_ok js : state_ok (fold_left
         (fun state pattern =>
            fold_left (visit js pattern) (Re.finditer true pattern js) state)
         patterns ([], [])).
Proof.
  assert (Inner : forall pattern ms state,
            state_ok state -> state_ok (fold_left (visit js pattern) ms state)).
  { intros pattern ms. induction ms as [|m ms IH]; intros state H; simpl; [exact H|].
    apply IH. apply visit_ok; exact H. }
  assert (Outer : forall ps state,
            state_ok state ->
            state_ok (fold_left
                        (fun state pattern =>
                           fold_left (visit js pattern) (Re.finditer true pattern js) state)
                        ps state)).
  { induction ps as [|p ps IH]; intros state H; simpl; [exact H|].
    apply IH. apply Inner; exact H. }
  apply Outer. repeat split; simpl; try constructor. intros e [].
Qed.

End DetectorFacts.

(** X19.  Every finding of the regex detector names the detector regex,
    has confidence 0.7 and no context, carries a normalised path that
    passes the endpoint test, a line number of at least 1, and one of the
    six authentication results the detector can give: a type comes with
    its location and only with required authentication. *)
Theorem regex_findings_well_formed :
  forall (js : string) (e : Endpoint),
    In e (RegexAnalyzer.discover_endpoints js) -> Findings.well_formed e.
Proof.
  intros js e He. destruct (DetectorFacts.discover_ok js) as (Hw & _).
  unfold RegexAnalyzer.discover_endpoints in He.
  rewrite Forall_forall in Hw. apply Hw; exact He.
Qed.

(** The hypothesis of X19 at the finding of the login source. *)
Lemma regex_findings_well_formed_witness :
  In (mkEndpoint "/api/v1/login" "POST" (mkAuthInfo true (Some "Bearer") (Some "header"))
                 (7 # 10) "regex" None (Some 3%Z))
     (RegexAnalyzer.discover_endpoints Samples.login)
  /\ Findings.well_formed
       (mkEndpoint "/api/v1/login" "POST" (mkAuthInfo true (Some "Bearer") (Some "header"))
                   (7 # 10) "regex" None (Some 3%Z)).
Proof.
  assert (H : In (mkEndpoint "/api/v1/login" "POST"
                             (mkAuthInfo true (Some "Bearer") (Some "header"))
                             (7 # 10) "regex" None (Some 3%Z))
                 (RegexAnalyzer.discover_endpoints Samples.login))
    by (vm_compute; left; reflexivity).
  split; [exact H|].
  apply (regex_findings_well_formed Samples.login _ H).
Defined.

(** X20.  The method of a finding of the regex detector is GET, POST,
    PUT, DELETE, PATCH or UNKNOWN, whatever the case of the verb in the
    source. *)
Theorem regex_method_vocabulary :
  forall (js : string) (e : Endpoint),
    In e (RegexAnalyzer.discover_endpoints js) -> In (method e) Findings.methods.
Proof.
  intros js e He. destruct (DetectorFacts.discover_ok js) as (_ & Hm & _).
  unfold RegexAnalyzer.discover_endpoints in He.
  rewrite Forall_forall in Hm. apply (Hm e He).
Qed.

(** The hypothesis of X20 at a source that writes the verb in capitals
    inside a word. *)
Lemma regex_method_vocabulary_witness :
  In (mkEndpoint "/api/WIDGETS" "GET" (mkAuthInfo false None None)
                 (7 # 10) "regex" None (Some 1%Z))
     (RegexAnalyzer.discover_endpoints "fetch('/api/WIDGETS')")
  /\ In "GET" Findings.methods.
Proof.
  assert (H : In (mkEndpoint "/api/WIDGETS" "GET" (mkAuthInfo false None None)
                             (7 # 10) "regex" None (Some 1%Z))
                 (RegexAnalyzer.discover_endpoints "fetch('/api/WIDGETS')"))
    by (vm_compute; left; reflexivity).
  split; [exact H|].
  apply (regex_method_vocabulary "fetch('/api/WIDGETS')" _ H).
Defined.

(** X21.  The regex detector reports a normalised path at most once,
    however many patterns and places match it. *)
Theorem regex_paths_distinct :
  forall js : string, NoDup (map path (RegexAnalyzer.discover_endpoints js)).
Proof.
  intros js. destruct (DetectorFacts.discover_ok js) as (_ & _ & _ & Hn). exact Hn.
Qed.

(** ** The context window *)

Module WindowFacts.
Local Open Scope string_scope.

(** A substring that fits splits the text in three. *)
Lemma substring_split s : forall a n,
  (a + n <= String.length s)%nat ->
  exists before after,
    s = before ++ String.substring a n s ++ after
    /\ String.length before = a
    /\ String.length (String.substring a n s) = n.
Proof.
  induction s as [|c s IH]; intros a n H.
  - simpl in H. assert (a = 0%nat) by lia. assert (n = 0%nat) by lia. subst.
    exists EmptyString, EmptyString. auto.
  - destruct a as [|a].
    + destruct n as [|n].
      * exists EmptyString, (String c s). auto.
      * destruct (IH 0%nat n) as (before & after & Hs & Hb & Hl); [simpl in H; lia|].
        destruct before; [|discriminate].
        exists EmptyString, after. simpl in *. rewrite Hl, <- Hs. auto.
    + destruct (IH a n) as (before & after & Hs & Hb & Hl); [simpl in H; lia|].
      exists (String c before), after. simpl. rewrite Hb, Hl, <- Hs. auto.
Qed.

End WindowFacts.

(** X22.  Around a position inside the text, the context window is a
    piece of the text that starts half a window before the position, or
    at the start of the text, and is never longer than the window. *)
Theorem context_window_bounds :
  forall (content : string) (position window : Z),
    (0 <= position <= Py.len content)%Z ->
    (0 <= window)%Z ->
    let context := RegexAnalyzer._get_context content position window in
    (Py.len context <= window)%Z
    /\ exists before after : string,
         content = (before ++ context ++ after)%string
         /\ Py.len before = Z.max 0 (position - window / 2).
Proof.
  intros content position window Hp Hw. cbn zeta.
  unfold RegexAnalyzer._get_context, Py.slice.
  assert (Hh : (0 <= window / 2)%Z) by (apply Z.div_pos; lia).
  assert (Hh2 : (2 * (window / 2) <= window)%Z) by (apply Z.mul_div_le; lia).
  rewrite !ChunkFacts.slice_index_inside by lia.
  set (a := Z.max 0 (position - window / 2)).
  set (b := Z.min (Py.len content) (position + window / 2)).
  destruct (WindowFacts.substring_split content (Z.to_nat a) (Z.to_nat (b - a)))
    as (before & after & Hs & Hb & Hl).
  - unfold Py.len in *. subst a b. lia.
  - split.
    + unfold Py.len. rewrite Hl. subst a b. lia.
    + exists before, after. split; [exact Hs|].
      unfold Py.len. rewrite Hb. subst a. lia.
Qed.

(** The hypotheses of X22 at the start of a short source. *)
Lemma context_window_bounds_witness :
  (Py.len (RegexAnalyzer._get_context Samples.widgets 0 200) <= 200)%Z
  /\ exists before after : string,
       Samples.widgets
       = (before ++ RegexAnalyzer._get_context Samples.widgets 0 200 ++ after)%string
       /\ Py.len before = Z.max 0 (0 - 200 / 2).
Proof.
  apply (context_window_bounds Samples.widgets 0 200).
  - vm_compute. split; discriminate.
  - lia.
Defined.

(** ** The chunker: when it ends, what its chunks are *)

Module ChunkMore.
Import Chunk Windows.
Local Open Scope Z_scope.

Lemma window_end_budget code max_size start :
  0 <= start -> start < Py.len code -> 1 <= max_size ->
  window_end code max_size start <= start + max_size.
Proof.
  intros H0 H1 H2. unfold window_end.
  destruct (Z.min (start + max_size) (Py.len code) <? Py.len code) eqn:E.
  - pose proof (ChunkFacts.snap_bounds code start
                  (Z.min (start + max_size) (Py.len code)) delimiters) as B.
    lia.
  - lia.
Qed.

Lemma next_start_advances max_size overlap start end_ :
  1 <= progress max_size overlap -> start < end_ ->
  start < next_start max_size overlap start end_ <= end_.
Proof. unfold next_start, progress; lia. Qed.

(** With a positive step the loop ends within as many rounds as
    characters remain; its windows lie in the text within the budget,
    start further and further, and leave no offset out. *)
Lemma windows_full code max_size overlap :
  1 <= max_size -> 1 <= progress max_size overlap ->
  forall fuel start,
    0 <= start -> Py.len code - start <= Z.of_nat fuel ->
    exists ws,
      windows fuel code max_size overlap start = Some ws
      /\ StronglySorted Z.lt (map fst ws)
      /\ Forall (fun w => start <= fst w) ws
      /\ Forall (within code max_size) ws
      /\ covers code start ws
      /\ (start < Py.len code ->
          ws <> [] /\ snd (last ws (0, 0)) = Py.len code).
Proof.
  intros Hm Hp. induction fuel as [|fuel IH]; intros start H0 Hf.
  - exists []. simpl.
    destruct (start <? Py.len code) eqn:E; [apply Z.ltb_lt in E; lia|].
    apply Z.ltb_ge in E.
    repeat split; try constructor; try lia. intros i Hi. lia.
  - simpl. destruct (start <? Py.len code) eqn:E.
    + apply Z.ltb_lt in E.
      pose proof (ChunkFacts.window_end_bounds code max_size start H0 E Hm) as We.
      pose proof (window_end_budget code max_size start H0 E Hm) as Wb.
      pose proof (next_start_advances max_size overlap start
                    (window_end code max_size start) Hp (proj1 We)) as Ns.
      set (e := window_end code max_size start) in *.
      set (n := next_start max_size overlap start e) in *.
      destruct (IH n) as (ws & Hw & Hs & Hge & Hin & Hcov & Hlast); [lia | lia |].
      rewrite Hw. exists ((start, e) :: ws).
      split; [reflexivity|].
      assert (Hend : n < Py.len code \/ e = Py.len code) by lia.
      repeat split.
      * simpl. constructor; [exact Hs|].
        rewrite Forall_map. eapply Forall_impl; [|exact Hge].
        simpl; intros w Hw'. lia.
      * constructor; [simpl; lia|].
        eapply Forall_impl; [|exact Hge]. simpl; intros w Hw'. lia.
      * constructor; [|exact Hin]. unfold within. simpl. lia.
      * intros i Hi. destruct (Z_lt_ge_dec i e) as [L|G].
        -- exists (start, e). split; [left; reflexivity | simpl; lia].
        -- destruct (Hcov i) as (w & Hw1 & Hw2); [lia|].
           exists w. split; [right; exact Hw1 | exact Hw2].
      * discriminate.
      * destruct ws as [|w ws'].
        -- simpl. destruct Hend as [L|Ee]; [|exact Ee].
           destruct (Hlast L) as [N _]. contradiction.
        -- change (last ((start, e) :: w :: ws') (0, 0)) with (last (w :: ws') (0, 0)).
           destruct (Z_lt_ge_dec n (Py.len code)) as [L|G].
           ++ destruct (Hlast L) as [_ Hl]. exact Hl.
           ++ exfalso. destruct fuel as [|fuel']; simpl in Hw.
              ** destruct (n <? Py.len code); discriminate.
              ** destruct (n <? Py.len code) eqn:E'; [apply Z.ltb_lt in E'; lia|].
                 discriminate.
    + apply Z.ltb_ge in E. exists [].
      repeat split; try constructor; try lia. intros i Hi. lia.
Qed.

(** Without a positive step the loop never leaves the text. *)
Lemma windows_stuck code max_size overlap :
  progress max_size overlap <= 0 ->
  forall fuel start,
    start < Py.len code -> windows fuel code max_size overlap start = None.
Proof.
  intros Hp. induction fuel as [|fuel IH]; intros start Hs; simpl.
  - destruct (start <? Py.len code) eqn:E; [reflexivity|].
    apply Z.ltb_ge in E. lia.
  - destruct (start <? Py.len code) eqn:E; [|apply Z.ltb_ge in E; lia].
    rewrite IH; [reflexivity|].
    unfold next_start. unfold progress in Hp. lia.
Qed.

Lemma code_nonempty code : code <> EmptyString -> 0 < Py.len code.
Proof. unfold Py.len. destruct code; [contradiction | simpl; lia]. Qed.

End ChunkMore.



(** X24.  When the step is zero or negative, as with windows of 2 and an
    overlap of 2, the loop never ends on a non-empty source: no number of
    rounds yields a result. *)
Theorem chunker_never_ends_without_step :
  forall (code : string) (max_size overlap : Z) (fuel : nat),
    code <> EmptyString ->
    (Windows.progress max_size overlap <= 0)%Z ->
    Chunk.simple_chunk_code fuel code max_size overlap = None.
Proof.
  intros code max_size overlap fuel Hne Hp.
  unfold Chunk.simple_chunk_code.
  rewrite (ChunkMore.windows_stuck code max_size overlap Hp fuel 0%Z
             (ChunkMore.code_nonempty code Hne)).
  reflexivity.
Qed.

(** The hypotheses of X24 at windows of 2 with an overlap of 2. *)
Lemma chunker_never_ends_without_step_witness :
  Chunk.simple_chunk_code 1000 "0123456789" 2 2 = None.
Proof.
  apply (chunker_never_ends_without_step "0123456789" 2 2 1000).
  - discriminate.
  - vm_compute. discriminate.
Defined.

(** X25.  With a positive step every chunk is a non-empty piece of the
    source of at most [max_size] characters: its window lies inside the
    source and the text of the chunk has the length of the window. *)
Theorem chunks_within_budget :
  forall (code : string) (max_size overlap : Z) (fuel : nat) (ws : list (Z * Z)),
    (1 <= max_size)%Z ->
    (1 <= Windows.progress max_size overlap)%Z ->
    (String.length code <= fuel)%nat ->
    Chunk.windows fuel code max_size overlap 0 = Some ws ->
    Forall (fun w =>
              Windows.within code max_size w
              /\ Py.len (fst (fst (Chunk.emit code w))) = (snd w - fst w)%Z)
           ws.
Proof.
  intros code max_size overlap fuel ws Hm Hp Hf Hw.
  destruct (ChunkMore.windows_full code max_size overlap Hm Hp fuel 0%Z)
    as (ws' & Hw' & _ & _ & Hin & _); [lia | unfold Py.len; lia |].
  rewrite Hw in Hw'. inversion Hw'; subst ws'.
  eapply Forall_impl; [|exact Hin].
  intros [s e] (H0 & H1 & H2 & H3). simpl in *.
  split; [repeat split; assumption|].
  unfold Chunk.emit. simpl. unfold Py.slice.
  rewrite !ChunkFacts.slice_index_inside by lia.
  destruct (WindowFacts.substring_split code (Z.to_nat s) (Z.to_nat (e - s)))
    as (before & after & _ & _ & Hl).
  - unfold Py.len in *. lia.
  - unfold Py.len. rewrite Hl. lia.
Qed.

(** The hypotheses of X25 at the source of the witness of C5. *)
Lemma chunks_within_budget_witness :
  Forall (fun w =>
            Windows.within "0123456789" 4 w
            /\ Py.len (fst (fst (Chunk.emit "0123456789" w))) = (snd w - fst w)%Z)
         [(0, 4); (2, 6); (4, 8); (6, 10); (8, 10)]%Z.
Proof.
  apply (chunks_within_budget "0123456789" 4 2 10).
  - lia.
  - vm_compute. discriminate.
  - vm_compute. lia.
  - vm_compute. reflexivity.
Defined.

(** X26.  With a positive step the chunks leave nothing out: every offset
    of the source lies in the window of some chunk. *)
Theorem chunks_cover_source :
  forall (code : string) (max_size overlap : Z) (fuel : nat) (ws : list (Z * Z)),
    (1 <= max_size)%Z ->
    (1 <= Windows.progress max_size overlap)%Z ->
    (String.length code <= fuel)%nat ->
    Chunk.windows fuel code max_size overlap 0 = Some ws ->
    Windows.covers code 0 ws.
Proof.
  intros code max_size overlap fuel ws Hm Hp Hf Hw.
  destruct (ChunkMore.windows_full code max_size overlap Hm Hp fuel 0%Z)
    as (ws' & Hw' & _ & _ & _ & Hc & _); [lia | unfold Py.len; lia |].
  rewrite Hw in Hw'. inversion Hw'; subst ws'. exact Hc.
Qed.

(** The hypotheses of X26 at the same source. *)
Lemma chunks_cover_source_witness :
  Windows.covers "0123456789" 0 [(0, 4); (2, 6); (4, 8); (6, 10); (8, 10)]%Z.
Proof.
  apply (chunks_cover_source "0123456789" 4 2 10).
  - lia.
  - vm_compute. discriminate.
  - vm_compute. lia.
  - vm_compute. reflexivity.
Defined.

(** ** The LLM detector: composition and errors outside the handler *)

Module AnalyzeFacts.
Import LLMAnalyzer Isolation.

Lemma renders_app format analysis_prompt a b :
  renders format analysis_prompt (a ++ b) ->
  renders format analysis_prompt a /\ renders format analysis_prompt b.
Proof.
  unfold renders. intros H. split; intros c x l Hin; apply (H c x l);
    apply in_or_app; [left | right]; exact Hin.
Qed.

(** A prompt that cannot be rendered ends the loop with the error,
    whatever was found before. *)
Lemma analyze_chunks_raises chat format system_prompt analysis_prompt
      before chunk context start_line after :
  renders format analysis_prompt before ->
  format analysis_prompt chunk context = Raised ->
  forall all_endpoints,
    analyze_chunks chat format system_prompt analysis_prompt
      (before ++ (chunk, context, start_line) :: after) all_endpoints
    = Raised.
Proof.
  intros Hr Hf. induction before as [|[[c x] l] before IH]; intros acc; simpl.
  - rewrite Hf. reflexivity.
  - destruct (Hr c x l (or_introl eq_refl)) as (ap & Hap). rewrite Hap.
    apply IH. intros c' x' l' Hin. apply (Hr c' x' l'). right; exact Hin.
Qed.

Lemma process_record_detector start_line ep f :
  process_record start_line ep = Returned (Some f) -> f_detector f = "llm".
Proof.
  unfold process_record. destruct ep; try discriminate.
  destruct (Py.lookup "path" entries); [|discriminate].
  destruct (truthy _ && truthy _).
  - destruct (as_number _); [|discriminate].
    destruct (get_default "auth" _ _); try discriminate.
    destruct (as_number _); [|discriminate].
    intros H; inversion H; reflexivity.
  - destruct (get_default "auth" _ _); try discriminate.
    destruct (as_number _); [|discriminate].
    intros H; inversion H; reflexivity.
Qed.

Lemma findings_detector start_line records :
  Forall (fun f => f_detector f = "llm") (findings_before_failure start_line records).
Proof.
  induction records as [|ep rest IH]; simpl; [constructor|].
  destruct (process_record start_line ep) as [[f|]|] eqn:E; [|exact IH|constructor].
  constructor; [eapply process_record_detector; exact E | exact IH].
Qed.

Lemma contribution_detector chat format system_prompt analysis_prompt c :
  Forall (fun f => f_detector f = "llm")
         (chunk_contribution chat format system_prompt analysis_prompt c).
Proof.
  destruct c as [[chunk context] start_line]. unfold chunk_contribution, contribution.
  destruct (format analysis_prompt chunk context); [|constructor].
  destruct (chat a system_prompt); [|constructor].
  destruct (items_of a0 "endpoints"); [|constructor].
  apply findings_detector.
Qed.

End AnalyzeFacts.

(** X27.  The analysis of two chunk sequences one after the other is the
    analysis of the first followed by the analysis of the second: the
    chunks can be analysed apart and the results concatenated. *)
Theorem analysis_composes :
  forall (chat : string -> string -> LLMAnalyzer.outcome Py.value)
         (format : string -> string -> string -> LLMAnalyzer.outcome string)
         (system_prompt analysis_prompt : string)
         (first second : list (string * string * Z)),
    Isolation.renders format analysis_prompt (first ++ second) ->
    exists found_first found_second : list LLMAnalyzer.Finding,
      LLMAnalyzer.analyze_chunks chat format system_prompt analysis_prompt first []
      = LLMAnalyzer.Returned found_first
      /\ LLMAnalyzer.analyze_chunks chat format system_prompt analysis_prompt second []
         = LLMAnalyzer.Returned found_second
      /\ LLMAnalyzer.analyze_chunks chat format system_prompt analysis_prompt
           (first ++ second) []
         = LLMAnalyzer.Returned (found_first ++ found_second).
Proof.
  intros chat format system_prompt analysis_prompt first second Hr.
  destruct (AnalyzeFacts.renders_app _ _ _ _ Hr) as [H1 H2].
  exists (flat_map (Isolation.chunk_contribution chat format system_prompt analysis_prompt)
                   first),
         (flat_map (Isolation.chunk_contribution chat format system_prompt analysis_prompt)
                   second).
  rewrite !IsolationFacts.analyze_chunks_appends by assumption.
  rewrite flat_map_app. repeat split; reflexivity.
Qed.

(** The hypothesis of X27 at two pairs of chunks, one of which fails. *)
Lemma analysis_composes_witness :
  exists found_first found_second : list LLMAnalyzer.Finding,
    LLMAnalyzer.analyze_chunks Isolation.sample_chat Isolation.sample_format
      "system" "template" [("/api/x", "", 1%Z); ("bad", "", 4%Z)] []
    = LLMAnalyzer.Returned found_first
    /\ LLMAnalyzer.analyze_chunks Isolation.sample_chat Isolation.sample_format
         "system" "template" [("half", "", 7%Z); ("/api/y", "", 9%Z)] []
       = LLMAnalyzer.Returned found_second
    /\ LLMAnalyzer.analyze_chunks Isolation.sample_chat Isolation.sample_format
         "system" "template"
         ([("/api/x", "", 1%Z); ("bad", "", 4%Z)]
          ++ [("half", "", 7%Z); ("/api/y", "", 9%Z)]) []
       = LLMAnalyzer.Returned (found_first ++ found_second).
Proof.
  apply (analysis_composes Isolation.sample_chat Isolation.sample_format
           "system" "template").
  intros chunk context start_line _. exists chunk. reflexivity.
Defined.

(** X28.  Rendering the prompt is not covered by the handler: when the
    prompt of one chunk cannot be rendered, the whole analysis ends with
    that error and the findings of the chunks before it are lost. *)
Theorem unrenderable_prompt_aborts :
  forall (chat : string -> string -> LLMAnalyzer.outcome Py.value)
         (format : string -> string -> string -> LLMAnalyzer.outcome string)
         (system_prompt analysis_prompt : string)
         (before after : list (string * string * Z))
         (chunk context : string) (start_line : Z),
    Isolation.renders format analysis_prompt before ->
    format analysis_prompt chunk context = LLMAnalyzer.Raised ->
    LLMAnalyzer.analyze_chunks chat format system_prompt analysis_prompt
      (before ++ (chunk, context, start_line) :: after) []
    = LLMAnalyzer.Raised.
Proof.
  intros. apply AnalyzeFacts.analyze_chunks_raises; assumption.
Qed.

(** The hypotheses of X28 at a template that renders the first chunk
    only. *)
Lemma unrenderable_prompt_aborts_witness :
  LLMAnalyzer.analyze_chunks Isolation.sample_chat
    (fun template chunk context =>
       if String.eqb chunk "/api/x" then LLMAnalyzer.Returned chunk
       else LLMAnalyzer.Raised)
    "system" "template"
    ([("/api/x", "", 1%Z)] ++ ("/api/y", "", 4%Z) :: [("/api/z", "", 7%Z)]) []
  = LLMAnalyzer.Raised.
Proof.
  apply (unrenderable_prompt_aborts Isolation.sample_chat
           (fun template chunk context =>
              if String.eqb chunk "/api/x" then LLMAnalyzer.Returned chunk
              else LLMAnalyzer.Raised)
           "system" "template" [("/api/x", "", 1%Z)] [("/api/z", "", 7%Z)]
           "/api/y" "" 4%Z).
  - intros chunk context start_line [H|[]]. inversion H; subst.
    exists "/api/x". reflexivity.
  - reflexivity.
Defined.

(** X29.  Every finding the analysis returns names the detector llm. *)
Theorem llm_findings_name_their_detector :
  forall (chat : string -> string -> LLMAnalyzer.outcome Py.value)
         (format : string -> string -> string -> LLMAnalyzer.outcome string)
         (system_prompt analysis_prompt : string)
         (chunks : list (string * string * Z))
         (found : list LLMAnalyzer.Finding),
    LLMAnalyzer.analyze_chunks chat format system_prompt analysis_prompt chunks []
    = LLMAnalyzer.Returned found ->
    Forall (fun f => LLMAnalyzer.f_detector f = "llm") found.
Proof.
  intros chat format system_prompt analysis_prompt chunks.
  assert (G : forall acc found,
            Forall (fun f => LLMAnalyzer.f_detector f = "llm") acc ->
            LLMAnalyzer.analyze_chunks chat format system_prompt analysis_prompt chunks acc
            = LLMAnalyzer.Returned found ->
            Forall (fun f => LLMAnalyzer.f_detector f = "llm") found).
  { induction chunks as [|[[chunk context] start_line] rest IH]; intros acc found Ha H.
    - simpl in H. inversion H; subst. exact Ha.
    - simpl in H.
      destruct (format analysis_prompt chunk context) as [ap|] eqn:F; [|discriminate].
      eapply IH; [|exact H].
      rewrite IsolationFacts.try_chunk_appends. apply Forall_app. split; [exact Ha|].
      pose proof (AnalyzeFacts.contribution_detector chat format system_prompt
                    analysis_prompt (chunk, context, start_line)) as C.
      unfold Isolation.chunk_contribution in C. rewrite F in C. exact C. }
  intros found H. apply (G [] found); [constructor | exact H].
Qed.

(** The hypothesis of X29 at the four sample chunks. *)
Lemma llm_findings_name_their_detector_witness :
  Forall (fun f => LLMAnalyzer.f_detector f = "llm")
    (flat_map (Isolation.chunk_contribution Isolation.sample_chat Isolation.sample_format
                 "system" "template")
       [("/api/x", "", 1%Z); ("bad", "", 4%Z); ("half", "", 7%Z); ("/api/y", "", 9%Z)]).
Proof.
  apply (llm_findings_name_their_detector Isolation.sample_chat Isolation.sample_format
           "system" "template"
           [("/api/x", "", 1%Z); ("bad", "", 4%Z); ("half", "", 7%Z); ("/api/y", "", 9%Z)]).
  vm_compute. reflexivity.
Defined.

(** ** The chunker by function boundaries *)

Module LineFactsOfChunks.
Import ChunkCode Lines.

Lemma split_nonempty sep s : Py.split sep s <> [].
Proof.
  destruct s as [|c rest]; simpl; [discriminate|].
  destruct (Ascii.eqb c sep); [discriminate|].
  destruct (Py.split sep rest); discriminate.
Qed.

(** Joining what was split gives the text back. *)
Lemma join_split s :
  Py.join Chunk.nl (Py.split (ascii_of_nat 10) s) = s.
Proof.
  unfold Py.join. induction s as [|c rest IH]; [reflexivity|].
  simpl Py.split. destruct (Ascii.eqb c (ascii_of_nat 10)) eqn:E.
  - apply Ascii.eqb_eq in E. subst c.
    pose proof (split_nonempty (ascii_of_nat 10) rest) as N.
    destruct (Py.split (ascii_of_nat 10) rest) as [|p ps]; [contradiction|].
    change (String.concat Chunk.nl (EmptyString :: p :: ps))
      with (EmptyString ++ Chunk.nl ++ String.concat Chunk.nl (p :: ps))%string.
    rewrite IH. reflexivity.
  - pose proof (split_nonempty (ascii_of_nat 10) rest) as N.
    destruct (Py.split (ascii_of_nat 10) rest) as [|p ps]; [contradiction|].
    destruct ps as [|p' ps'].
    + simpl in *. rewrite IH. reflexivity.
    + change (String.concat Chunk.nl (String c p :: p' :: ps'))
        with (String c (p ++ Chunk.nl ++ String.concat Chunk.nl (p' :: ps'))%string).
      change (String.concat Chunk.nl (p :: p' :: ps'))
        with (p ++ Chunk.nl ++ String.concat Chunk.nl (p' :: ps'))%string in IH.
      rewrite IH. reflexivity.
Qed.

Lemma join_app sep (a b : list string) :
  a <> [] -> b <> [] ->
  String.concat sep (a ++ b)
  = (String.concat sep a ++ sep ++ String.concat sep b)%string.
Proof.
  intros Ha Hb. induction a as [|x a IH]; [contradiction|].
  destruct a as [|y a'].
  - simpl. destruct b; [contradiction | reflexivity].
  - change (String.concat sep ((x :: y :: a') ++ b))
      with (x ++ sep ++ String.concat sep ((y :: a') ++ b))%string.
    rewrite IH by discriminate.
    change (String.concat sep (x :: y :: a'))
      with (x ++ sep ++ String.concat sep (y :: a'))%string.
    rewrite !EndpointFacts.append_assoc. reflexivity.
Qed.

(** Joining the joined groups is joining all their lines. *)
Lemma join_groups sep (groups : list (list string)) :
  Forall (fun g => g <> []) groups ->
  String.concat sep (map (String.concat sep) groups)
  = String.concat sep (List.concat groups).
Proof.
  induction groups as [|g gs IH]; intros H; [reflexivity|].
  inversion H as [|? ? Hg Hgs]; subst.
  destruct gs as [|g' gs'].
  - simpl. rewrite app_nil_r. reflexivity.
  - change (String.concat sep (map (String.concat sep) (g :: g' :: gs')))
      with (String.concat sep g ++ sep
            ++ String.concat sep (map (String.concat sep) (g' :: gs')))%string.
    rewrite IH by exact Hgs.
    change (List.concat (g :: g' :: gs')) with (g ++ List.concat (g' :: gs')).
    rewrite join_app; [reflexivity | exact Hg |].
    inversion Hgs; subst. simpl. destruct g'; [contradiction | discriminate].
Qed.

Lemma join_groups_nl (groups : list (list string)) :
  Forall (fun g => g <> []) groups ->
  Py.join Chunk.nl (map (Py.join Chunk.nl) groups)
  = Py.join Chunk.nl (List.concat groups).
Proof. intros H. exact (join_groups Chunk.nl groups H). Qed.

(** The context plays no part in the grouping. *)
Lemma grouped_context done chunks cur ctx ctx' :
  grouped done (chunks, cur, ctx) -> grouped done (chunks, cur, ctx').
Proof. intros (groups & H); exists groups; exact H. Qed.

Lemma grouped_close done chunks cur ctx ctx' :
  cur <> [] ->
  grouped done (chunks, cur, ctx) -> grouped done (close chunks cur ctx, [], ctx').
Proof.
  intros Hne (groups & Hm & Hn & Hc). cbn [fst snd] in *.
  exists (groups ++ [cur]). cbn [fst snd]. repeat split.
  - unfold close. rewrite !map_app, Hm. reflexivity.
  - apply Forall_app. split; [exact Hn|]. constructor; [exact Hne | constructor].
  - rewrite concat_app. simpl. rewrite !app_nil_r. exact Hc.
Qed.

Lemma grouped_append done chunks cur ctx ctx' line :
  grouped done (chunks, cur, ctx) ->
  grouped (done ++ [line]) (chunks, cur ++ [line], ctx').
Proof.
  intros (groups & Hm & Hn & Hc). cbn [fst snd] in *.
  exists groups. cbn [fst snd]. repeat split; try assumption.
  rewrite app_assoc, Hc. reflexivity.
Qed.

Lemma step_grouped max_chunk_size done state line :
  grouped done state -> grouped (done ++ [line]) (step max_chunk_size state line).
Proof.
  destruct state as [[chunks cur] ctx]. intros G. unfold step.
  assert (Tail : forall chunks' cur' ctx' ctx'',
            grouped done (chunks', cur', ctx') ->
            grouped (done ++ [line])
              (if (max_chunk_size <? Py.len (Py.join Chunk.nl (cur' ++ [line])))%Z
               then (close chunks' (cur' ++ [line]) ctx'', [], [])
               else (chunks', cur' ++ [line], ctx''))).
  { intros chunks' cur' ctx' ctx'' G'.
    pose proof (grouped_append done chunks' cur' ctx' ctx'' line G') as A.
    destruct (max_chunk_size <? Py.len (Py.join Chunk.nl (cur' ++ [line])))%Z;
      [|exact A].
    apply (grouped_close _ _ _ ctx''); [destruct cur'; discriminate | exact A]. }
  destruct (starts_function line).
  - destruct cur as [|l ls].
    + apply (Tail chunks [] ctx). exact G.
    + apply (Tail (close chunks (l :: ls) ctx) [] []).
      apply (grouped_close done chunks (l :: ls) ctx []); [discriminate | exact G].
  - apply (Tail chunks cur ctx). exact G.
Qed.

Lemma fold_grouped max_chunk_size lines : forall done state,
  grouped done state ->
  grouped (done ++ lines) (fold_left (step max_chunk_size) lines state).
Proof.
  induction lines as [|l ls IH]; intros done state H; simpl.
  - rewrite app_nil_r. exact H.
  - replace (done ++ l :: ls) with ((done ++ [l]) ++ ls)
      by (rewrite <- app_assoc; reflexivity).
    apply IH. apply step_grouped. exact H.
Qed.

End LineFactsOfChunks.

(** X30.  The chunker by function boundaries loses no line and adds
    none: the texts of its chunks, joined by newlines, are the code. *)
Theorem chunk_code_round_trip :
  forall (code : string) (max_chunk_size : Z),
    Py.join Chunk.nl (map fst (ChunkCode.chunk_code code max_chunk_size)) = code.
Proof.
  intros code max_chunk_size. unfold ChunkCode.chunk_code. cbv zeta.
  pose proof (LineFactsOfChunks.fold_grouped max_chunk_size
                (Py.split (ascii_of_nat 10) code) [] ([], [], [])) as G.
  assert (G0 : Lines.grouped [] ([], [], [])).
  { exists []. repeat split; constructor. }
  specialize (G G0). simpl app in G.
  destruct (fold_left (ChunkCode.step max_chunk_size)
              (Py.split (ascii_of_nat 10) code) ([], [], [])) as [[chunks cur] ctx].
  destruct G as (groups & Hm & Hn & Hc). cbn [fst snd] in Hm, Hc.
  rewrite <- (LineFactsOfChunks.join_split code). rewrite <- Hc.
  destruct cur as [|l ls].
  - rewrite Hm, app_nil_r. apply LineFactsOfChunks.join_groups_nl. exact Hn.
  - unfold ChunkCode.close. rewrite map_app, Hm. cbn [map fst].
    change [Py.join Chunk.nl (l :: ls)] with (map (Py.join Chunk.nl) [l :: ls]).
    rewrite <- map_app, LineFactsOfChunks.join_groups_nl.
    + rewrite concat_app. cbn [List.concat]. rewrite app_nil_r. reflexivity.
    + apply Forall_app. split; [exact Hn|]. constructor; [discriminate | constructor].
Qed.
